(** * OpenDart executive-purchase monitor: a shallow embedding

    Source: [monitor_executive_purchases_dart.py].

    - A Python [str] is a sequence of Unicode code points: [list Z].  The
      string literals of the source are written as UTF-8 literals and
      decoded by [u].
    - [response.json()] can return any JSON value ([json]).  A JSON object
      is a [Dict] with the members the program reads; listing entries and
      detail documents are maps from member names to strings ([Item]), the
      types the source declares ([ExecutiveDisclosure] has [str] fields,
      [extract_purchase_details] takes [content: str]).
    - The two OpenDart endpoints, the Telegram endpoint, the clock and the
      output directory form a [World]; an HTTP exchange ends in an
      [http_result].
    - A method returns an [outcome] (a value, an exception, or the
      exhaustion of the fuel of the [while True] loop) together with the
      events it performed, in order; the methods of [ExecutiveMonitor] also
      thread [processed_disclosures].
    - Message texts and log lines are represented by their template and
      its arguments; [setup_logging] and the contents of the result file
      are not modelled. *)

From Stdlib Require Import ZArith List Bool Lia String Ascii.
From stdpp Require Import base gmap sets list.
Import ListNotations.
Local Open Scope Z_scope.

(** ** Python strings *)

Abbreviation pystr := (list Z).

Module PyStr.

(** Decoding of a UTF-8 byte sequence into code points (used for the
    literals of this file only). *)
Fixpoint utf8_decode (fuel : nat) (bs : list Z) : pystr :=
  match fuel with
  | O => []
  | S fuel' =>
    match bs with
    | [] => []
    | b0 :: r0 =>
      if b0 <? 128 then b0 :: utf8_decode fuel' r0
      else if b0 <? 224 then
        match r0 with
        | b1 :: r1 =>
          ((b0 - 192) * 64 + (b1 - 128)) :: utf8_decode fuel' r1
        | _ => []
        end
      else if b0 <? 240 then
        match r0 with
        | b1 :: b2 :: r2 =>
          ((b0 - 224) * 4096 + (b1 - 128) * 64 + (b2 - 128))
            :: utf8_decode fuel' r2
        | _ => []
        end
      else
        match r0 with
        | b1 :: b2 :: b3 :: r3 =>
          ((b0 - 240) * 262144 + (b1 - 128) * 4096 + (b2 - 128) * 64
             + (b3 - 128)) :: utf8_decode fuel' r3
        | _ => []
        end
    end
  end.

Definition bytes_of_string (s : string) : list Z :=
  List.map (fun a => Z.of_N (N_of_ascii a)) (list_ascii_of_string s).

(** [u "..."] is the Python [str] written by the literal. *)
Definition u (s : string) : pystr :=
  let bs := bytes_of_string s in utf8_decode (length bs) bs.

(** [prefix_of p s]: [s.startswith(p)]. *)
Fixpoint prefix_of (p s : pystr) : bool :=
  match p, s with
  | [], _ => true
  | _ :: _, [] => false
  | a :: p', b :: s' => (a =? b) && prefix_of p' s'
  end.

(** [str_in p s]: the Python expression [p in s] on two strings. *)
Fixpoint str_in (p s : pystr) : bool :=
  prefix_of p s ||
  match s with
  | [] => false
  | _ :: s' => str_in p s'
  end.

(** [py_any f xs]: [any(f(x) for x in xs)]. *)
Definition py_any {A} (f : A -> bool) (xs : list A) : bool := existsb f xs.

(** [s[:n]] *)
Definition slice_to (n : nat) (s : pystr) : pystr := firstn n s.

(** [Py_UNICODE_ISSPACE]: the characters [str.strip()] removes and that
    [\s] matches in a [str] pattern. *)
Definition is_space (c : Z) : bool :=
  ((9 <=? c) && (c <=? 13)) || ((28 <=? c) && (c <=? 32)) ||
  (c =? 133) || (c =? 160) || (c =? 5760) ||
  ((8192 <=? c) && (c <=? 8202)) || (c =? 8232) || (c =? 8233) ||
  (c =? 8239) || (c =? 8287) || (c =? 12288).

Fixpoint lstrip (s : pystr) : pystr :=
  match s with
  | c :: s' => if is_space c then lstrip s' else s
  | [] => []
  end.

Definition rstrip (s : pystr) : pystr := rev (lstrip (rev s)).

(** [s.strip()] *)
Definition strip (s : pystr) : pystr := rstrip (lstrip s).

End PyStr.
Import PyStr.


(** ** Unicode data used by [re]

    [\d] in a [str] pattern matches every character of category Nd.  The
    table belongs to the interpreter's Unicode database, not to the
    program; it is taken as a parameter together with the one fact about
    it that does not depend on the Unicode version: below 128 the decimal
    digits are exactly ['0'..'9']. *)
Record UnicodeDb := {
  is_decimal : Z -> bool;
  is_decimal_ascii :
    forall c, 0 <= c < 128 -> is_decimal c = (48 <=? c) && (c <=? 57)
}.

(** The smallest such table: only ['0'..'9']. *)
Definition ascii_db : UnicodeDb :=
  {| is_decimal := fun c => (48 <=? c) && (c <=? 57);
     is_decimal_ascii := fun c _ => eq_refl |}.

(** ** Regular expressions: the fragment of [re] the source uses *)

Module Regex.

Inductive regex :=
| Eps
| Lit (c : Z)
| CharSet (p : Z -> bool)
| Seq (r1 r2 : regex)
| Repeat (lo : nat) (hi : option nat) (r : regex)
| Group (r : regex).

(** One way of matching: the text consumed, the text captured by group 1
    so far, and the remaining input. *)
Record way := { consumed : pystr; group1 : option pystr; rest : pystr }.

Definition hi_allows (hi : option nat) : bool :=
  match hi with Some O => false | _ => true end.

Definition hi_pred (hi : option nat) : option nat :=
  match hi with Some n => Some (Nat.pred n) | None => None end.

(** Greedy repetition [r{lo,hi}] of a body matcher [m], in backtracking
    order: one more iteration first, stopping here last.  An iteration has
    to consume input ([fuel] bounds the number of iterations by the length
    of the input). *)
Fixpoint repeat_greedy (m : option pystr -> pystr -> list way)
    (fuel lo : nat) (hi : option nat) (cap : option pystr) (s : pystr)
    : list way :=
  (match fuel with
   | O => []
   | S fuel' =>
     if hi_allows hi then
       flat_map (fun w1 =>
         if (length (rest w1) <? length s)%nat then
           List.map (fun w2 =>
                  {| consumed := consumed w1 ++ consumed w2;
                     group1 := group1 w2; rest := rest w2 |})
               (repeat_greedy m fuel' (Nat.pred lo) (hi_pred hi)
                              (group1 w1) (rest w1))
         else []) (m cap s)
     else []
   end) ++
  (match lo with
   | O => [{| consumed := []; group1 := cap; rest := s |}]
   | S _ => []
   end).

(** All ways in which [r] matches a prefix of [s], in the priority order of
    a backtracking matcher. *)
Fixpoint rmatch (r : regex) (cap : option pystr) (s : pystr) : list way :=
  match r with
  | Eps => [{| consumed := []; group1 := cap; rest := s |}]
  | Lit c =>
    match s with
    | x :: s' =>
      if x =? c then [{| consumed := [x]; group1 := cap; rest := s' |}]
      else []
    | [] => []
    end
  | CharSet p =>
    match s with
    | x :: s' =>
      if p x then [{| consumed := [x]; group1 := cap; rest := s' |}] else []
    | [] => []
    end
  | Seq r1 r2 =>
    flat_map (fun w1 =>
      List.map (fun w2 =>
             {| consumed := consumed w1 ++ consumed w2;
                group1 := group1 w2; rest := rest w2 |})
          (rmatch r2 (group1 w1) (rest w1)))
      (rmatch r1 cap s)
  | Repeat lo hi r1 => repeat_greedy (rmatch r1) (length s) lo hi cap s
  | Group r1 =>
    List.map (fun w1 =>
           {| consumed := consumed w1; group1 := Some (consumed w1);
              rest := rest w1 |})
        (rmatch r1 cap s)
  end.

(** [re.search(r, s)]: the first way of the leftmost position that has one;
    the result is [m.group(1)] of the match object ([None]: no match). *)
Fixpoint search (r : regex) (s : pystr) : option (option pystr) :=
  match rmatch r None s with
  | w :: _ => Some (group1 w)
  | [] =>
    match s with
    | [] => None
    | _ :: s' => search r s'
    end
  end.

(** The literal text [t] followed by [k]. *)
Definition text (t : pystr) (k : regex) : regex :=
  fold_right (fun c r => Seq (Lit c) r) k t.

Definition star (r : regex) : regex := Repeat 0 None r.
Definition plus (r : regex) : regex := Repeat 1 None r.
Definition times (lo hi : nat) (r : regex) : regex := Repeat lo (Some hi) r.

Definition ord (s : string) : Z := hd 0 (u s).
Definition range (a b : string) (c : Z) : bool :=
  (ord a <=? c) && (c <=? ord b).
Definition one_of (t : string) (c : Z) : bool :=
  existsb (Z.eqb c) (u t).

End Regex.
Import Regex.

(** ** Data model *)

(** [ExecutiveDisclosure] (dataclass of the source). *)
Record ExecutiveDisclosure := {
  corp_name : pystr;
  corp_code : pystr;
  stock_code : pystr;
  report_nm : pystr;
  rcept_no : pystr;
  flr_nm : pystr;
  rcept_dt : pystr;
  rm : pystr
}.

(** A listing entry or a detail document: a JSON object whose members are
    strings (the types the dataclass and the annotations declare). *)
Abbreviation Item := (gmap pystr pystr).

(** [item.get(key, '')] *)
Definition item_get (item : Item) (key : string) : pystr :=
  default [] (item !! u key).

(** A response object of the upstream API ([Dict] in the annotations):
    the members the program reads, ['status'] and ['list'], and
    ['message'] for the others. *)
Record Dict := {
  d_status : option pystr;
  d_message : option pystr;
  d_list : option (list Item)
}.

(** [{}] *)
Definition empty_dict : Dict :=
  {| d_status := None; d_message := None; d_list := None |}.

(** What [response.json()] can return: any JSON value. *)
Inductive json :=
| JObject (d : Dict)
| JArray (elems : list Item)
| JString (s : pystr)
| JNumber (n : Z)
| JBool (b : bool)
| JNull.

(** Python truth value of a parsed JSON value. *)
Definition truthy (j : json) : bool :=
  match j with
  | JObject d =>
    match d_status d, d_message d, d_list d with
    | None, None, None => false
    | _, _, _ => true
    end
  | JArray l => match l with [] => false | _ => true end
  | JString s => match s with [] => false | _ => true end
  | JNumber n => negb (n =? 0)
  | JBool b => b
  | JNull => false
  end.

(** The dict built by [extract_purchase_details]. *)
Record PurchaseInfo := {
  reporter : pystr;
  position : pystr;
  transaction_type : pystr;
  shares : pystr;
  price : pystr;
  transaction_date : pystr;
  reason : pystr;
  content_preview : pystr
}.

(** One element of [purchase_results]. *)
Record MonitoringEvent := {
  disclosure : ExecutiveDisclosure;
  purchase_info : PurchaseInfo;
  detected_at : pystr
}.

Inductive exception :=
| ConnectionError
| ReadTimeout
| HTTPError (status_code : Z)
| JSONDecodeError
| AttributeError
| UnboundLocalError.

(** What one HTTP exchange of [requests] ends in: a transport failure, a
    timeout, or a final response with its status code and its body
    ([None]: the body is not JSON). *)
Inductive http_result :=
| ConnectionFailed
| TimedOut
| Response (status_code : Z) (body : option json).

(** Texts handed to [TelegramNotifier.send_message], by the template that
    produces them. *)
Inductive message :=
| PurchaseAlert (d : ExecutiveDisclosure) (info : PurchaseInfo) (at_ : pystr)
| TestMessage (at_ : pystr)
| CompletionMessage (at_ : pystr)
| ErrorMessage (e : exception) (at_ : pystr).

(** The [logging] calls of the source. *)
Inductive log_text :=
| LogListFailed (e : exception)
| LogDetailFailed (rcept : pystr) (e : exception)
| LogPage (page_no : Z)
| LogFound (d : ExecutiveDisclosure)
| LogTotal (n : nat)
| LogExtractFailed (e : exception)
| LogSent
| LogSendFailed (e : exception)
| LogRange (start_str end_str : pystr)
| LogNoDisclosures
| LogChecking (d : ExecutiveDisclosure)
| LogPurchase (d : ExecutiveDisclosure)
| LogSaved
| LogSaveFailed
| LogNoTelegram
| LogStart
| LogTestOk
| LogPurchases (n : nat)
| LogNoPurchases
| LogRunError (e : exception)
| LogDone.

(** Observable effects, in the order the program performs them. *)
Inductive event :=
| LogInfo (l : log_text)
| LogError (l : log_text)
| GetList (bgn_de end_de corp_cls : pystr) (page_no page_count : Z)
| GetDocument (rcept : pystr)
| PostMessage (m : message) (delivered : bool)
| AddProcessed (rcept : pystr)
| Sleep (seconds : Z)
| WriteResults (results : list MonitoringEvent).

(** The world the program runs against: the two OpenDart endpoints, the
    Telegram endpoint, the clock and the output directory. *)
Record World := {
  list_json : pystr -> pystr -> pystr -> Z -> Z -> http_result;
  document_json : pystr -> http_result;
  sendMessage : message -> http_result;
  date_Ymd : Z -> pystr;
  now : pystr;
  output_writable : bool
}.

(** ** Effects *)

Inductive outcome (A : Type) :=
| Ok (a : A)
| Raise (e : exception)
| OutOfFuel.
Arguments Ok {A} a.
Arguments Raise {A} e.
Arguments OutOfFuel {A}.

(** Methods of [OpenDartAPI] and [TelegramNotifier] keep no state: they
    produce an outcome and the events they performed. *)
Definition W (A : Type) : Type := outcome A * list event.

#[global] Instance w_ret : MRet W := fun A a => (Ok a, []).

#[global] Instance w_bind : MBind W := fun A B k m =>
  match m with
  | (Ok a, t) => let r := k a in (fst r, t ++ snd r)
  | (Raise e, t) => (Raise e, t)
  | (OutOfFuel, t) => (OutOfFuel, t)
  end.

Definition w_emit (e : event) : W unit := (Ok tt, [e]).

Definition w_lift {A} (o : outcome A) : W A := (o, []).

(** [try: m  except Exception as e: h e] *)
Definition w_try {A} (m : W A) (h : exception -> W A) : W A :=
  match m with
  | (Raise e, t) => let r := h e in (fst r, t ++ snd r)
  | _ => m
  end.

(** Methods of [ExecutiveMonitor] also read and write the object's
    [processed_disclosures]; [main] has the local variable [monitor].  Both
    are computations over a state [S] that produce an outcome, the next
    state and the events performed. *)
Definition ST (S A : Type) : Type := S -> outcome A * S * list event.

#[global] Instance st_ret {S} : MRet (ST S) := fun A a s => (Ok a, s, []).

#[global] Instance st_bind {S} : MBind (ST S) := fun A B k m s =>
  match m s with
  | (Ok a, s', t) =>
    let r := k a s' in (fst (fst r), snd (fst r), t ++ snd r)
  | (Raise e, s', t) => (Raise e, s', t)
  | (OutOfFuel, s', t) => (OutOfFuel, s', t)
  end.

Definition lift {S A} (m : W A) : ST S A := fun s => (fst m, s, snd m).

(** [prepend t r]: the result [r] after the events [t]. *)
Definition prepend {S A} (t : list event) (r : outcome A * S * list event)
    : outcome A * S * list event :=
  (fst (fst r), snd (fst r), t ++ snd r).

(** The state of an [ExecutiveMonitor]: its [processed_disclosures]. *)
Abbreviation M := (ST (gset pystr)).

Definition get_processed : M (gset pystr) := fun P => (Ok P, P, []).

(** [self.processed_disclosures.add(rcept)] *)
Definition add_processed (rcept : pystr) : M unit :=
  fun P => (Ok tt, {[rcept]} ∪ P, [AddProcessed rcept]).

(** [try: m  except Exception as e: h e] *)
Definition st_try {S A} (m : ST S A) (h : exception -> ST S A) : ST S A :=
  fun s =>
    match m s with
    | (Raise e, s', t) =>
      let r := h e s' in (fst (fst r), snd (fst r), t ++ snd r)
    | r => r
    end.

(** [try: m  finally: f] *)
Definition st_finally {S A} (m : ST S A) (f : ST S unit) : ST S A :=
  fun s =>
    match m s with
    | (o, s', t) =>
      match f s' with
      | (Ok _, s'', t') => (o, s'', t ++ t')
      | (Raise e, s'', t') => (Raise e, s'', t ++ t')
      | (OutOfFuel, s'', t') => (OutOfFuel, s'', t ++ t')
      end
    end.

(** The local variable [monitor] of [main]: unbound, or bound to a
    monitor with its [processed_disclosures]. *)
Abbreviation Locals := (option (gset pystr)).

(** [monitor = ExecutiveMonitor(...)] *)
Definition new_monitor : ST Locals unit := fun _ => (Ok tt, Some ∅, []).

(** ['monitor' in locals()] *)
Definition monitor_in_locals : ST Locals bool :=
  fun loc =>
    (Ok (match loc with Some _ => true | None => false end), loc, []).

(** [monitor.method(...)] *)
Definition on_monitor {A} (m : M A) : ST Locals A :=
  fun loc =>
    match loc with
    | Some P => let r := m P in (fst (fst r), Some (snd (fst r)), snd r)
    | None => (Raise UnboundLocalError, None, [])
    end.

(** ** The program *)

Section Program.

Context (db : UnicodeDb) (world : World).

Definition log_info (l : log_text) : W unit := w_emit (LogInfo l).
Definition log_error (l : log_text) : W unit := w_emit (LogError l).

(** *** requests *)

(** [response.raise_for_status()]: [HTTPError] for the status codes 4xx
    and 5xx. *)
Definition raise_for_status (status_code : Z) : outcome unit :=
  if (400 <=? status_code) && (status_code <? 600)
  then Raise (HTTPError status_code) else Ok tt.

(** [r = session.get(...); r.raise_for_status(); r.json()] *)
Definition response_json (r : http_result) : outcome json :=
  match r with
  | ConnectionFailed => Raise ConnectionError
  | TimedOut => Raise ReadTimeout
  | Response code body =>
    match raise_for_status code with
    | Ok _ =>
      match body with
      | Some j => Ok j
      | None => Raise JSONDecodeError
      end
    | Raise e => Raise e
    | OutOfFuel => OutOfFuel
    end
  end.

(** [r = requests.post(...); r.raise_for_status()] *)
Definition response_ok (r : http_result) : outcome unit :=
  match r with
  | ConnectionFailed => Raise ConnectionError
  | TimedOut => Raise ReadTimeout
  | Response code _ => raise_for_status code
  end.

(** *** OpenDartAPI *)

Definition get_disclosure_list (bgn_de end_de corp_cls : pystr)
    (page_no page_count : Z) : W json :=
  w_emit (GetList bgn_de end_de corp_cls page_no page_count) ;;
  w_try
    (w_lift (response_json
               (list_json world bgn_de end_de corp_cls page_no page_count)))
    (fun e => log_error (LogListFailed e) ;; mret (JObject empty_dict)).

Definition get_disclosure_detail (rcept : pystr) : W json :=
  w_emit (GetDocument rcept) ;;
  w_try
    (w_lift (response_json (document_json world rcept)))
    (fun e => log_error (LogDetailFailed rcept e) ;;
              mret (JObject empty_dict)).

Definition executive_keywords : list pystr :=
  [ u "임원ㆍ주요주주특정증권등소유상황보고서";
    u "임원·주요주주특정증권등소유상황보고서";
    u "임원특정증권등소유상황보고서";
    u "주요주주특정증권등소유상황보고서" ].

(** [any(keyword in report_nm for keyword in executive_keywords)] *)
Definition is_executive_report (report_nm : pystr) : bool :=
  py_any (fun keyword => str_in keyword report_nm) executive_keywords.

(** [data.get('status') == '000' and 'list' in data], then
    [all_data.extend(data['list'])], for each [data]. *)
Fixpoint merge_data (datas : list json) (all_data : list Item)
    : outcome (list Item) :=
  match datas with
  | [] => Ok all_data
  | JObject d :: datas' =>
    if bool_decide (d_status d = Some (u "000")) then
      match d_list d with
      | Some l => merge_data datas' (all_data ++ l)
      | None => merge_data datas' all_data
      end
    else merge_data datas' all_data
  | _ :: _ => Raise AttributeError
  end.

Definition to_disclosure (item : Item) : ExecutiveDisclosure :=
  {| corp_name := item_get item "corp_name";
     corp_code := item_get item "corp_code";
     stock_code := item_get item "stock_code";
     report_nm := item_get item "report_nm";
     rcept_no := item_get item "rcept_no";
     flr_nm := item_get item "flr_nm";
     rcept_dt := item_get item "rcept_dt";
     rm := item_get item "rm" |}.

(** [for item in all_data: ...] *)
Fixpoint filter_items (all_data : list Item)
    (disclosures : list ExecutiveDisclosure) : W (list ExecutiveDisclosure) :=
  match all_data with
  | [] => mret disclosures
  | item :: all_data' =>
    if is_executive_report (item_get item "report_nm") then
      log_info (LogFound (to_disclosure item)) ;;
      filter_items all_data' (disclosures ++ [to_disclosure item])
    else filter_items all_data' disclosures
  end.

(** The [while True] loop; [fuel] bounds the number of iterations. *)
Fixpoint search_loop (fuel : nat) (start_date end_date : pystr)
    (page_no : Z) (disclosures : list ExecutiveDisclosure)
    : W (list ExecutiveDisclosure) :=
  match fuel with
  | O => (OutOfFuel, [])
  | S fuel' =>
    log_info (LogPage page_no) ;;
    kospi_data ← get_disclosure_list start_date end_date (u "Y") page_no 100 ;
    kosdaq_data ← get_disclosure_list start_date end_date (u "K") page_no 100 ;
    all_data ← w_lift (merge_data [kospi_data; kosdaq_data] []) ;
    match all_data with
    | [] => mret disclosures
    | _ :: _ =>
      disclosures' ← filter_items all_data disclosures ;
      if (length all_data <? 100)%nat then mret disclosures'
      else if page_no + 1 >? 10 then mret disclosures'
      else search_loop fuel' start_date end_date (page_no + 1) disclosures'
    end
  end.

Definition search_executive_disclosures (start_date end_date : pystr)
    : W (list ExecutiveDisclosure) :=
  disclosures ← search_loop 10 start_date end_date 1 [] ;
  log_info (LogTotal (length disclosures)) ;;
  mret disclosures.

Inductive field := Reporter | Position | Shares | Price | TransactionDate.

Definition set_field (k : field) (v : pystr) (p : PurchaseInfo)
    : PurchaseInfo :=
  {| reporter := match k with Reporter => v | _ => reporter p end;
     position := match k with Position => v | _ => position p end;
     transaction_type := transaction_type p;
     shares := match k with Shares => v | _ => shares p end;
     price := match k with Price => v | _ => price p end;
     transaction_date :=
       match k with TransactionDate => v | _ => transaction_date p end;
     reason := reason p;
     content_preview := content_preview p |}.

Definition set_type_reason (v : pystr) (p : PurchaseInfo) : PurchaseInfo :=
  {| reporter := reporter p;
     position := position p;
     transaction_type := v;
     shares := shares p;
     price := price p;
     transaction_date := transaction_date p;
     reason := v;
     content_preview := content_preview p |}.

Definition hangul : Z -> bool := range "가" "힣".
Definition digit : regex := CharSet (is_decimal db).
Definition colon_or_space (c : Z) : bool := one_of ":" c || is_space c.
Definition date_sep : regex := CharSet (one_of "-./").

(** [\d{1,3}(?:,\d{3})*] *)
Definition grouped_number : regex :=
  Seq (times 1 3 digit) (star (Seq (Lit (ord ",")) (times 3 3 digit))).

(** The dict [patterns], in its insertion order. *)
Definition patterns : list (field * regex) :=
  [ (Reporter,
     text (u "보고자")
       (Seq (star (CharSet colon_or_space)) (Group (plus (CharSet hangul)))));
    (Position,
     text (u "직위")
       (Seq (star (CharSet colon_or_space))
            (Group (plus (CharSet (fun c => hangul c || is_space c))))));
    (Shares,
     Seq (Group grouped_number)
         (Seq (star (CharSet is_space)) (Lit (ord "주"))));
    (Price,
     Seq (Group grouped_number)
         (Seq (star (CharSet is_space)) (Lit (ord "원"))));
    (TransactionDate,
     Group (Seq (times 4 4 digit)
           (Seq date_sep
           (Seq (times 1 2 digit)
           (Seq date_sep (times 1 2 digit)))))) ].

(** [for key, pattern in patterns.items(): ...]; [match.group(1)] of a
    group that did not take part is [None], and [None.strip()] raises. *)
Fixpoint apply_patterns (ps : list (field * regex)) (content : pystr)
    (info : PurchaseInfo) : outcome PurchaseInfo :=
  match ps with
  | [] => Ok info
  | (key, pattern) :: ps' =>
    match search pattern content with
    | Some (Some g) => apply_patterns ps' content (set_field key (strip g) info)
    | Some None => Raise AttributeError
    | None => apply_patterns ps' content info
    end
  end.

Definition initial_info (content : pystr) : PurchaseInfo :=
  {| reporter := []; position := []; transaction_type := [];
     shares := []; price := []; transaction_date := []; reason := [];
     content_preview :=
       if (200 <? length content)%nat
       then slice_to 200 content ++ u "..." else content |}.

Definition extract_purchase_details (content : pystr) (doc : Item)
    : W (option PurchaseInfo) :=
  w_try
    (info ← w_lift (apply_patterns patterns content (initial_info content)) ;
     if str_in (u "장내매수") content || str_in (u "장내 매수") content then
       mret (Some (set_type_reason (u "장내매수") info))
     else if str_in (u "매수") content then
       mret (Some (set_type_reason (u "매수") info))
     else mret None)
    (fun e => log_error (LogExtractFailed e) ;; mret None).

Definition purchase_keywords : list pystr :=
  [ u "장내매수"; u "장내 매수"; u "매수"; u "취득" ].

(** [for doc in detail['list']: ...] *)
Fixpoint check_documents (docs : list Item) : W (option PurchaseInfo) :=
  match docs with
  | [] => mret None
  | doc :: docs' =>
    let content := item_get doc "content" in
    if py_any (fun keyword => str_in keyword content) purchase_keywords then
      purchase_info ← extract_purchase_details content doc ;
      match purchase_info with
      | Some info => mret (Some info)
      | None => check_documents docs'
      end
    else check_documents docs'
  end.

Definition check_purchase_transaction (rcept : pystr)
    : W (option PurchaseInfo) :=
  detail ← get_disclosure_detail rcept ;
  if negb (truthy detail) then mret None
  else
    match detail with
    | JObject d =>
      if negb (bool_decide (d_status d = Some (u "000"))) then mret None
      else
        match d_list d with
        | Some docs => check_documents docs
        | None => mret None
        end
    | _ => w_lift (Raise AttributeError)
    end.

(** *** TelegramNotifier *)

Definition send_message (m : message) : W bool :=
  match response_ok (sendMessage world m) with
  | Ok _ => w_emit (PostMessage m true) ;; log_info LogSent ;; mret true
  | Raise e =>
    w_emit (PostMessage m false) ;; log_error (LogSendFailed e) ;; mret false
  | OutOfFuel => (OutOfFuel, [])
  end.

Definition format_executive_purchase_message (d : ExecutiveDisclosure)
    (info : PurchaseInfo) : message :=
  PurchaseAlert d info (now world).

Definition send_test_message : W bool :=
  send_message (TestMessage (now world)).

(** *** ExecutiveMonitor *)

Definition get_date_range (days_back : Z) : W (pystr * pystr) :=
  let start_str := date_Ymd world days_back in
  let end_str := date_Ymd world 0 in
  log_info (LogRange start_str end_str) ;;
  mret (start_str, end_str).

(** [for disclosure in disclosures: ...] *)
Fixpoint monitor_loop (disclosures : list ExecutiveDisclosure)
    (purchase_results : list MonitoringEvent) : M (list MonitoringEvent) :=
  match disclosures with
  | [] => mret purchase_results
  | d :: disclosures' =>
    processed ← get_processed ;
    if bool_decide (rcept_no d ∈ processed) then
      monitor_loop disclosures' purchase_results
    else
      lift (log_info (LogChecking d)) ;;
      found ← lift (check_purchase_transaction (rcept_no d)) ;
      match found with
      | Some info =>
        lift (log_info (LogPurchase d)) ;;
        lift (send_message (format_executive_purchase_message d info)) ;;
        add_processed (rcept_no d) ;;
        lift (w_emit (Sleep 1)) ;;
        monitor_loop disclosures'
          (purchase_results ++
           [{| disclosure := d; purchase_info := info;
               detected_at := now world |}])
      | None => monitor_loop disclosures' purchase_results
      end
  end.

Definition monitor_executive_purchases (days_back : Z)
    : M (list MonitoringEvent) :=
  dates ← lift (get_date_range days_back) ;
  disclosures ←
    lift (search_executive_disclosures (fst dates) (snd dates)) ;
  match disclosures with
  | [] => lift (log_info LogNoDisclosures) ;; mret []
  | _ :: _ => monitor_loop disclosures []
  end.

Definition save_results (results : list MonitoringEvent) : W unit :=
  match results with
  | [] => mret tt
  | _ :: _ =>
    if output_writable world
    then w_emit (WriteResults results) ;; log_info LogSaved
    else log_error LogSaveFailed
  end.

(** *** main *)

(** [not x] for a value of [os.getenv]. *)
Definition unset (x : option pystr) : bool :=
  match x with
  | None | Some [] => true
  | Some (_ :: _) => false
  end.

(** The body of [try:]. *)
Definition main_try (telegram_token telegram_chat_id : option pystr)
    : ST Locals unit :=
  if unset telegram_token || unset telegram_chat_id then
    lift (log_error LogNoTelegram)
  else
    lift (log_info LogStart) ;;
    new_monitor ;;
    sent ← lift send_test_message ;
    (if sent : bool then lift (log_info LogTestOk) else mret tt) ;;
    results ← on_monitor (monitor_executive_purchases 1) ;
    match results with
    | _ :: _ =>
      lift (log_info (LogPurchases (length results))) ;;
      lift (save_results results)
    | [] =>
      lift (log_info LogNoPurchases) ;;
      lift (send_message (CompletionMessage (now world))) ;;
      mret tt
    end.

(** [except Exception as e: ...] *)
Definition main_except (e : exception) : ST Locals unit :=
  lift (log_error (LogRunError e)) ;;
  bound ← monitor_in_locals ;
  if bound : bool
  then lift (send_message (ErrorMessage e (now world))) ;; mret tt
  else mret tt.

Definition main (telegram_token telegram_chat_id : option pystr)
    : outcome unit * Locals * list event :=
  st_finally
    (st_try (main_try telegram_token telegram_chat_id) main_except)
    (lift (log_info LogDone))
    None.

End Program.

(** * Vocabulary of the statements *)

Section Vocabulary.

Context (db : UnicodeDb) (world : World).

(** The value [get_disclosure_list] returns. *)
Definition list_value (bgn_de end_de corp_cls : pystr)
    (page_no page_count : Z) : json :=
  match response_json
          (list_json world bgn_de end_de corp_cls page_no page_count) with
  | Ok j => j
  | _ => JObject empty_dict
  end.

(** The value [get_disclosure_detail] returns. *)
Definition detail_value (rcept : pystr) : json :=
  match response_json (document_json world rcept) with
  | Ok j => j
  | _ => JObject empty_dict
  end.

End Vocabulary.

(** ** Worlds used by the examples *)

Definition ok_dict (l : list Item) : http_result :=
  Response 200
    (Some (JObject {| d_status := Some (u "000"); d_message := None;
                      d_list := Some l |})).

(** The answer of the upstream API when it has no data. *)
Definition no_data : http_result :=
  Response 200
    (Some (JObject {| d_status := Some (u "013");
                      d_message := Some (u "조회된 데이타가 없습니다.");
                      d_list := None |})).

(** Nothing answers. *)
Definition dead_world : World :=
  {| list_json := fun _ _ _ _ _ => ConnectionFailed;
     document_json := fun _ => TimedOut;
     sendMessage := fun _ => ConnectionFailed;
     date_Ymd := fun _ => u "20240115";
     now := u "2024-01-15 09:00:00 KST";
     output_writable := true |}.

(** The listing endpoint answers with status 300 and a JSON body. *)
Definition multiple_choices_body : json :=
  JObject {| d_status := Some (u "000"); d_message := None;
             d_list := Some [ {[ u "rcept_no" := u "20240115000001" ]} ] |}.

Definition multiple_choices_world : World :=
  {| list_json := fun _ _ _ _ _ => Response 300 (Some multiple_choices_body);
     document_json := fun _ => Response 300 (Some multiple_choices_body);
     sendMessage := fun _ => ConnectionFailed;
     date_Ymd := fun _ => u "20240115";
     now := u "2024-01-15 09:00:00 KST";
     output_writable := true |}.

(** ** Vocabulary for the extractor *)

(** [captures r]: group 1 lies on every path through [r]. *)
Fixpoint captures (r : regex) : bool :=
  match r with
  | Group _ => true
  | Seq r1 r2 => captures r1 || captures r2
  | _ => false
  end.

(** [consuming r]: every way of [r] consumes at least one character. *)
Fixpoint consuming (r : regex) : bool :=
  match r with
  | Lit _ | CharSet _ => true
  | Seq r1 r2 => consuming r1 || consuming r2
  | Repeat (S _) _ r1 => consuming r1
  | Group r1 => consuming r1
  | _ => false
  end.

(** [bodies_consuming r]: the body of every repetition in [r] is
    consuming, so that no iteration is left out for consuming nothing. *)
Fixpoint bodies_consuming (r : regex) : bool :=
  match r with
  | Seq r1 r2 => bodies_consuming r1 && bodies_consuming r2
  | Repeat _ _ r1 => consuming r1 && bodies_consuming r1
  | Group r1 => bodies_consuming r1
  | _ => true
  end.

(** [any(keyword in content for keyword in purchase_keywords)] *)
Definition has_purchase_keyword (content : pystr) : bool :=
  py_any (fun keyword => str_in keyword content) purchase_keywords.

(** What [extract_purchase_details] returns for a document. *)
Definition extracted (db : UnicodeDb) (doc : Item) : option PurchaseInfo :=
  match fst (extract_purchase_details db (item_get doc "content") doc) with
  | Ok (Some info) => Some info
  | _ => None
  end.

(** [findPurchaseEvidence] as the specification words it: the evidence
    extracted from the first document whose content contains a purchase
    keyword. *)
Definition find_purchase_evidence_spec (db : UnicodeDb) (docs : list Item)
    : option PurchaseInfo :=
  match find (fun doc => has_purchase_keyword (item_get doc "content")) docs with
  | Some doc => extracted db doc
  | None => None
  end.

(** A filing whose first document speaks of an acquisition and whose
    second document reports the on-market purchase. *)
Definition acquisition_docs : list Item :=
  [ {[ u "content" := u "주식 취득 보고" ]};
    {[ u "content" := u "보고자: 홍길동 장내매수 1,000주" ]} ].

Definition acquisition_world : World :=
  {| list_json := fun _ _ _ _ _ => no_data;
     document_json := fun _ => ok_dict acquisition_docs;
     sendMessage := fun _ => Response 200 None;
     date_Ymd := fun _ => u "20240115";
     now := u "2024-01-15 09:00:00 KST";
     output_writable := true |}.

(** A document from which [check_purchase_transaction] takes evidence:
    it passes the keyword test and the extraction returns a dict. *)
Definition yields_evidence (db : UnicodeDb) (doc : Item) : bool :=
  has_purchase_keyword (item_get doc "content") &&
  match extracted db doc with Some _ => true | None => false end.

(** A content with neither purchase keyword of the classification: not
    the on-market phrase, with or without the space, and not the bare
    word. *)
Definition no_purchase_word (content : pystr) : Prop :=
  str_in (u "장내매수") content || str_in (u "장내 매수") content = false /\
  str_in (u "매수") content = false.

(** ** Vocabulary for the search *)

(** The entries a response contributes to [all_data]. *)
Definition entries (j : json) : list Item :=
  match j with
  | JObject d =>
    if bool_decide (d_status d = Some (u "000"))
    then default [] (d_list d) else []
  | _ => []
  end.

Section SearchVocabulary.

Context (world : World) (start_date end_date : pystr).

(** [all_data] of page [p]: the entries of the two market segments. *)
Definition page_entries (p : Z) : list Item :=
  entries (list_value world start_date end_date (u "Y") p 100) ++
  entries (list_value world start_date end_date (u "K") p 100).

(** The combined entry count of page [p]. *)
Definition combined_count (p : Z) : nat := length (page_entries p).

(** Every page response the listing endpoint delivers without an
    exception is a JSON object. *)
Definition object_pages : Prop :=
  forall (corp_cls : pystr) (p : Z),
    exists d, list_value world start_date end_date corp_cls p 100 = JObject d.

(** The events of one iteration before the filter. *)
Definition page_requests (p : Z) : list event :=
  [LogInfo (LogPage p)] ++
  snd (get_disclosure_list world start_date end_date (u "Y") p 100) ++
  snd (get_disclosure_list world start_date end_date (u "K") p 100).

End SearchVocabulary.

(** The disclosures [filter_items] appends for [all_data]. *)
Definition qualifying (all_data : list Item) : list ExecutiveDisclosure :=
  List.map to_disclosure
    (List.filter (fun item => is_executive_report (item_get item "report_nm"))
       all_data).

(** The page at which the pagination stops, as the specification words
    it: from page [p] with [remaining] more pages allowed, the first page
    whose combined count is below 100, or the last allowed page. *)
Fixpoint stop_page (count : Z -> nat) (remaining : nat) (p : Z) : Z :=
  match remaining with
  | O => p
  | S n => if (count p <? 100)%nat then p else stop_page count n (p + 1)
  end.

(** Pages 1 to 10. *)
Definition last_page (count : Z -> nat) : Z := stop_page count 9 1.

(** The page numbers of the loop iterations, from the log. *)
Definition pages_logged (t : list event) : list Z :=
  flat_map (fun e => match e with LogInfo (LogPage p) => [p] | _ => [] end) t.

(** The listing requests issued: market segment and page number. *)
Definition requests (t : list event) : list (pystr * Z) :=
  flat_map (fun e => match e with
                     | GetList _ _ corp_cls p _ => [(corp_cls, p)]
                     | _ => []
                     end) t.

(** A listing with the given numbers of entries on the main board, page by
    page, and no data on the secondary board. *)
Definition other_report : Item :=
  {[ u "report_nm" := u "사업보고서"; u "rcept_no" := u "20240115000002" ]}.

Definition paged_world (lengths : list nat) : World :=
  {| list_json := fun _ _ corp_cls p _ =>
       if bool_decide (corp_cls = u "Y")
       then ok_dict (repeat other_report
                       (nth (Z.to_nat (p - 1)) lengths 0%nat))
       else no_data;
     document_json := fun _ => TimedOut;
     sendMessage := fun _ => Response 200 None;
     date_Ymd := fun _ => u "20240115";
     now := u "2024-01-15 09:00:00 KST";
     output_writable := true |}.

(** ** Vocabulary for the orchestrator *)

(** The side effects the deduplication is about: a purchase alert handed
    to Telegram for a receipt number (with the result of [send_message]),
    and the insertion of a receipt number into [processed_disclosures]. *)
Inductive effect :=
| Notified (rcept : pystr) (delivered : bool)
| Marked (rcept : pystr).

Definition effects (t : list event) : list effect :=
  flat_map (fun e => match e with
                     | PostMessage (PurchaseAlert d _ _) ok =>
                       [Notified (rcept_no d) ok]
                     | AddProcessed r => [Marked r]
                     | _ => []
                     end) t.

(** The receipt numbers for which a monitoring event was produced and
    handed to the notifier. *)
Definition emitted (t : list event) : list pystr :=
  flat_map (fun e => match e with
                     | PostMessage (PurchaseAlert d _ _) _ => [rcept_no d]
                     | _ => []
                     end) t.

(** The receipt numbers whose detail was requested. *)
Definition fetched (t : list event) : list pystr :=
  flat_map (fun e => match e with GetDocument r => [r] | _ => [] end) t.

(** The receipt number of a monitoring event. *)
Definition event_rcept (ev : MonitoringEvent) : pystr :=
  rcept_no (disclosure ev).

Section MonitorVocabulary.

Context (db : UnicodeDb) (world : World).

(** What [check_purchase_transaction] returns for a receipt number. *)
Definition evidence (rcept : pystr) : outcome (option PurchaseInfo) :=
  fst (check_purchase_transaction db world rcept).

(** What [send_message] returns for a message. *)
Definition delivered (m : message) : bool :=
  match response_ok (sendMessage world m) with
  | Ok _ => true
  | _ => false
  end.

Definition event_of (d : ExecutiveDisclosure) (info : PurchaseInfo)
    : MonitoringEvent :=
  {| disclosure := d; purchase_info := info; detected_at := now world |}.

(** The events of an iteration up to the detail check. *)
Definition checked_trace (d : ExecutiveDisclosure) : list event :=
  LogInfo (LogChecking d)
    :: snd (check_purchase_transaction db world (rcept_no d)).

(** The events of an iteration that found evidence. *)
Definition emitted_trace (d : ExecutiveDisclosure) (info : PurchaseInfo)
    : list event :=
  checked_trace d ++
  [LogInfo (LogPurchase d)] ++
  snd (send_message world (format_executive_purchase_message world d info)) ++
  [AddProcessed (rcept_no d); Sleep 1].

(** A filing on which the loop does nothing but, at most, look: it is
    already processed, or its detail gives no evidence. *)
Definition settled (P : gset pystr) (d : ExecutiveDisclosure) : Prop :=
  rcept_no d ∈ P \/ evidence (rcept_no d) = Ok None.

End MonitorVocabulary.

(** The two effects of a monitoring event, in the order the loop
    performs them. *)
Definition notify_then_mark (world : World) (ev : MonitoringEvent)
    : list effect :=
  [ Notified (event_rcept ev)
      (delivered world
         (format_executive_purchase_message world (disclosure ev)
            (purchase_info ev)));
    Marked (event_rcept ev) ].

(** The notifications that tell how a run ended: the completion message
    and the error message. *)
Definition terminals (t : list event) : list message :=
  flat_map (fun e => match e with
                     | PostMessage (CompletionMessage a) _ =>
                       [CompletionMessage a]
                     | PostMessage (ErrorMessage x a) _ => [ErrorMessage x a]
                     | _ => []
                     end) t.


(** Every message handed to Telegram. *)
Definition posts (t : list event) : list message :=
  flat_map (fun e => match e with PostMessage m _ => [m] | _ => [] end) t.

(** A trace without alerts, marks, detail requests and terminal
    notifications. *)
Definition quiet (t : list event) : Prop :=
  effects t = [] /\ emitted t = [] /\ fetched t = [] /\ terminals t = [].

(** A disclosure that carries a receipt number. *)
Definition has_rcept (d : ExecutiveDisclosure) : bool :=
  match rcept_no d with
  | [] => false
  | _ :: _ => true
  end.

Section RunVocabulary.

Context (world : World) (days_back : Z).

(** The search of a run, with the date range of the run. *)
Definition run_search : W (list ExecutiveDisclosure) :=
  search_executive_disclosures world
    (date_Ymd world days_back) (date_Ymd world 0).

(** The events of a run up to the end of the search. *)
Definition search_trace : list event :=
  LogInfo (LogRange (date_Ymd world days_back) (date_Ymd world 0))
    :: snd run_search.

End RunVocabulary.

(** ** Worlds with filings, for the examples *)

Definition samsung_filing : Item :=
  {[ u "report_nm" := u "임원ㆍ주요주주특정증권등소유상황보고서";
     u "rcept_no" := u "20240115000001";
     u "corp_name" := u "삼성전자";
     u "flr_nm" := u "홍길동" ]}.

(** Two filings of different companies, both without a receipt number. *)
Definition unnumbered_filing_a : Item :=
  {[ u "report_nm" := u "임원ㆍ주요주주특정증권등소유상황보고서";
     u "corp_name" := u "삼성전자" ]}.

Definition unnumbered_filing_b : Item :=
  {[ u "report_nm" := u "임원ㆍ주요주주특정증권등소유상황보고서";
     u "corp_name" := u "현대자동차" ]}.

Definition purchase_document : Item :=
  {[ u "content" := u "보고자: 홍길동 장내매수 1,000주 2024-01-15" ]}.

(** A listing of one page on the main board; every detail reports an
    on-market purchase; Telegram answers with the given result. *)
Definition listing_world (page : list Item) (telegram : http_result) : World :=
  {| list_json := fun _ _ corp_cls p _ =>
       if bool_decide (corp_cls = u "Y") && (p =? 1)
       then ok_dict page else no_data;
     document_json := fun _ => ok_dict [purchase_document];
     sendMessage := fun _ => telegram;
     date_Ymd := fun _ => u "20240115";
     now := u "2024-01-15 09:00:00 KST";
     output_writable := true |}.

(** The filing is listed on both boards, and Telegram is down. *)
Definition both_boards_world : World :=
  {| list_json := fun _ _ corp_cls p _ =>
       if p =? 1 then ok_dict [samsung_filing] else no_data;
     document_json := fun _ => ok_dict [purchase_document];
     sendMessage := fun _ => Response 502 None;
     date_Ymd := fun _ => u "20240115";
     now := u "2024-01-15 09:00:00 KST";
     output_writable := true |}.

Definition hyundai_filing : Item :=
  {[ u "report_nm" := u "임원ㆍ주요주주특정증권등소유상황보고서";
     u "rcept_no" := u "20240115000002";
     u "corp_name" := u "현대자동차";
     u "flr_nm" := u "김철수" ]}.

(** Two filings with evidence, and a working Telegram. *)
Definition two_purchases_world : World :=
  listing_world [samsung_filing; hyundai_filing] (Response 200 None).


(** ** Vocabulary for the field extraction *)

(** [first_way r cap s t cap' s']: the first way in which [r] matches at
    the start of [s] consumes [t], leaves [s'] and has [cap'] as group 1;
    it is the way [re] reports when [r] is the whole pattern. *)
Definition first_way (r : regex) (cap : option pystr) (s t : pystr)
    (cap' : option pystr) (s' : pystr) : Prop :=
  exists ws,
    rmatch r cap s = {| consumed := t; group1 := cap'; rest := s' |} :: ws.

(** The same for the repetition of a body matcher. *)
Definition first_repeat (m : option pystr -> pystr -> list way)
    (fuel lo : nat) (hi : option nat) (cap : option pystr) (s t : pystr)
    (cap' : option pystr) (s' : pystr) : Prop :=
  exists ws,
    repeat_greedy m fuel lo hi cap s
    = {| consumed := t; group1 := cap'; rest := s' |} :: ws.

Definition field_eqb (a b : field) : bool :=
  match a, b with
  | Reporter, Reporter | Position, Position | Shares, Shares
  | Price, Price | TransactionDate, TransactionDate => true
  | _, _ => false
  end.

(** [patterns[key]] *)
Definition pattern_for (db : UnicodeDb) (key : field) : regex :=
  match find (fun kr => field_eqb (fst kr) key) (patterns db) with
  | Some kr => snd kr
  | None => Eps
  end.

(** The value a pattern gives its field: [match.group(1).strip()], or
    the initial empty string without a match. *)
Definition field_value (m : option (option pystr)) : pystr :=
  match m with
  | Some (Some g) => strip g
  | _ => []
  end.

(** ** Vocabulary for the further properties *)

(** The events a search may perform: log lines and listing requests. *)
Definition search_event (e : event) : bool :=
  match e with
  | LogInfo _ | LogError _ | GetList _ _ _ _ _ => true
  | _ => false
  end.

(** The events the loop over the disclosures may perform: log lines,
    detail requests, purchase alerts, insertions and pauses. *)
Definition loop_event (e : event) : bool :=
  match e with
  | LogInfo _ | LogError _ | GetDocument _ | AddProcessed _ | Sleep _ => true
  | PostMessage (PurchaseAlert _ _ _) _ => true
  | _ => false
  end.

(** A listing request as [search_executive_disclosures] issues them: the
    given date range, one of the two market segments, a page from 1 to 10
    and the page size 100. *)
Definition listing_request_ok (start_date end_date : pystr) (e : event)
    : Prop :=
  match e with
  | GetList bgn_de end_de corp_cls page_no page_count =>
    bgn_de = start_date /\ end_de = end_date /\
    (corp_cls = u "Y" \/ corp_cls = u "K") /\
    1 <= page_no <= 10 /\ page_count = 100
  | _ => True
  end.

(** The disclosures logged as found. *)
Definition found_logged (t : list event) : list ExecutiveDisclosure :=
  flat_map (fun e => match e with LogInfo (LogFound d) => [d] | _ => [] end) t.

(** The purchase alerts handed to Telegram: the filing and the evidence
    of each. *)
Definition alerts (t : list event)
    : list (ExecutiveDisclosure * PurchaseInfo) :=
  flat_map (fun e => match e with
                     | PostMessage (PurchaseAlert d info _) _ => [(d, info)]
                     | _ => []
                     end) t.

(** The pauses, in seconds. *)
Definition pauses (t : list event) : list Z :=
  flat_map (fun e => match e with Sleep n => [n] | _ => [] end) t.

(** The result lists written to the output file. *)
Definition written (t : list event) : list (list MonitoringEvent) :=
  flat_map (fun e => match e with WriteResults rs => [rs] | _ => [] end) t.

(** [isinstance(j, dict)] *)
Definition is_object (j : json) : bool :=
  match j with JObject _ => true | _ => false end.

(** [g] occurs in [s] as a contiguous piece. *)
Definition piece_of (g s : pystr) : Prop := exists a b, s = a ++ g ++ b.

(** The characters an expression can consume. *)
Fixpoint alphabet (r : regex) (c : Z) : bool :=
  match r with
  | Eps => false
  | Lit x => c =? x
  | CharSet p => p c
  | Seq r1 r2 => alphabet r1 c || alphabet r2 c
  | Repeat _ _ r1 => alphabet r1 c
  | Group r1 => alphabet r1 c
  end.

(** The characters group 1 of an expression can capture. *)
Fixpoint group_alphabet (r : regex) (c : Z) : bool :=
  match r with
  | Seq r1 r2 => group_alphabet r1 c || group_alphabet r2 c
  | Repeat _ _ r1 => group_alphabet r1 c
  | Group r1 => alphabet r1 c
  | _ => false
  end.

(** [info[key]] for the five extracted fields. *)
Definition get_field (k : field) (p : PurchaseInfo) : pystr :=
  match k with
  | Reporter => reporter p
  | Position => position p
  | Shares => shares p
  | Price => price p
  | TransactionDate => transaction_date p
  end.

(** The character classes inside the parentheses of the five patterns. *)
Definition field_alphabet (db : UnicodeDb) (k : field) (c : Z) : bool :=
  match k with
  | Reporter => hangul c
  | Position => hangul c || is_space c
  | Shares | Price => is_decimal db c || (c =? ord ",")
  | TransactionDate => is_decimal db c || one_of "-./" c
  end.

(** Group 1 after a way [w] that started at [s] with group 1 being [cap]:
    unchanged, or a piece of [s] made of characters of [p]. *)
Definition captured_ok (p : Z -> bool) (cap : option pystr) (s : pystr)
    (w : way) : Prop :=
  group1 w = cap \/
  exists g, group1 w = Some g /\ forallb p g = true /\ piece_of g s.

(** A content in which no character satisfies [p]. *)
Definition none_of (p : Z -> bool) (content : pystr) : Prop :=
  forall c, In c content -> p c = false.

(** * Properties *)

(** ** Literals and substring search *)

Example u_hangul : u "가힣" = [44032; 55203].
Proof. reflexivity. Qed.

Example u_ascii : u "000" = [48; 48; 48].
Proof. reflexivity. Qed.

Example u_middle_dots : u "ㆍ·" = [12685; 183].
Proof. reflexivity. Qed.

Example u_purchase_words :
  u "장내매수" = [51109; 45236; 47588; 49688] /\
  u "장내 매수" = [51109; 45236; 32; 47588; 49688] /\
  u "취득" = [52712; 46301].
Proof. repeat split. Qed.

Example u_units : u "주" = [51452] /\ u "원" = [50896].
Proof. split; reflexivity. Qed.

Example in_1 : str_in (u "매수") (u "장내매수") = true.
Proof. reflexivity. Qed.

Example in_2 : str_in (u "장내매수") (u "장내 매수") = false.
Proof. reflexivity. Qed.

Lemma prefix_of_spec (p s : pystr) :
  prefix_of p s = true <-> exists t, s = p ++ t.
Proof.
  revert s. induction p as [|a p IH]; intros s; simpl.
  - split; [intros _; exists s; reflexivity | reflexivity].
  - destruct s as [|b s].
    + split; [discriminate | intros [t Ht]; discriminate].
    + rewrite andb_true_iff, Z.eqb_eq, IH. split.
      * intros [-> [t ->]]. exists t. reflexivity.
      * intros [t Ht]. injection Ht as -> ->. split; [reflexivity | eauto].
Qed.

(** [p in s] holds exactly when [s] is some text, then [p], then some
    text. *)
Lemma str_in_spec (p s : pystr) :
  str_in p s = true <-> exists pre post, s = pre ++ p ++ post.
Proof.
  induction s as [|c s IH].
  - simpl. rewrite orb_false_r, prefix_of_spec. split.
    + intros [t Ht]. exists [], t. exact Ht.
    + intros [pre [post H]]. destruct pre; [|discriminate].
      exists post. exact H.
  - change (str_in p (c :: s)) with (prefix_of p (c :: s) || str_in p s).
    rewrite orb_true_iff, prefix_of_spec, IH. split.
    + intros [[t Ht] | [pre [post Hs]]].
      * exists [], t. exact Ht.
      * exists (c :: pre), post. simpl. rewrite Hs. reflexivity.
    + intros [pre [post H]]. destruct pre as [|c' pre].
      * left. exists post. exact H.
      * right. simpl in H. injection H as _ Hs. eauto.
Qed.

Lemma str_in_middle (p pre post : pystr) : str_in p (pre ++ p ++ post) = true.
Proof. apply str_in_spec. eauto. Qed.

Lemma py_any_spec {A} (f : A -> bool) (xs : list A) :
  py_any f xs = true <-> exists x, In x xs /\ f x = true.
Proof. apply existsb_exists. Qed.

(** ** ReportClassifier *)

(** C5. A report name qualifies exactly when it contains one of the four
    title variants as a substring (code point for code point, hence case
    sensitive); replacing the text around a contained variant by any other
    text, a permutation or a duplication of it included, leaves the
    result unchanged. *)
Theorem C5_is_executive_report_substring :
  length executive_keywords = 4%nat /\
  (forall report_nm : pystr,
     is_executive_report report_nm = true <->
     exists keyword pre post,
       In keyword executive_keywords /\ report_nm = pre ++ keyword ++ post) /\
  (forall keyword pre post pre' post' : pystr,
     In keyword executive_keywords ->
     is_executive_report (pre' ++ keyword ++ post')
     = is_executive_report (pre ++ keyword ++ post)).
Proof.
  assert (Hiff : forall report_nm : pystr,
     is_executive_report report_nm = true <->
     exists keyword pre post,
       In keyword executive_keywords /\ report_nm = pre ++ keyword ++ post).
  { intros report_nm. unfold is_executive_report. rewrite py_any_spec. split.
    - intros [k [Hk Hin]]. apply str_in_spec in Hin as [pre [post ->]]. eauto.
    - intros [k [pre [post [Hk ->]]]]. exists k. split; [exact Hk|].
      apply str_in_middle. }
  split; [reflexivity | split; [exact Hiff|]].
  intros keyword pre post pre' post' Hk.
  assert (Hall : forall a b : pystr,
            is_executive_report (a ++ keyword ++ b) = true).
  { intros a b. apply Hiff. eauto. }
  rewrite !Hall. reflexivity.
Qed.

(** The surrounding text swapped and doubled around the third variant. *)
Lemma C5_witness :
  In (u "임원특정증권등소유상황보고서") executive_keywords /\
  is_executive_report
    ((u "[정정]" ++ u "[정정]") ++ u "임원특정증권등소유상황보고서" ++ u "(2024)")
  = is_executive_report
      (u "(2024)" ++ u "임원특정증권등소유상황보고서" ++ u "[정정]").
Proof.
  assert (H : In (u "임원특정증권등소유상황보고서") executive_keywords).
  { right. right. left. reflexivity. }
  split; [exact H|].
  exact (proj2 (proj2 C5_is_executive_report_substring) _ _ _ _ _ H).
Defined.

(** ** Effects: equations of the two monads *)

Lemma w_bind_ok {A B} (k : A -> W B) (a : A) (t : list event) :
  mbind k ((Ok a, t) : W A) = (fst (k a), t ++ snd (k a)).
Proof. reflexivity. Qed.


Lemma w_bind_pair {A B} (k : A -> W B) (m : W A) (a : A) :
  fst m = Ok a -> mbind k m = (fst (k a), snd m ++ snd (k a)).
Proof. destruct m as [o t]. simpl. intros ->. reflexivity. Qed.



Lemma st_bind_lift {S A B} (k : A -> ST S B) (m : W A) (s : S) :
  mbind k (lift m) s
  = match fst m with
    | Ok a =>
      let r := k a s in (fst (fst r), snd (fst r), snd m ++ snd r)
    | Raise e => (Raise e, s, snd m)
    | OutOfFuel => (OutOfFuel, s, snd m)
    end.
Proof. destruct m as [[a|e|] t]; reflexivity. Qed.

Lemma prepend_pair {S A} (t t' : list event) (o : outcome A) (s : S) :
  prepend t (o, s, t') = (o, s, t ++ t').
Proof. reflexivity. Qed.

Lemma prepend_nil {S A} (r : outcome A * S * list event) : prepend [] r = r.
Proof. destruct r as [[o s] t]. reflexivity. Qed.

Lemma st_bind_lift_prepend {S A B} (k : A -> ST S B) (m : W A) (s : S) :
  mbind k (lift m) s
  = match fst m with
    | Ok a => prepend (snd m) (k a s)
    | Raise e => (Raise e, s, snd m)
    | OutOfFuel => (OutOfFuel, s, snd m)
    end.
Proof. destruct m as [[a|e|] t]; reflexivity. Qed.

Lemma st_bind_ret {S A B} (k : A -> ST S B) (a : A) (s : S) :
  mbind k (mret a) s = k a s.
Proof.
  unfold mbind, st_bind, mret, st_ret. cbv zeta.
  destruct (k a s) as [[o s'] t]. reflexivity.
Qed.

Lemma st_bind_new_monitor {B} (k : unit -> ST Locals B) (loc : Locals) :
  mbind k new_monitor loc = k tt (Some ∅).
Proof.
  unfold mbind, st_bind, new_monitor. cbv zeta.
  destruct (k tt (Some ∅)) as [[o s'] t]. reflexivity.
Qed.

Lemma st_bind_in_locals {B} (k : bool -> ST Locals B) (loc : Locals) :
  mbind k monitor_in_locals loc
  = k (match loc with Some _ => true | None => false end) loc.
Proof.
  unfold mbind, st_bind, monitor_in_locals. cbv zeta.
  destruct (k _ loc) as [[o s'] t]. reflexivity.
Qed.

Lemma st_bind_on_monitor {A B} (k : A -> ST Locals B) (m : M A)
    (P : gset pystr) :
  mbind k (on_monitor m) (Some P)
  = match fst (fst (m P)) with
    | Ok a => prepend (snd (m P)) (k a (Some (snd (fst (m P)))))
    | Raise e => (Raise e, Some (snd (fst (m P))), snd (m P))
    | OutOfFuel => (OutOfFuel, Some (snd (fst (m P))), snd (m P))
    end.
Proof.
  unfold mbind, st_bind, on_monitor. cbv zeta.
  destruct (m P) as [[[a|e|] P'] t]; reflexivity.
Qed.

(** ** DisclosureSource *)

Section DisclosureSource.

Context (world : World).

(** The request sequence fails exactly on a transport failure, a timeout,
    a status code 4xx or 5xx, or a body that is not JSON. *)
Lemma response_json_raises (r : http_result) :
  (exists e, response_json r = Raise e) <->
  r = ConnectionFailed \/ r = TimedOut \/
  (exists code body, r = Response code body /\ 400 <= code < 600) \/
  (exists code, r = Response code None).
Proof.
  unfold response_json, raise_for_status. split.
  - intros [e He]. destruct r as [| |code body]; [tauto | tauto |].
    destruct ((400 <=? code) && (code <? 600)) eqn:Hc.
    + right; right; left. exists code, body. split; [reflexivity | lia].
    + destruct body; [discriminate|]. right; right; right. eauto.
  - intros [-> | [-> | [[code [body [-> Hc]]] | [code ->]]]]; eauto.
    + replace ((400 <=? code) && (code <? 600)) with true by lia. eauto.
    + destruct ((400 <=? code) && (code <? 600)); eauto.
Qed.

Lemma response_json_fuel (r : http_result) : response_json r <> OutOfFuel.
Proof.
  unfold response_json, raise_for_status. destruct r as [| |code body];
    try discriminate.
  destruct ((400 <=? code) && (code <? 600)); [discriminate|].
  destruct body; discriminate.
Qed.

Lemma get_disclosure_list_value bgn_de end_de corp_cls page_no page_count :
  fst (get_disclosure_list world bgn_de end_de corp_cls page_no page_count)
  = Ok (list_value world bgn_de end_de corp_cls page_no page_count).
Proof.
  unfold get_disclosure_list, list_value.
  pose proof (response_json_fuel
    (list_json world bgn_de end_de corp_cls page_no page_count)) as Hf.
  destruct (response_json _); [reflexivity | reflexivity | congruence].
Qed.

Lemma get_disclosure_detail_value rcept :
  fst (get_disclosure_detail world rcept) = Ok (detail_value world rcept).
Proof.
  unfold get_disclosure_detail, detail_value.
  pose proof (response_json_fuel (document_json world rcept)) as Hf.
  destruct (response_json _); [reflexivity | reflexivity | congruence].
Qed.

End DisclosureSource.

(** C9 (as amended).  [get_disclosure_list] and [get_disclosure_detail]
    never raise; when the request fails with an exception (a transport
    failure, a timeout, a status code 4xx or 5xx, a body that is not JSON)
    they log one error and return the empty dict; the detail check of such
    a filing is [None] and a first page whose two requests fail ends the
    search normally with no disclosure.  A response with another status
    code and a JSON body is returned as parsed. *)
Theorem C9_request_failure_gives_empty_dict :
  forall (db : UnicodeDb) (world : World)
         (bgn_de end_de corp_cls rcept : pystr) (page_no page_count : Z),
    (exists data,
       fst (get_disclosure_list world bgn_de end_de corp_cls page_no page_count)
       = Ok data) /\
    (exists detail, fst (get_disclosure_detail world rcept) = Ok detail) /\
    (forall r,
       r = ConnectionFailed \/ r = TimedOut \/
       (exists code body, r = Response code body /\ 400 <= code < 600) \/
       (exists code, r = Response code None) ->
       exists e, response_json r = Raise e) /\
    (forall e,
       response_json
         (list_json world bgn_de end_de corp_cls page_no page_count)
       = Raise e ->
       get_disclosure_list world bgn_de end_de corp_cls page_no page_count
       = (Ok (JObject empty_dict),
          [GetList bgn_de end_de corp_cls page_no page_count;
           LogError (LogListFailed e)])) /\
    (forall e,
       response_json (document_json world rcept) = Raise e ->
       get_disclosure_detail world rcept
       = (Ok (JObject empty_dict),
          [GetDocument rcept; LogError (LogDetailFailed rcept e)]) /\
       fst (check_purchase_transaction db world rcept) = Ok None) /\
    (forall e1 e2,
       response_json (list_json world bgn_de end_de (u "Y") 1 100)
       = Raise e1 ->
       response_json (list_json world bgn_de end_de (u "K") 1 100)
       = Raise e2 ->
       fst (search_executive_disclosures world bgn_de end_de) = Ok []) /\
    (forall code data,
       list_json world bgn_de end_de corp_cls page_no page_count
       = Response code (Some data) ->
       ~ (400 <= code < 600) ->
       fst (get_disclosure_list world bgn_de end_de corp_cls page_no page_count)
       = Ok data).
Proof.
  intros db world bgn_de end_de corp_cls rcept page_no page_count.
  split; [eexists; apply get_disclosure_list_value|].
  split; [eexists; apply get_disclosure_detail_value|].
  split; [intros r Hr; apply response_json_raises; exact Hr|].
  split; [|split; [|split]].
  - intros e He. unfold get_disclosure_list. rewrite He. reflexivity.
  - intros e He. split.
    + unfold get_disclosure_detail. rewrite He. reflexivity.
    + unfold check_purchase_transaction, get_disclosure_detail.
      rewrite He. reflexivity.
  - intros e1 e2 H1 H2.
    unfold search_executive_disclosures, search_loop, get_disclosure_list.
    rewrite H1, H2. reflexivity.
  - intros code data Hr Hcode.
    unfold get_disclosure_list, response_json, raise_for_status.
    rewrite Hr. replace ((400 <=? code) && (code <? 600)) with false by lia.
    reflexivity.
Qed.

Lemma C9_witness :
  (ConnectionFailed = ConnectionFailed \/ ConnectionFailed = TimedOut \/
   (exists code body, ConnectionFailed = Response code body /\
                      400 <= code < 600) \/
   (exists code, ConnectionFailed = Response code None)) /\
  response_json (document_json dead_world (u "20240115000001"))
  = Raise ReadTimeout /\
  fst (check_purchase_transaction ascii_db dead_world (u "20240115000001"))
  = Ok None /\
  fst (search_executive_disclosures dead_world (u "20240114") (u "20240115"))
  = Ok [].
Proof.
  pose proof (C9_request_failure_gives_empty_dict ascii_db dead_world
                (u "20240114") (u "20240115") (u "Y") (u "20240115000001")
                1 100) as [_ [_ [_ [_ [Hd [Hs _]]]]]].
  split; [left; reflexivity|].
  split; [reflexivity|].
  split.
  - exact (proj2 (Hd ReadTimeout eq_refl)).
  - exact (Hs ConnectionError ConnectionError eq_refl eq_refl).
Defined.

(** C9 as stated fails: a final response with the status code 300, which
    is not 2xx, and a JSON body is returned as parsed, not as the empty
    dict. *)
Lemma C9_counterexample :
  ~ (forall (world : World) (corp_cls : pystr) (code : Z) (body : option json),
       list_json world (u "20240114") (u "20240115") corp_cls 1 100
       = Response code body ->
       ~ (200 <= code < 300) ->
       fst (get_disclosure_list world (u "20240114") (u "20240115")
              corp_cls 1 100)
       = Ok (JObject empty_dict)).
Proof.
  intros H.
  specialize (H multiple_choices_world (u "Y") 300
                (Some multiple_choices_body) eq_refl).
  assert (Hc : ~ (200 <= 300 < 300)) by lia.
  specialize (H Hc). vm_compute in H. discriminate H.
Qed.

(** ** The matcher: group 1 of a match *)

Section Capture.

Lemma repeat_greedy_keeps (m : option pystr -> pystr -> list way) :
  (forall cap s w, In w (m cap s) -> is_Some cap -> is_Some (group1 w)) ->
  forall fuel lo hi cap s w,
    In w (repeat_greedy m fuel lo hi cap s) ->
    is_Some cap -> is_Some (group1 w).
Proof.
  intros Hm fuel. induction fuel as [|fuel IH]; intros lo hi cap s w Hin Hcap;
    simpl in Hin.
  { destruct lo; [|destruct Hin]. destruct Hin as [<- | []]. exact Hcap. }
  apply in_app_or in Hin as [Hin | Hin].
  - destruct (hi_allows hi); [|destruct Hin].
    apply in_flat_map in Hin as [w1 [Hw1 Hin]].
    destruct (length (rest w1) <? length s)%nat; [|destruct Hin].
    apply in_map_iff in Hin as [w2 [<- Hw2]]. simpl.
    eapply IH; [exact Hw2|]. eapply Hm; eauto.
  - destruct lo; [|destruct Hin]. destruct Hin as [<- | []]. exact Hcap.
Qed.

Lemma rmatch_keeps (r : regex) :
  forall cap s w, In w (rmatch r cap s) -> is_Some cap -> is_Some (group1 w).
Proof.
  induction r as [|c|p|r1 IH1 r2 IH2|lo hi r1 IH1|r1 IH1];
    intros cap s w Hin Hcap; simpl in Hin.
  - destruct Hin as [<- | []]. exact Hcap.
  - destruct s as [|x s]; [destruct Hin|].
    destruct (x =? c); [|destruct Hin]. destruct Hin as [<- | []]. exact Hcap.
  - destruct s as [|x s]; [destruct Hin|].
    destruct (p x); [|destruct Hin]. destruct Hin as [<- | []]. exact Hcap.
  - apply in_flat_map in Hin as [w1 [Hw1 Hin]].
    apply in_map_iff in Hin as [w2 [<- Hw2]]. simpl.
    eapply IH2; [exact Hw2|]. eapply IH1; eauto.
  - eapply repeat_greedy_keeps; eauto.
  - apply in_map_iff in Hin as [w1 [<- Hw1]]. simpl. eauto.
Qed.

Lemma rmatch_captures (r : regex) :
  captures r = true ->
  forall cap s w, In w (rmatch r cap s) -> is_Some (group1 w).
Proof.
  induction r as [|c|p|r1 IH1 r2 IH2|lo hi r1 IH1|r1 IH1];
    simpl; try discriminate; intros Hc cap s w Hin.
  - apply in_flat_map in Hin as [w1 [Hw1 Hin]].
    apply in_map_iff in Hin as [w2 [<- Hw2]]. simpl.
    destruct (captures r2) eqn:H2.
    + eapply IH2; eauto.
    + rewrite orb_false_r in Hc. eapply rmatch_keeps; [exact Hw2|].
      eapply IH1; eauto.
  - apply in_map_iff in Hin as [w1 [<- Hw1]]. simpl. eauto.
Qed.

(** The match object of a pattern with group 1 on every path has a
    [group(1)]. *)
Lemma search_captures (r : regex) (s : pystr) :
  captures r = true -> search r s <> Some None.
Proof.
  intros Hc. induction s as [|x s IH]; simpl.
  - destruct (rmatch r None []) as [|w ws] eqn:Hm; [discriminate|].
    intros H. injection H as H.
    destruct (rmatch_captures r Hc None [] w) as [g Hg];
      [rewrite Hm; left; reflexivity | congruence].
  - destruct (rmatch r None (x :: s)) as [|w ws] eqn:Hm; [exact IH|].
    intros H. injection H as H.
    destruct (rmatch_captures r Hc None (x :: s) w) as [g Hg];
      [rewrite Hm; left; reflexivity | congruence].
Qed.

Lemma apply_patterns_ok (ps : list (field * regex)) (content : pystr) :
  forallb (fun kr => captures (snd kr)) ps = true ->
  forall info, exists info', apply_patterns ps content info = Ok info'.
Proof.
  induction ps as [|[key pattern] ps IH]; simpl; intros Hps info.
  - eauto.
  - apply andb_true_iff in Hps as [Hc Hps].
    pose proof (search_captures pattern content Hc) as Hs.
    destruct (search pattern content) as [[g|]|]; [eauto | congruence | eauto].
Qed.

Lemma patterns_capture (db : UnicodeDb) :
  forallb (fun kr => captures (snd kr)) (patterns db) = true.
Proof. reflexivity. Qed.

End Capture.

(** The bound on the iterations of a repetition is never the reason for a
    way to be missed: any two bounds of at least the length of the input
    give the same ways. *)
Lemma repeat_greedy_fuel (m : option pystr -> pystr -> list way) :
  forall fuel1 fuel2 lo hi cap s,
    (length s <= fuel1)%nat -> (length s <= fuel2)%nat ->
    repeat_greedy m fuel1 lo hi cap s = repeat_greedy m fuel2 lo hi cap s.
Proof.
  assert (Hnil : forall (f : way -> list way) l,
             (forall w, In w l -> f w = []) -> flat_map f l = []).
  { intros f l. induction l as [|w l IHl]; intros H; simpl; [reflexivity|].
    rewrite (H w) by (left; reflexivity). simpl. apply IHl.
    intros w' Hw'. apply H. right. exact Hw'. }
  assert (Hzero : forall fuel lo hi cap s,
             length s = 0%nat ->
             repeat_greedy m fuel lo hi cap s
             = match lo with
               | O => [{| consumed := []; group1 := cap; rest := s |}]
               | S _ => []
               end).
  { intros fuel lo hi cap s Hs. destruct fuel as [|fuel]; [reflexivity|].
    simpl. destruct (hi_allows hi); [|reflexivity].
    rewrite Hnil; [reflexivity|].
    intros w _. replace (length (rest w) <? length s)%nat with false;
      [reflexivity|]. symmetry. apply Nat.ltb_ge. lia. }
  intros fuel1. induction fuel1 as [|fuel1 IH];
    intros fuel2 lo hi cap s H1 H2.
  - rewrite !Hzero by lia. reflexivity.
  - destruct fuel2 as [|fuel2]; [rewrite !Hzero by lia; reflexivity|].
    simpl. f_equal.
    destruct (hi_allows hi); [|reflexivity]. apply flat_map_ext.
    intros w. destruct (length (rest w) <? length s)%nat eqn:Hlt;
      [|reflexivity].
    apply Nat.ltb_lt in Hlt. f_equal. apply IH; lia.
Qed.

(** A way splits the input into what it consumed and what it left. *)
Lemma repeat_greedy_split (m : option pystr -> pystr -> list way) :
  (forall cap s w, In w (m cap s) -> s = consumed w ++ rest w) ->
  forall fuel lo hi cap s w,
    In w (repeat_greedy m fuel lo hi cap s) -> s = consumed w ++ rest w.
Proof.
  intros Hm fuel. induction fuel as [|fuel IH]; intros lo hi cap s w Hin;
    simpl in Hin.
  { destruct lo; [|destruct Hin]. destruct Hin as [<- | []]. reflexivity. }
  apply in_app_or in Hin as [Hin | Hin].
  - destruct (hi_allows hi); [|destruct Hin].
    apply in_flat_map in Hin as [w1 [Hw1 Hin]].
    destruct (length (rest w1) <? length s)%nat; [|destruct Hin].
    apply in_map_iff in Hin as [w2 [<- Hw2]]. cbn [consumed rest].
    rewrite <- app_assoc, <- (IH _ _ _ _ _ Hw2). exact (Hm _ _ _ Hw1).
  - destruct lo; [|destruct Hin]. destruct Hin as [<- | []]. reflexivity.
Qed.

Lemma rmatch_split (r : regex) :
  forall cap s w, In w (rmatch r cap s) -> s = consumed w ++ rest w.
Proof.
  induction r as [|c|p|r1 IH1 r2 IH2|lo hi r1 IH1|r1 IH1];
    intros cap s w Hin; simpl in Hin.
  - destruct Hin as [<- | []]. reflexivity.
  - destruct s as [|x s]; [destruct Hin|].
    destruct (x =? c); [|destruct Hin]. destruct Hin as [<- | []].
    reflexivity.
  - destruct s as [|x s]; [destruct Hin|].
    destruct (p x); [|destruct Hin]. destruct Hin as [<- | []]. reflexivity.
  - apply in_flat_map in Hin as [w1 [Hw1 Hin]].
    apply in_map_iff in Hin as [w2 [<- Hw2]]. cbn [consumed rest].
    rewrite <- app_assoc, <- (IH2 _ _ _ Hw2). exact (IH1 _ _ _ Hw1).
  - exact (repeat_greedy_split _ IH1 _ _ _ _ _ _ Hin).
  - apply in_map_iff in Hin as [w1 [<- Hw1]]. cbn [consumed rest].
    exact (IH1 _ _ _ Hw1).
Qed.

Lemma rmatch_rest_le (r : regex) (cap : option pystr) (s : pystr) (w : way) :
  In w (rmatch r cap s) -> (length (rest w) <= length s)%nat.
Proof.
  intros Hin. pose proof (rmatch_split r cap s w Hin) as Hs.
  apply (f_equal (@length Z)) in Hs. rewrite length_app in Hs. lia.
Qed.

(** The ways of a consuming expression leave less than the input: the
    test of [repeat_greedy] that an iteration consumes something holds
    for them. *)
Lemma rmatch_consuming (r : regex) :
  consuming r = true ->
  forall cap s w, In w (rmatch r cap s) -> (length (rest w) < length s)%nat.
Proof.
  induction r as [|c|p|r1 IH1 r2 IH2|lo hi r1 IH1|r1 IH1];
    simpl; try discriminate; intros Hc cap s w Hin.
  - destruct s as [|x s]; [destruct Hin|].
    destruct (x =? c); [|destruct Hin]. destruct Hin as [<- | []].
    simpl. lia.
  - destruct s as [|x s]; [destruct Hin|].
    destruct (p x); [|destruct Hin]. destruct Hin as [<- | []]. simpl. lia.
  - apply in_flat_map in Hin as [w1 [Hw1 Hin]].
    apply in_map_iff in Hin as [w2 [<- Hw2]]. cbn [rest].
    pose proof (rmatch_rest_le _ _ _ _ Hw1) as H1.
    pose proof (rmatch_rest_le _ _ _ _ Hw2) as H2.
    apply orb_true_iff in Hc as [Hc | Hc].
    + specialize (IH1 Hc _ _ _ Hw1). lia.
    + specialize (IH2 Hc _ _ _ Hw2). lia.
  - destruct lo as [|lo]; [discriminate|].
    destruct (length s) as [|fuel] eqn:Hlen; simpl in Hin; [destruct Hin|].
    rewrite app_nil_r in Hin.
    destruct (hi_allows hi); [|destruct Hin].
    apply in_flat_map in Hin as [w1 [Hw1 Hin]].
    destruct (length (rest w1) <? length s)%nat eqn:Hlt; [|destruct Hin].
    apply Nat.ltb_lt in Hlt.
    apply in_map_iff in Hin as [w2 [<- Hw2]]. cbn [rest].
    pose proof (repeat_greedy_split (rmatch r1) (rmatch_split r1)
                  _ _ _ _ _ _ Hw2) as Hsplit.
    apply (f_equal (@length Z)) in Hsplit. rewrite length_app in Hsplit.
    lia.
  - apply in_map_iff in Hin as [w1 [<- Hw1]]. cbn [rest]. eauto.
Qed.

(** In the patterns of the source every repeated body is consuming. *)
Lemma patterns_bodies_consuming (db : UnicodeDb) :
  forallb (fun kr => bodies_consuming (snd kr)) (patterns db) = true.
Proof. reflexivity. Qed.

(** ** TransactionExtractor *)

Section Extractor.

Context (db : UnicodeDb).

Lemma strict_has_bare (content : pystr) :
  str_in (u "장내매수") content || str_in (u "장내 매수") content = true ->
  str_in (u "매수") content = true.
Proof.
  intros H. apply orb_true_iff in H as [H | H];
    apply str_in_spec in H as [pre [post ->]]; apply str_in_spec.
  - exists (pre ++ u "장내"), post. rewrite <- app_assoc. reflexivity.
  - exists (pre ++ u "장내 "), post. rewrite <- app_assoc. reflexivity.
Qed.

(** [extract_purchase_details] never raises and logs nothing: the five
    extractions go through, then the content is classified. *)
Lemma extract_purchase_details_eq (content : pystr) (doc : Item) :
  exists info,
    apply_patterns (patterns db) content (initial_info content) = Ok info /\
    extract_purchase_details db content doc
    = (Ok (if str_in (u "장내매수") content || str_in (u "장내 매수") content
           then Some (set_type_reason (u "장내매수") info)
           else if str_in (u "매수") content
                then Some (set_type_reason (u "매수") info)
                else None), []).
Proof.
  destruct (apply_patterns_ok (patterns db) content (patterns_capture db)
              (initial_info content)) as [info Hinfo].
  exists info. split; [exact Hinfo|].
  unfold extract_purchase_details. rewrite Hinfo.
  destruct (str_in (u "장내매수") content || str_in (u "장내 매수") content);
    [reflexivity|].
  destruct (str_in (u "매수") content); reflexivity.
Qed.

Lemma extracted_bare (doc : Item) :
  str_in (u "매수") (item_get doc "content") = true ->
  exists info, extracted db doc = Some info /\
    fst (extract_purchase_details db (item_get doc "content") doc)
    = Ok (Some info).
Proof.
  intros Hb. unfold extracted.
  destruct (extract_purchase_details_eq (item_get doc "content") doc)
    as [info [_ ->]]. simpl. rewrite Hb.
  destruct (_ || _); eauto.
Qed.

Lemma extracted_no_bare (doc : Item) :
  str_in (u "매수") (item_get doc "content") = false ->
  extract_purchase_details db (item_get doc "content") doc = (Ok None, []).
Proof.
  intros Hb.
  destruct (extract_purchase_details_eq (item_get doc "content") doc)
    as [info [_ ->]]. rewrite Hb.
  destruct (_ || _) eqn:Hs; [|reflexivity].
  apply strict_has_bare in Hs. congruence.
Qed.

Lemma bare_has_keyword (content : pystr) :
  str_in (u "매수") content = true -> has_purchase_keyword content = true.
Proof.
  intros H. apply py_any_spec. exists (u "매수").
  split; [right; right; left; reflexivity | exact H].
Qed.

Lemma check_documents_cons (doc : Item) (docs : list Item) :
  check_documents db (doc :: docs)
  = if has_purchase_keyword (item_get doc "content") then
      mbind (fun purchase_info : option PurchaseInfo =>
               match purchase_info with
               | Some info => mret (Some info)
               | None => check_documents db docs
               end)
            (extract_purchase_details db (item_get doc "content") doc)
    else check_documents db docs.
Proof. reflexivity. Qed.

(** The loop over the documents returns the evidence of the first document
    that contains the bare purchase word, and produces no event. *)
Lemma check_documents_eq (docs : list Item) :
  check_documents db docs
  = (Ok (match find (fun doc => str_in (u "매수") (item_get doc "content"))
                    docs with
         | Some doc => extracted db doc
         | None => None
         end), []).
Proof.
  induction docs as [|doc docs IH]; [reflexivity|].
  rewrite check_documents_cons. cbn [find].
  destruct (str_in (u "매수") (item_get doc "content")) eqn:Hb.
  - rewrite (bare_has_keyword _ Hb).
    destruct (extracted_bare doc Hb) as [info [-> Hv]].
    destruct (extract_purchase_details_eq (item_get doc "content") doc)
      as [info' [_ He]].
    rewrite He in Hv. simpl in Hv. injection Hv as Hv.
    rewrite Hv in He. rewrite He. reflexivity.
  - destruct (has_purchase_keyword (item_get doc "content"));
      [|exact IH].
    rewrite (extracted_no_bare doc Hb). rewrite w_bind_ok, IH. reflexivity.
Qed.

End Extractor.

Section Evidence.

Context (db : UnicodeDb) (world : World).

(** [check_purchase_transaction] on a well-formed detail: the status
    test, then the loop over the documents. *)
Lemma check_purchase_transaction_object (rcept : pystr) (d : Dict) :
  detail_value world rcept = JObject d ->
  fst (check_purchase_transaction db world rcept)
  = if bool_decide (d_status d = Some (u "000")) then
      match d_list d with
      | Some docs => fst (check_documents db docs)
      | None => Ok None
      end
    else Ok None.
Proof.
  intros Hd. unfold check_purchase_transaction.
  rewrite (w_bind_pair _ _ _ (get_disclosure_detail_value world rcept)).
  rewrite Hd. cbn [fst].
  destruct (bool_decide (d_status d = Some (u "000"))) eqn:Hs.
  - apply bool_decide_eq_true in Hs. unfold truthy. rewrite Hs. simpl.
    destruct (d_list d); reflexivity.
  - destruct (truthy (JObject d)); reflexivity.
Qed.

(** The only events of [check_purchase_transaction] are those of the
    detail request. *)
Lemma check_purchase_transaction_trace (rcept : pystr) :
  snd (check_purchase_transaction db world rcept)
  = snd (get_disclosure_detail world rcept).
Proof.
  unfold check_purchase_transaction.
  rewrite (w_bind_pair _ _ _ (get_disclosure_detail_value world rcept)).
  cbn [snd]. generalize (snd (get_disclosure_detail world rcept)). intros t.
  destruct (truthy (detail_value world rcept)); simpl;
    [|apply app_nil_r].
  destruct (detail_value world rcept) as [d| | | | |]; simpl;
    try apply app_nil_r.
  destruct (bool_decide (d_status d = Some (u "000"))); simpl;
    [|apply app_nil_r].
  destruct (d_list d) as [docs|]; simpl; [|apply app_nil_r].
  rewrite check_documents_eq. apply app_nil_r.
Qed.

Lemma check_purchase_transaction_fuel (rcept : pystr) :
  fst (check_purchase_transaction db world rcept) <> OutOfFuel.
Proof.
  unfold check_purchase_transaction.
  rewrite (w_bind_pair _ _ _ (get_disclosure_detail_value world rcept)).
  cbn [fst].
  destruct (truthy (detail_value world rcept)); simpl; [|discriminate].
  destruct (detail_value world rcept) as [d| | | | |]; simpl;
    try discriminate.
  destruct (bool_decide (d_status d = Some (u "000"))); simpl;
    [|discriminate].
  destruct (d_list d) as [docs|]; simpl; [|discriminate].
  rewrite check_documents_eq. discriminate.
Qed.

End Evidence.

(** C3.  For every content, [extract_purchase_details] sets the
    transaction type and the reason both to the on-market phrase when the
    content contains it, with or without the space; otherwise both to the
    bare purchase word when the content contains that; and it returns
    [None] otherwise.  A filing all of whose documents contain neither
    purchase keyword gets [None] from [check_purchase_transaction]. *)
Theorem C3_classification_tie_break :
  forall (db : UnicodeDb) (content : pystr) (doc : Item),
    (str_in (u "장내매수") content || str_in (u "장내 매수") content = true ->
     exists info,
       extract_purchase_details db content doc = (Ok (Some info), []) /\
       transaction_type info = u "장내매수" /\ reason info = u "장내매수") /\
    (str_in (u "장내매수") content || str_in (u "장내 매수") content = false ->
     str_in (u "매수") content = true ->
     exists info,
       extract_purchase_details db content doc = (Ok (Some info), []) /\
       transaction_type info = u "매수" /\ reason info = u "매수") /\
    (no_purchase_word content ->
     extract_purchase_details db content doc = (Ok None, [])) /\
    (forall docs : list Item,
       Forall (fun doc' => no_purchase_word (item_get doc' "content")) docs ->
       fst (check_documents db docs) = Ok None /\
       forall (world : World) (rcept : pystr) (d : Dict),
         detail_value world rcept = JObject d ->
         d_list d = Some docs ->
         fst (check_purchase_transaction db world rcept) = Ok None).
Proof.
  intros db content doc.
  destruct (extract_purchase_details_eq db content doc) as [info [_ He]].
  split; [|split; [|split]].
  - intros Hs. rewrite Hs in He.
    exists (set_type_reason (u "장내매수") info). auto.
  - intros Hs Hb. rewrite Hs, Hb in He.
    exists (set_type_reason (u "매수") info). auto.
  - intros [Hs Hb]. rewrite Hs, Hb in He. exact He.
  - intros docs Hdocs.
    assert (Hnone : fst (check_documents db docs) = Ok None).
    { rewrite check_documents_eq. cbn [fst].
      destruct (find _ docs) as [doc'|] eqn:Hf; [|reflexivity].
      apply find_some in Hf as [Hin Hb].
      rewrite Forall_forall in Hdocs.
      assert (Hin' : In doc' docs) by exact Hin.
      destruct (Hdocs doc') as [_ Hb'].
      { apply list_elem_of_In. exact Hin'. }
      congruence. }
    split; [exact Hnone|].
    intros world rcept d Hd Hl.
    rewrite (check_purchase_transaction_object db world rcept d Hd), Hl.
    destruct (bool_decide _); [exact Hnone | reflexivity].
Qed.

Lemma C3_witness :
  str_in (u "장내매수") (u "임원 장내 매수 1,000주")
  || str_in (u "장내 매수") (u "임원 장내 매수 1,000주") = true /\
  exists info,
    extract_purchase_details ascii_db (u "임원 장내 매수 1,000주") ∅
    = (Ok (Some info), []) /\
    transaction_type info = u "장내매수" /\ reason info = u "장내매수".
Proof.
  split; [reflexivity|].
  apply (proj1 (C3_classification_tie_break ascii_db
                  (u "임원 장내 매수 1,000주") ∅)).
  reflexivity.
Defined.

(** C4 (as amended).  [check_purchase_transaction] returns the evidence
    extracted from the first document that contains a purchase keyword
    and from which evidence is extracted, which is the first document
    that contains the bare purchase word; it returns [None] when there is
    no such document. *)
Theorem C4_first_document_yielding_evidence :
  forall (db : UnicodeDb) (docs : list Item),
    (forall doc : Item,
       yields_evidence db doc = str_in (u "매수") (item_get doc "content")) /\
    check_documents db docs
    = (Ok (match find (yields_evidence db) docs with
           | Some doc => extracted db doc
           | None => None
           end), []) /\
    (forall (world : World) (rcept : pystr) (d : Dict),
       detail_value world rcept = JObject d ->
       d_status d = Some (u "000") ->
       d_list d = Some docs ->
       fst (check_purchase_transaction db world rcept)
       = Ok (match find (yields_evidence db) docs with
             | Some doc => extracted db doc
             | None => None
             end)).
Proof.
  intros db docs.
  assert (Hy : forall doc : Item,
            yields_evidence db doc
            = str_in (u "매수") (item_get doc "content")).
  { intros doc. unfold yields_evidence.
    destruct (str_in (u "매수") (item_get doc "content")) eqn:Hb.
    - rewrite (bare_has_keyword _ Hb).
      destruct (extracted_bare db doc Hb) as [info [-> _]]. reflexivity.
    - unfold extracted. rewrite (extracted_no_bare db doc Hb).
      apply andb_false_r. }
  assert (Hfind : forall l : list Item,
            find (yields_evidence db) l
            = find (fun doc => str_in (u "매수") (item_get doc "content")) l).
  { intros l. induction l as [|doc l IH]; [reflexivity|].
    simpl. rewrite Hy, IH. reflexivity. }
  split; [exact Hy|].
  split; [rewrite Hfind; apply check_documents_eq|].
  intros world rcept d Hd Hs Hl.
  rewrite (check_purchase_transaction_object db world rcept d Hd), Hl.
  rewrite bool_decide_eq_true_2 by exact Hs.
  rewrite Hfind, check_documents_eq. reflexivity.
Qed.

Lemma C4_witness :
  detail_value acquisition_world (u "20240115000001")
  = JObject {| d_status := Some (u "000"); d_message := None;
               d_list := Some acquisition_docs |} /\
  fst (check_purchase_transaction ascii_db acquisition_world
         (u "20240115000001"))
  = Ok (match find (yields_evidence ascii_db) acquisition_docs with
        | Some doc => extracted ascii_db doc
        | None => None
        end).
Proof.
  split; [reflexivity|].
  exact (proj2 (proj2 (C4_first_document_yielding_evidence ascii_db
                         acquisition_docs))
           acquisition_world (u "20240115000001") _
           eq_refl eq_refl eq_refl).
Defined.

(** C4 as stated fails: the first document that contains a purchase
    keyword ("취득") gives no evidence, and the evidence returned is that
    of the second document. *)
Lemma C4_counterexample :
  ~ (forall (db : UnicodeDb) (world : World) (rcept : pystr) (d : Dict)
            (docs : list Item),
       detail_value world rcept = JObject d ->
       d_status d = Some (u "000") ->
       d_list d = Some docs ->
       fst (check_purchase_transaction db world rcept)
       = Ok (find_purchase_evidence_spec db docs)).
Proof.
  intros H.
  specialize (H ascii_db acquisition_world (u "20240115000001") _
                acquisition_docs eq_refl eq_refl eq_refl).
  vm_compute in H. discriminate H.
Qed.

(** ** Pagination *)

Section Pagination.

Context (world : World) (start_date end_date : pystr).

Lemma filter_items_eq (all_data : list Item) :
  forall disclosures,
    filter_items all_data disclosures
    = (Ok (disclosures ++ qualifying all_data),
       List.map (fun d => LogInfo (LogFound d)) (qualifying all_data)).
Proof.
  unfold qualifying.
  induction all_data as [|item all_data IH]; intros disclosures.
  - simpl. rewrite app_nil_r. reflexivity.
  - cbn [filter_items List.filter].
    destruct (is_executive_report (item_get item "report_nm")).
    + unfold log_info, w_emit. rewrite w_bind_ok, IH. simpl.
      rewrite <- app_assoc. reflexivity.
    + apply IH.
Qed.

Lemma merge_data_fuel (datas : list json) :
  forall all_data, merge_data datas all_data <> OutOfFuel.
Proof.
  induction datas as [|data datas IH]; intros all_data; simpl;
    [discriminate|].
  destruct data as [d| | | | |]; try discriminate.
  destruct (bool_decide _); [|apply IH].
  destruct (d_list d); apply IH.
Qed.

Lemma merge_data_objects (d1 d2 : Dict) :
  merge_data [JObject d1; JObject d2] []
  = Ok (entries (JObject d1) ++ entries (JObject d2)).
Proof.
  simpl. destruct (bool_decide (d_status d1 = Some (u "000")));
    destruct (bool_decide (d_status d2 = Some (u "000")));
    destruct (d_list d1); destruct (d_list d2); simpl;
    rewrite ?app_nil_r; reflexivity.
Qed.

(** One iteration of the [while True] loop. *)
Lemma search_loop_S (fuel : nat) (p : Z) (ds : list ExecutiveDisclosure) :
  search_loop world (S fuel) start_date end_date p ds
  = match merge_data
            [list_value world start_date end_date (u "Y") p 100;
             list_value world start_date end_date (u "K") p 100] [] with
    | Ok [] => (Ok ds, page_requests world start_date end_date p)
    | Ok (item :: items) =>
      let all_data := item :: items in
      let ds' := ds ++ qualifying all_data in
      let t := page_requests world start_date end_date p
               ++ List.map (fun d => LogInfo (LogFound d))
                    (qualifying all_data) in
      if (length all_data <? 100)%nat then (Ok ds', t)
      else if p + 1 >? 10 then (Ok ds', t)
      else (fst (search_loop world fuel start_date end_date (p + 1) ds'),
            t ++ snd (search_loop world fuel start_date end_date (p + 1) ds'))
    | Raise e => (Raise e, page_requests world start_date end_date p)
    | OutOfFuel => (OutOfFuel, page_requests world start_date end_date p)
    end.
Proof.
  unfold page_requests.
  cbn [search_loop]. unfold log_info at 1, w_emit at 1. rewrite w_bind_ok.
  cbn [fst snd].
  rewrite (w_bind_pair _ _ _
    (get_disclosure_list_value world start_date end_date (u "Y") p 100)).
  cbn [fst snd].
  rewrite (w_bind_pair _ _ _
    (get_disclosure_list_value world start_date end_date (u "K") p 100)).
  cbn [fst snd].
  generalize (snd (get_disclosure_list world start_date end_date
                     (u "Y") p 100)) as tY.
  generalize (snd (get_disclosure_list world start_date end_date
                     (u "K") p 100)) as tK.
  intros tK tY.
  destruct (merge_data _ []) as [[|item items]|e|] eqn:Hm;
    unfold w_lift; cbn [mbind w_bind fst snd].
  - cbn [mret w_ret fst snd app]. rewrite !app_nil_r. reflexivity.
  - rewrite filter_items_eq, w_bind_ok.
    destruct (length (item :: items) <? 100)%nat; cbn [fst snd mret w_ret].
    + cbn [app]. rewrite !app_nil_r, <- !app_assoc. reflexivity.
    + destruct (p + 1 >? 10); cbn [fst snd mret w_ret].
      * cbn [app]. rewrite !app_nil_r, <- !app_assoc. reflexivity.
      * cbn [app]. rewrite <- !app_assoc. reflexivity.
  - cbn [app]. rewrite !app_nil_r. reflexivity.
  - cbn [app]. rewrite !app_nil_r. reflexivity.
Qed.

End Pagination.

Section PaginationSpec.

Context (world : World) (start_date end_date : pystr).

Lemma stop_page_range (count : Z -> nat) (n : nat) :
  forall p, p <= stop_page count n p <= p + Z.of_nat n.
Proof.
  induction n as [|n IH]; intros p; simpl; [lia|].
  destruct (count p <? 100)%nat; [lia|]. specialize (IH (p + 1)). lia.
Qed.

Lemma stop_page_before (count : Z -> nat) (n : nat) :
  forall p q, p <= q < stop_page count n p -> (100 <= count q)%nat.
Proof.
  induction n as [|n IH]; intros p q Hq; simpl in Hq; [lia|].
  destruct (count p <? 100)%nat eqn:Hc; [lia|].
  apply Nat.ltb_ge in Hc.
  destruct (Z.eq_dec q p) as [-> | Hne]; [exact Hc|].
  apply (IH (p + 1)). lia.
Qed.

Lemma stop_page_short (count : Z -> nat) (n : nat) :
  forall p, stop_page count n p < p + Z.of_nat n ->
            (count (stop_page count n p) < 100)%nat.
Proof.
  induction n as [|n IH]; intros p Hp; simpl in *; [lia|].
  destruct (count p <? 100)%nat eqn:Hc.
  - apply Nat.ltb_lt. exact Hc.
  - apply IH. lia.
Qed.

Lemma pages_logged_app (t1 t2 : list event) :
  pages_logged (t1 ++ t2) = pages_logged t1 ++ pages_logged t2.
Proof. apply flat_map_app. Qed.

Lemma requests_app (t1 t2 : list event) :
  requests (t1 ++ t2) = requests t1 ++ requests t2.
Proof. apply flat_map_app. Qed.

Lemma get_disclosure_list_log (corp_cls : pystr) (p n : Z) :
  pages_logged
    (snd (get_disclosure_list world start_date end_date corp_cls p n)) = [] /\
  requests
    (snd (get_disclosure_list world start_date end_date corp_cls p n))
  = [(corp_cls, p)].
Proof.
  unfold get_disclosure_list.
  destruct (response_json _); split; reflexivity.
Qed.

Lemma found_log (ds : list ExecutiveDisclosure) :
  pages_logged (List.map (fun d => LogInfo (LogFound d)) ds) = [] /\
  requests (List.map (fun d => LogInfo (LogFound d)) ds) = [].
Proof. induction ds as [|d ds [IH1 IH2]]; split; auto. Qed.

Lemma page_requests_log (p : Z) :
  pages_logged (page_requests world start_date end_date p) = [p] /\
  requests (page_requests world start_date end_date p)
  = [(u "Y", p); (u "K", p)].
Proof.
  unfold page_requests, pages_logged, requests.
  rewrite !flat_map_app.
  destruct (get_disclosure_list_log (u "Y") p 100) as [HY1 HY2].
  destruct (get_disclosure_list_log (u "K") p 100) as [HK1 HK2].
  unfold pages_logged, requests in HY1, HY2, HK1, HK2.
  rewrite HY1, HY2, HK1, HK2. split; reflexivity.
Qed.

(** The loop never stops for lack of fuel: ten iterations are enough from
    page 1. *)
Lemma search_loop_fuel (fuel : nat) :
  forall p ds,
    (1 <= fuel)%nat -> 11 - p <= Z.of_nat fuel ->
    fst (search_loop world fuel start_date end_date p ds) <> OutOfFuel.
Proof.
  induction fuel as [|fuel IH]; intros p ds H1 Hp; [lia|].
  rewrite search_loop_S.
  pose proof (merge_data_fuel
    [list_value world start_date end_date (u "Y") p 100;
     list_value world start_date end_date (u "K") p 100] []) as Hm.
  destruct (merge_data _ []) as [[|item items]|e|];
    [discriminate | | discriminate | congruence].
  cbv zeta. destruct (length (item :: items) <? 100)%nat; [discriminate|].
  destruct (p + 1 >? 10) eqn:Hp'; [discriminate|].
  cbn [fst]. apply IH; lia.
Qed.

(** Any two amounts of fuel that are enough give the same run. *)
Lemma search_loop_fuel_irrelevant (fuel1 : nat) :
  forall fuel2 p ds,
    (1 <= fuel1)%nat -> 11 - p <= Z.of_nat fuel1 ->
    (1 <= fuel2)%nat -> 11 - p <= Z.of_nat fuel2 ->
    search_loop world fuel1 start_date end_date p ds
    = search_loop world fuel2 start_date end_date p ds.
Proof.
  induction fuel1 as [|fuel1 IH]; intros fuel2 p ds H1 Hp1 H2 Hp2; [lia|].
  destruct fuel2 as [|fuel2]; [lia|].
  rewrite !search_loop_S.
  destruct (merge_data _ []) as [[|item items]|e|]; try reflexivity.
  cbv zeta. destruct (length (item :: items) <? 100)%nat; [reflexivity|].
  destruct (p + 1 >? 10) eqn:Hp'; [reflexivity|].
  rewrite (IH fuel2) by lia. reflexivity.
Qed.

Lemma stop_page_here (count : Z -> nat) (remaining : nat) (p : Z) :
  (count p < 100)%nat \/ remaining = 0%nat ->
  stop_page count remaining p = p.
Proof.
  intros [Hc | ->]; [|reflexivity].
  destruct remaining; [reflexivity|]. simpl.
  apply Nat.ltb_lt in Hc. rewrite Hc. reflexivity.
Qed.

Lemma iteration_log (p : Z) (found : list ExecutiveDisclosure) :
  pages_logged (page_requests world start_date end_date p
                ++ List.map (fun d => LogInfo (LogFound d)) found) = [p] /\
  requests (page_requests world start_date end_date p
            ++ List.map (fun d => LogInfo (LogFound d)) found)
  = [(u "Y", p); (u "K", p)].
Proof.
  destruct (page_requests_log p) as [Hl Hr].
  destruct (found_log found) as [F1 F2].
  unfold pages_logged, requests in *. rewrite !flat_map_app.
  rewrite Hl, Hr, F1, F2. split; reflexivity.
Qed.

Lemma search_loop_spec (remaining : nat) :
  object_pages world start_date end_date ->
  forall fuel p ds,
    (remaining < fuel)%nat -> p + Z.of_nat remaining = 10 ->
    let last := stop_page (combined_count world start_date end_date)
                  remaining p in
    exists ds' t,
      search_loop world fuel start_date end_date p ds = (Ok ds', t) /\
      pages_logged t = seqZ p (last - p + 1) /\
      requests t
      = flat_map (fun q => [(u "Y", q); (u "K", q)]) (seqZ p (last - p + 1)) /\
      (combined_count world start_date end_date p = 0%nat -> ds' = ds).
Proof.
  intros Hobj. induction remaining as [|n IH]; intros fuel p ds Hf Hp last;
    (destruct fuel as [|fuel]; [lia|]); rewrite search_loop_S;
    destruct (Hobj (u "Y") p) as [dY HY]; destruct (Hobj (u "K") p) as [dK HK];
    rewrite HY, HK, merge_data_objects;
    assert (Hall : entries (JObject dY) ++ entries (JObject dK)
                   = page_entries world start_date end_date p)
      by (unfold page_entries; rewrite HY, HK; reflexivity);
    rewrite Hall;
    assert (Hcount : combined_count world start_date end_date p
                     = length (page_entries world start_date end_date p))
      by reflexivity;
    destruct (page_entries world start_date end_date p)
      as [|item items] eqn:Hpe.
  - (* last page allowed, empty *)
    exists ds, (page_requests world start_date end_date p).
    subst last. rewrite stop_page_here by (right; reflexivity).
    replace (p - p + 1) with 1 by lia.
    destruct (page_requests_log p) as [-> ->]. auto.
  - (* last page allowed, not empty *)
    cbv zeta. subst last. rewrite stop_page_here by (right; reflexivity).
    replace (p - p + 1) with 1 by lia.
    destruct (iteration_log p (qualifying (item :: items))) as [Hl Hr].
    exists (ds ++ qualifying (item :: items)),
      (page_requests world start_date end_date p
       ++ List.map (fun d => LogInfo (LogFound d))
            (qualifying (item :: items))).
    rewrite Hl, Hr. split.
    + destruct (length (item :: items) <? 100)%nat; [reflexivity|].
      replace (p + 1 >? 10) with true by lia. reflexivity.
    + split; [reflexivity|]. split; [reflexivity|].
      rewrite Hcount. discriminate.
  - (* empty page *)
    exists ds, (page_requests world start_date end_date p).
    subst last. rewrite stop_page_here by (left; rewrite Hcount; simpl; lia).
    replace (p - p + 1) with 1 by lia.
    destruct (page_requests_log p) as [-> ->]. auto.
  - cbv zeta. subst last.
    destruct (iteration_log p (qualifying (item :: items))) as [Hl Hr].
    destruct (length (item :: items) <? 100)%nat eqn:Hlen.
    + (* short page *)
      apply Nat.ltb_lt in Hlen.
      rewrite stop_page_here by (left; rewrite Hcount; exact Hlen).
      replace (p - p + 1) with 1 by lia.
      eexists _, _. split; [reflexivity|]. rewrite Hl, Hr.
      split; [reflexivity|]. split; [reflexivity|].
      rewrite Hcount. discriminate.
    + (* full page: on to the next one *)
      replace (p + 1 >? 10) with false by lia.
      destruct (IH fuel (p + 1) (ds ++ qualifying (item :: items)))
        as [ds' [t [Hrun [Hpl [Hrq _]]]]]; [lia | lia |].
      rewrite Hrun. cbn [fst snd].
      eexists _, _. split; [reflexivity|].
      pose proof (stop_page_range
        (combined_count world start_date end_date) n (p + 1)) as Hrange.
      assert (Hnext : stop_page (combined_count world start_date end_date)
                        (S n) p
                      = stop_page (combined_count world start_date end_date)
                          n (p + 1)).
      { cbn [stop_page]. rewrite Hcount, Hlen. reflexivity. }
      rewrite Hnext.
      rewrite pages_logged_app, requests_app, Hl, Hr, Hpl, Hrq.
      rewrite (seqZ_cons p) by lia.
      replace (Z.succ p) with (p + 1) by lia.
      replace (Z.pred (stop_page (combined_count world start_date end_date)
                         n (p + 1) - p + 1))
        with (stop_page (combined_count world start_date end_date)
                n (p + 1) - (p + 1) + 1) by lia.
      split; [reflexivity|]. split; [reflexivity|].
      rewrite Hcount. discriminate.
Qed.

End PaginationSpec.

(** C1.  When the page responses are JSON objects, the search runs the
    loop for the pages 1 to [last], where [last] is the first page whose
    combined entry count is 0 or below 100, and page 10 when there is no
    such page among the first ten; it returns normally.  Combined counts
    100, 100, 100, 50 give the four iterations 1 to 4; a combined count 0
    on page 1 gives one iteration and no result. *)
Theorem C1_pagination_stops_at_first_short_page :
  forall (world : World) (start_date end_date : pystr),
    object_pages world start_date end_date ->
    let count := combined_count world start_date end_date in
    let last := last_page count in
    1 <= last <= 10 /\
    (forall p, 1 <= p < last -> (100 <= count p)%nat) /\
    (last < 10 -> (count last < 100)%nat) /\
    (exists ds t,
       search_executive_disclosures world start_date end_date = (Ok ds, t) /\
       pages_logged t = seqZ 1 last /\
       requests t = flat_map (fun p => [(u "Y", p); (u "K", p)]) (seqZ 1 last) /\
       (count 1 = 100%nat -> count 2 = 100%nat -> count 3 = 100%nat ->
        count 4 = 50%nat -> pages_logged t = [1; 2; 3; 4]) /\
       (count 1 = 0%nat -> pages_logged t = [1] /\ ds = [])).
Proof.
  intros world start_date end_date Hobj count last.
  pose proof (stop_page_range count 9 1) as Hrange.
  split; [subst last; unfold last_page; lia|].
  split; [intros p Hp; apply (stop_page_before count 9 1); exact Hp|].
  split; [intros Hlt; apply (stop_page_short count 9 1);
          subst last; unfold last_page in *; lia|].
  destruct (search_loop_spec world start_date end_date 9 Hobj 10%nat 1 [])
    as [ds [t [Hrun [Hpl [Hrq Hzero]]]]]; [lia | lia |].
  fold count in Hpl, Hrq, Hzero. fold (last_page count) in Hpl, Hrq.
  fold last in Hpl, Hrq. replace (last - 1 + 1) with last in Hpl, Hrq by lia.
  exists ds, (t ++ [LogInfo (LogTotal (length ds))]).
  split.
  { unfold search_executive_disclosures. rewrite Hrun. reflexivity. }
  rewrite pages_logged_app, requests_app, Hpl, Hrq. cbn [pages_logged requests
    flat_map]. rewrite !app_nil_r.
  split; [reflexivity|]. split; [reflexivity|]. split.
  - intros H1 H2 H3 H4.
    assert (Hlast : last = 4).
    { subst last. unfold last_page. cbn [stop_page].
      rewrite H1. cbn [Nat.ltb Nat.leb]. replace (1 + 1) with 2 by lia.
      rewrite H2. cbn [Nat.ltb Nat.leb]. replace (2 + 1) with 3 by lia.
      rewrite H3. cbn [Nat.ltb Nat.leb]. replace (3 + 1) with 4 by lia.
      rewrite H4. reflexivity. }
    rewrite Hlast. reflexivity.
  - intros H0.
    assert (Hlast : last = 1).
    { subst last. unfold last_page. cbn [stop_page]. rewrite H0. reflexivity. }
    rewrite Hlast. split; [reflexivity | exact (Hzero H0)].
Qed.

Lemma paged_world_objects (lengths : list nat) (start_date end_date : pystr) :
  object_pages (paged_world lengths) start_date end_date.
Proof.
  intros corp_cls p. unfold list_value, paged_world. cbn [list_json].
  destruct (bool_decide (corp_cls = u "Y")); eexists; reflexivity.
Defined.

Lemma C1_witness :
  object_pages (paged_world [100; 100; 100; 50]%nat)
    (u "20240114") (u "20240115") /\
  exists ds t,
    search_executive_disclosures (paged_world [100; 100; 100; 50]%nat)
      (u "20240114") (u "20240115") = (Ok ds, t) /\
    pages_logged t = [1; 2; 3; 4].
Proof.
  split; [apply paged_world_objects|].
  destruct (C1_pagination_stops_at_first_short_page
              (paged_world [100; 100; 100; 50]%nat)
              (u "20240114") (u "20240115")
              (paged_world_objects _ _ _))
    as [_ [_ [_ [ds [t [Hrun [_ [_ [H4 _]]]]]]]]].
  exists ds, t. split; [exact Hrun|].
  apply H4; vm_compute; reflexivity.
Defined.

(** An empty first page: one iteration, no result. *)
Example pagination_empty_first_page :
  exists t,
    search_executive_disclosures (paged_world [0%nat])
      (u "20240114") (u "20240115") = (Ok [], t) /\
    pages_logged t = [1].
Proof. eexists. split; vm_compute; reflexivity. Qed.

(** Ten full pages: the cap stops the search after page 10. *)
Example pagination_page_cap :
  pages_logged
    (snd (search_executive_disclosures (paged_world (repeat 100%nat 12))
            (u "20240114") (u "20240115")))
  = [1; 2; 3; 4; 5; 6; 7; 8; 9; 10].
Proof. vm_compute. reflexivity. Qed.

(** ** MonitorOrchestrator *)

Section Monitor.

Context (db : UnicodeDb) (world : World).

Lemma response_ok_fuel (r : http_result) : response_ok r <> OutOfFuel.
Proof.
  unfold response_ok, raise_for_status. destruct r as [| |code body];
    try discriminate.
  destruct ((400 <=? code) && (code <? 600)); discriminate.
Qed.

(** [send_message] never raises: it posts, logs the result and returns
    whether the post went through. *)
Lemma send_message_eq (m : message) :
  exists l,
    send_message world m
    = (Ok (delivered world m),
       [PostMessage m (delivered world m); l]) /\
    (l = LogInfo LogSent \/ exists e, l = LogError (LogSendFailed e)).
Proof.
  unfold send_message, delivered.
  pose proof (response_ok_fuel (sendMessage world m)) as Hf.
  destruct (response_ok (sendMessage world m)) as [[]|e|];
    [| |congruence]; eexists; (split; [reflexivity|]); eauto.
Qed.

(** One iteration of the loop over the disclosures. *)
Lemma monitor_loop_cons (d : ExecutiveDisclosure)
    (ds : list ExecutiveDisclosure) (rs : list MonitoringEvent)
    (P : gset pystr) :
  monitor_loop db world (d :: ds) rs P
  = if bool_decide (rcept_no d ∈ P) then monitor_loop db world ds rs P
    else
      match evidence db world (rcept_no d) with
      | Ok (Some info) =>
        let r := monitor_loop db world ds (rs ++ [event_of world d info])
                   ({[rcept_no d]} ∪ P) in
        (fst (fst r), snd (fst r), emitted_trace db world d info ++ snd r)
      | Ok None =>
        let r := monitor_loop db world ds rs P in
        (fst (fst r), snd (fst r), checked_trace db world d ++ snd r)
      | Raise e => (Raise e, P, checked_trace db world d)
      | OutOfFuel => (OutOfFuel, P, checked_trace db world d)
      end.
Proof.
  cbn [monitor_loop]. unfold get_processed at 1.
  unfold mbind at 1, st_bind at 1. cbv zeta. cbn [fst snd app].
  destruct (bool_decide (rcept_no d ∈ P));
    [destruct (monitor_loop _ _ _ _ _) as [[? ?] ?]; reflexivity|].
  unfold evidence, emitted_trace, checked_trace.
  unfold mbind, st_bind, lift, log_info, w_emit, add_processed.
  cbn [fst snd app].
  destruct (check_purchase_transaction db world (rcept_no d))
    as [[[info|]|e|] tc]; cbn [fst snd app].
  - destruct (send_message_eq (format_executive_purchase_message world d info))
      as [l [-> _]]. cbn [fst snd app].
    destruct (monitor_loop _ _ _ _ _) as [[o P'] t']. cbn [fst snd].
    rewrite <- !app_assoc. reflexivity.
  - destruct (monitor_loop _ _ _ _ _) as [[o P'] t']. reflexivity.
  - reflexivity.
  - reflexivity.
Qed.

End Monitor.

Section MonitorInvariant.

Context (db : UnicodeDb) (world : World).

Lemma effects_app (t1 t2 : list event) :
  effects (t1 ++ t2) = effects t1 ++ effects t2.
Proof. apply flat_map_app. Qed.

Lemma emitted_app (t1 t2 : list event) :
  emitted (t1 ++ t2) = emitted t1 ++ emitted t2.
Proof. apply flat_map_app. Qed.

Lemma fetched_app (t1 t2 : list event) :
  fetched (t1 ++ t2) = fetched t1 ++ fetched t2.
Proof. apply flat_map_app. Qed.

Lemma get_disclosure_detail_trace (rcept : pystr) :
  snd (get_disclosure_detail world rcept) = [GetDocument rcept] \/
  exists e,
    snd (get_disclosure_detail world rcept)
    = [GetDocument rcept; LogError (LogDetailFailed rcept e)].
Proof.
  unfold get_disclosure_detail.
  destruct (response_json (document_json world rcept)); simpl; eauto.
Qed.

Lemma checked_trace_effects (d : ExecutiveDisclosure) :
  effects (checked_trace db world d) = [] /\
  emitted (checked_trace db world d) = [] /\
  fetched (checked_trace db world d) = [rcept_no d].
Proof.
  unfold checked_trace. rewrite check_purchase_transaction_trace.
  destruct (get_disclosure_detail_trace (rcept_no d)) as [-> | [e ->]];
    repeat split; reflexivity.
Qed.

Lemma emitted_trace_effects (d : ExecutiveDisclosure) (info : PurchaseInfo) :
  effects (emitted_trace db world d info)
  = notify_then_mark world (event_of world d info) /\
  emitted (emitted_trace db world d info) = [rcept_no d] /\
  fetched (emitted_trace db world d info) = [rcept_no d].
Proof.
  unfold emitted_trace.
  destruct (checked_trace_effects d) as [He [Hm Hf]].
  destruct (send_message_eq world
              (format_executive_purchase_message world d info))
    as [l [-> Hl]].
  rewrite !effects_app, !emitted_app, !fetched_app, He, Hm, Hf.
  destruct Hl as [-> | [e ->]]; repeat split; reflexivity.
Qed.

(** The loop over the disclosures, in terms of the monitoring events
    [evs] it produces: each is notified and then marked; the marks are
    the only change of [processed_disclosures]; no receipt number that was
    processed before, and none twice, gets an event; a run that returns,
    returns the events. *)
Lemma monitor_loop_inv (ds : list ExecutiveDisclosure) :
  forall (rs : list MonitoringEvent) (P : gset pystr),
  exists evs,
    let r := monitor_loop db world ds rs P in
    effects (snd r) = flat_map (notify_then_mark world) evs /\
    emitted (snd r) = List.map event_rcept evs /\
    snd (fst r) = list_to_set (List.map event_rcept evs) ∪ P /\
    NoDup (List.map event_rcept evs) /\
    (forall ev, In ev evs ->
       (event_rcept ev ∉ P) /\ In (disclosure ev) ds /\
       evidence db world (event_rcept ev) = Ok (Some (purchase_info ev))) /\
    (forall rs', fst (fst r) = Ok rs' -> rs' = rs ++ evs) /\
    fst (fst r) <> OutOfFuel.
Proof.
  induction ds as [|d ds IH]; intros rs P.
  - exists []. cbn. split_and!.
    + reflexivity.
    + reflexivity.
    + symmetry. apply (left_id_L ∅ (∪)).
    + constructor.
    + intros ev [].
    + intros rs' H. injection H as <-. rewrite app_nil_r. reflexivity.
    + discriminate.
  - rewrite monitor_loop_cons. case_bool_decide as Hin.
    { destruct (IH rs P) as [evs (He & Hm & HP & Hnd & Hev & Hrs & Hf)].
      exists evs. split_and!; try assumption.
      intros ev H. destruct (Hev ev H) as (H1 & H2 & H3).
      split_and!; [exact H1 | right; exact H2 | exact H3]. }
    pose proof (check_purchase_transaction_fuel db world (rcept_no d)) as Hfuel.
    fold (evidence db world (rcept_no d)) in Hfuel.
    destruct (evidence db world (rcept_no d)) as [[info|]|e|] eqn:Hevd;
      [| | |congruence].
    + destruct (IH (rs ++ [event_of world d info]) ({[rcept_no d]} ∪ P))
        as [evs (He & Hm & HP & Hnd & Hev & Hrs & Hf)].
      destruct (emitted_trace_effects d info) as [Te [Tm _]].
      exists (event_of world d info :: evs). cbv zeta. cbn [fst snd].
      rewrite effects_app, emitted_app, Te, Tm, He, Hm.
      split_and!.
      * reflexivity.
      * reflexivity.
      * rewrite HP. cbn [List.map list_to_set event_rcept event_of disclosure].
        rewrite (assoc_L (∪)).
        rewrite (comm_L (∪) (list_to_set (List.map event_rcept evs))).
        reflexivity.
      * cbn [List.map]. constructor; [|exact Hnd].
        intros Hdup. apply list_elem_of_In in Hdup.
        apply in_map_iff in Hdup as [ev [Heq Hev']].
        destruct (Hev ev Hev') as [Hnot _]. apply Hnot.
        change (event_rcept ev = rcept_no d) in Heq. rewrite Heq.
        apply elem_of_union_l, elem_of_singleton. reflexivity.
      * intros ev [<- | H].
        { split_and!; [exact Hin | left; reflexivity | exact Hevd]. }
        destruct (Hev ev H) as (H1 & H2 & H3).
        split_and!; [| right; exact H2 | exact H3].
        intros Hc. apply H1, elem_of_union_r, Hc.
      * intros rs' Hrs'. rewrite (Hrs rs' Hrs'), <- app_assoc. reflexivity.
      * exact Hf.
    + destruct (IH rs P) as [evs (He & Hm & HP & Hnd & Hev & Hrs & Hf)].
      destruct (checked_trace_effects d) as [Te [Tm _]].
      exists evs. cbv zeta. cbn [fst snd].
      rewrite effects_app, emitted_app, Te, Tm, He, Hm.
      split_and!; try assumption; try reflexivity.
      intros ev H. destruct (Hev ev H) as (H1 & H2 & H3).
      split_and!; [exact H1 | right; exact H2 | exact H3].
    + destruct (checked_trace_effects d) as [Te [Tm _]].
      exists []. cbn [fst snd]. rewrite Te, Tm. split_and!.
      * reflexivity.
      * reflexivity.
      * symmetry. apply (left_id_L ∅ (∪)).
      * constructor.
      * intros ev [].
      * discriminate.
      * discriminate.
Qed.

End MonitorInvariant.

Section Run.

Context (db : UnicodeDb) (world : World).

Lemma terminals_app (t1 t2 : list event) :
  terminals (t1 ++ t2) = terminals t1 ++ terminals t2.
Proof. apply flat_map_app. Qed.


Lemma quiet_app (t1 t2 : list event) : quiet t1 -> quiet t2 -> quiet (t1 ++ t2).
Proof.
  intros (E1 & M1 & F1 & T1) (E2 & M2 & F2 & T2). unfold quiet.
  rewrite effects_app, emitted_app, fetched_app, terminals_app.
  rewrite E1, E2, M1, M2, F1, F2, T1, T2. auto.
Qed.

Lemma quiet_found (ds : list ExecutiveDisclosure) :
  quiet (List.map (fun d => LogInfo (LogFound d)) ds).
Proof.
  induction ds as [|d ds IH]; [repeat split|].
  apply (quiet_app [_] _); [repeat split | exact IH].
Qed.

Lemma quiet_page_requests (start_date end_date : pystr) (p : Z) :
  quiet (page_requests world start_date end_date p).
Proof.
  unfold page_requests, get_disclosure_list.
  destruct (response_json (list_json world start_date end_date (u "Y") p 100));
    destruct (response_json
                (list_json world start_date end_date (u "K") p 100));
    repeat split.
Qed.

Lemma quiet_search_loop (start_date end_date : pystr) (fuel : nat) :
  forall p ds, quiet (snd (search_loop world fuel start_date end_date p ds)).
Proof.
  induction fuel as [|fuel IH]; intros p ds; [repeat split|].
  rewrite search_loop_S.
  pose proof (quiet_page_requests start_date end_date p) as Hq.
  destruct (merge_data _ []) as [[|item items]|e|]; try exact Hq.
  cbv zeta.
  pose proof (quiet_app _ _ Hq (quiet_found (qualifying (item :: items))))
    as Hq'.
  destruct (length (item :: items) <? 100)%nat; [exact Hq'|].
  destruct (p + 1 >? 10); [exact Hq'|].
  cbn [snd]. apply quiet_app; [exact Hq' | apply IH].
Qed.

Lemma search_executive_disclosures_eq (start_date end_date : pystr) :
  search_executive_disclosures world start_date end_date
  = match search_loop world 10 start_date end_date 1 [] with
    | (Ok ds, t) => (Ok ds, t ++ [LogInfo (LogTotal (length ds))])
    | (Raise e, t) => (Raise e, t)
    | (OutOfFuel, t) => (OutOfFuel, t)
    end.
Proof.
  unfold search_executive_disclosures.
  generalize (search_loop world 10 start_date end_date 1 []).
  intros [[ds|e|] t]; reflexivity.
Qed.

Lemma quiet_search_trace (days_back : Z) : quiet (search_trace world days_back).
Proof.
  unfold search_trace, run_search.
  rewrite search_executive_disclosures_eq.
  pose proof (quiet_search_loop (date_Ymd world days_back) (date_Ymd world 0)
                10 1 []) as Hq.
  revert Hq.
  generalize (search_loop world 10 (date_Ymd world days_back)
                (date_Ymd world 0) 1 []).
  intros [[ds|e|] t] Hq; cbn [snd] in *.
  - apply (quiet_app [_] (t ++ [_])); [repeat split|].
    apply quiet_app; [exact Hq | repeat split].
  - apply (quiet_app [_] t); [repeat split | exact Hq].
  - apply (quiet_app [_] t); [repeat split | exact Hq].
Qed.

Lemma run_search_fuel (days_back : Z) :
  fst (run_search world days_back) <> OutOfFuel.
Proof.
  unfold run_search. rewrite search_executive_disclosures_eq.
  pose proof (search_loop_fuel world (date_Ymd world days_back)
                (date_Ymd world 0) 10 1 []) as Hf.
  revert Hf.
  generalize (search_loop world 10 (date_Ymd world days_back)
                (date_Ymd world 0) 1 []).
  intros [[ds|e|] t] Hf; cbn [fst] in *;
    [discriminate | discriminate | apply Hf; lia].
Qed.

Lemma get_date_range_eq (days_back : Z) :
  get_date_range world days_back
  = (Ok (date_Ymd world days_back, date_Ymd world 0),
     [LogInfo (LogRange (date_Ymd world days_back) (date_Ymd world 0))]).
Proof. reflexivity. Qed.

(** A run: the search, then the loop over what it found. *)
Lemma monitor_executive_purchases_eq (days_back : Z) (P : gset pystr) :
  monitor_executive_purchases db world days_back P
  = match fst (run_search world days_back) with
    | Ok [] =>
      (Ok [], P, search_trace world days_back ++ [LogInfo LogNoDisclosures])
    | Ok (d :: ds) =>
      let r := monitor_loop db world (d :: ds) [] P in
      (fst (fst r), snd (fst r), search_trace world days_back ++ snd r)
    | Raise e => (Raise e, P, search_trace world days_back)
    | OutOfFuel => (OutOfFuel, P, search_trace world days_back)
    end.
Proof.
  unfold monitor_executive_purchases, search_trace, run_search.
  rewrite st_bind_lift, get_date_range_eq. cbv zeta. cbn [fst snd].
  rewrite st_bind_lift.
  generalize (search_executive_disclosures world (date_Ymd world days_back)
                (date_Ymd world 0)).
  intros [[[|d ds]|e|] t]; cbn [fst snd]; try reflexivity.
Qed.

End Run.

Section Deduplication.

Context (db : UnicodeDb) (world : World).


(** After the loop, every disclosure it went through is settled; when it
    raised, it raised at the detail check of an unprocessed disclosure. *)
Lemma monitor_loop_settles (ds : list ExecutiveDisclosure) :
  forall (rs : list MonitoringEvent) (P : gset pystr),
    let r := monitor_loop db world ds rs P in
    P ⊆ snd (fst r) /\
    match fst (fst r) with
    | Ok _ => Forall (settled db world (snd (fst r))) ds
    | Raise e =>
      exists pre d post,
        ds = pre ++ d :: post /\
        Forall (settled db world (snd (fst r))) pre /\
        (rcept_no d ∉ snd (fst r)) /\
        evidence db world (rcept_no d) = Raise e
    | OutOfFuel => False
    end.
Proof.
  induction ds as [|d ds IH]; intros rs P.
  - cbn. split; [reflexivity | constructor].
  - cbv zeta. rewrite monitor_loop_cons. case_bool_decide as Hin.
    { destruct (IH rs P) as [Hsub Hout]. split; [exact Hsub|].
      destruct (fst (fst (monitor_loop db world ds rs P))) as [rs'|e|].
      - constructor; [left; apply Hsub, Hin | exact Hout].
      - destruct Hout as (pre & d' & post & -> & Hpre & Hd' & He).
        exists (d :: pre), d', post. split_and!; try assumption.
        + reflexivity.
        + constructor; [left; apply Hsub, Hin | exact Hpre].
      - exact Hout. }
    pose proof (check_purchase_transaction_fuel db world (rcept_no d)) as Hfuel.
    fold (evidence db world (rcept_no d)) in Hfuel.
    destruct (evidence db world (rcept_no d)) as [[info|]|e|] eqn:Hevd;
      [| | |congruence].
    + destruct (IH (rs ++ [event_of world d info]) ({[rcept_no d]} ∪ P))
        as [Hsub Hout]. cbv zeta. cbn [fst snd].
      assert (Hd : rcept_no d ∈
                snd (fst (monitor_loop db world ds
                            (rs ++ [event_of world d info])
                            ({[rcept_no d]} ∪ P)))).
      { apply Hsub, elem_of_union_l, elem_of_singleton. reflexivity. }
      split.
      { intros x Hx. apply Hsub, elem_of_union_r, Hx. }
      destruct (fst (fst (monitor_loop db world ds
                            (rs ++ [event_of world d info])
                            ({[rcept_no d]} ∪ P)))) as [rs'|e|].
      * constructor; [left; exact Hd | exact Hout].
      * destruct Hout as (pre & d' & post & -> & Hpre & Hd' & He).
        exists (d :: pre), d', post. split_and!; try assumption.
        -- reflexivity.
        -- constructor; [left; exact Hd | exact Hpre].
      * exact Hout.
    + destruct (IH rs P) as [Hsub Hout]. cbv zeta. cbn [fst snd].
      split; [exact Hsub|].
      destruct (fst (fst (monitor_loop db world ds rs P))) as [rs'|e|].
      * constructor; [right; exact Hevd | exact Hout].
      * destruct Hout as (pre & d' & post & -> & Hpre & Hd' & He).
        exists (d :: pre), d', post. split_and!; try assumption.
        -- reflexivity.
        -- constructor; [right; exact Hevd | exact Hpre].
      * exact Hout.
    + cbn [fst snd]. split; [reflexivity|].
      exists [], d, ds. split_and!; [reflexivity | constructor | exact Hin
                                    | exact Hevd].
Qed.

(** On settled disclosures the loop changes nothing and emits nothing. *)
Lemma monitor_loop_settled (ds : list ExecutiveDisclosure) :
  forall (rs : list MonitoringEvent) (P : gset pystr),
    Forall (settled db world P) ds ->
    exists t,
      monitor_loop db world ds rs P = (Ok rs, P, t) /\
      effects t = [] /\ emitted t = [].
Proof.
  induction ds as [|d ds IH]; intros rs P Hall.
  - exists []. auto.
  - apply Forall_cons in Hall as [Hd Hall].
    destruct (IH rs P Hall) as [t (Hrun & He & Hm)].
    rewrite monitor_loop_cons. case_bool_decide as Hin.
    + exists t. auto.
    + destruct Hd as [Hd | Hd]; [contradiction|]. rewrite Hd, Hrun.
      destruct (checked_trace_effects db world d) as [Te [Tm _]].
      exists (checked_trace db world d ++ t). cbv zeta. cbn [fst snd].
      rewrite effects_app, emitted_app, Te, Tm, He, Hm. auto.
Qed.

(** On settled disclosures followed by one whose detail check raises, the
    loop raises there, having changed and emitted nothing. *)
Lemma monitor_loop_settled_raise (pre : list ExecutiveDisclosure) :
  forall (d : ExecutiveDisclosure) (post : list ExecutiveDisclosure)
         (e : exception) (rs : list MonitoringEvent) (P : gset pystr),
    Forall (settled db world P) pre ->
    rcept_no d ∉ P ->
    evidence db world (rcept_no d) = Raise e ->
    exists t,
      monitor_loop db world (pre ++ d :: post) rs P = (Raise e, P, t) /\
      effects t = [] /\ emitted t = [].
Proof.
  induction pre as [|d0 pre IH]; intros d post e rs P Hall Hd He.
  - cbn [app]. rewrite monitor_loop_cons.
    rewrite bool_decide_eq_false_2 by exact Hd. rewrite He.
    destruct (checked_trace_effects db world d) as [Te [Tm _]].
    exists (checked_trace db world d). auto.
  - apply Forall_cons in Hall as [Hd0 Hall].
    destruct (IH d post e rs P Hall Hd He) as [t (Hrun & Hef & Hm)].
    cbn [app]. rewrite monitor_loop_cons. case_bool_decide as Hin.
    + exists t. auto.
    + destruct Hd0 as [Hd0 | Hd0]; [contradiction|]. rewrite Hd0, Hrun.
      destruct (checked_trace_effects db world d0) as [Te [Tm _]].
      exists (checked_trace db world d0 ++ t). cbv zeta. cbn [fst snd].
      rewrite effects_app, emitted_app, Te, Tm, Hef, Hm. auto.
Qed.

(** Once the empty receipt number is processed, the disclosures without a
    receipt number might as well not be in the list. *)
Lemma monitor_loop_skips_empty (ds : list ExecutiveDisclosure) :
  forall (rs : list MonitoringEvent) (P : gset pystr),
    [] ∈ P ->
    monitor_loop db world ds rs P
    = monitor_loop db world (List.filter has_rcept ds) rs P.
Proof.
  induction ds as [|d ds IH]; intros rs P HP; [reflexivity|].
  cbn [List.filter]. unfold has_rcept at 1.
  destruct (rcept_no d) as [|c r] eqn:Hr.
  - rewrite monitor_loop_cons, Hr.
    rewrite bool_decide_eq_true_2 by exact HP. apply IH, HP.
  - rewrite !monitor_loop_cons, Hr. case_bool_decide as Hin; [apply IH, HP|].
    destruct (evidence db world (c :: r)) as [[info|]|e|]; try reflexivity.
    + rewrite IH by (apply elem_of_union_r, HP). reflexivity.
    + rewrite IH by exact HP. reflexivity.
Qed.

(** A detail is requested only for a receipt number that is not
    processed. *)
Lemma monitor_loop_fetched (ds : list ExecutiveDisclosure) :
  forall (rs : list MonitoringEvent) (P : gset pystr) (rcept : pystr),
    In rcept (fetched (snd (monitor_loop db world ds rs P))) -> rcept ∉ P.
Proof.
  induction ds as [|d ds IH]; intros rs P rcept Hin; [destruct Hin|].
  rewrite monitor_loop_cons in Hin. case_bool_decide as HP;
    [exact (IH _ _ _ Hin)|].
  destruct (checked_trace_effects db world d) as (_ & _ & Hc).
  destruct (evidence db world (rcept_no d)) as [[info|]|e|];
    cbv zeta in Hin; cbn [snd] in Hin.
  - destruct (emitted_trace_effects db world d info) as (_ & _ & He).
    rewrite fetched_app, He in Hin. destruct Hin as [<- | Hin]; [exact HP|].
    intros Hc'. apply (IH _ _ _ Hin), elem_of_union_r, Hc'.
  - rewrite fetched_app, Hc in Hin. destruct Hin as [<- | Hin]; [exact HP|].
    exact (IH _ _ _ Hin).
  - rewrite Hc in Hin. destruct Hin as [<- | []]. exact HP.
  - rewrite Hc in Hin. destruct Hin as [<- | []]. exact HP.
Qed.

End Deduplication.

(** C2.  In a run, a receipt number is in [processed_disclosures]
    afterwards exactly when it was there before or a monitoring event was
    produced for it; no event is produced for a receipt number processed
    before, and none for the same receipt number twice; a run that returns,
    returns the events produced.  A second run against the same upstream
    produces no event, returns the empty list if it returns, and leaves
    [processed_disclosures] as it is. *)
Theorem C2_processed_iff_event_produced :
  forall (db : UnicodeDb) (world : World) (days_back : Z) (P0 : gset pystr),
    let r1 := monitor_executive_purchases db world days_back P0 in
    let P1 := snd (fst r1) in
    let r2 := monitor_executive_purchases db world days_back P1 in
    (forall rcept, rcept ∈ P1 <-> rcept ∈ P0 \/ In rcept (emitted (snd r1))) /\
    (forall rcept, In rcept (emitted (snd r1)) -> rcept ∉ P0) /\
    NoDup (emitted (snd r1)) /\
    (forall rs, fst (fst r1) = Ok rs ->
                List.map event_rcept rs = emitted (snd r1)) /\
    emitted (snd r2) = [] /\
    snd (fst r2) = P1 /\
    (forall rs, fst (fst r2) = Ok rs -> rs = []).
Proof.
  intros db world days_back P0.
  cbv zeta. rewrite !monitor_executive_purchases_eq.
  pose proof (quiet_search_trace world days_back) as (Qe & Qm & Qf).
  pose proof (run_search_fuel world days_back) as Hfuel.
  destruct (fst (run_search world days_back)) as [[|d ds]|e|];
    [| | |congruence]; cbn [fst snd].
  - rewrite !emitted_app, Qm. cbn.
    split_and!.
    + intros rcept. tauto.
    + intros rcept [].
    + constructor.
    + intros rs H. injection H as <-. reflexivity.
    + reflexivity.
    + reflexivity.
    + intros rs H. injection H as <-. reflexivity.
  - destruct (monitor_loop_inv db world (d :: ds) [] P0)
      as [evs (_ & Hm & HP & Hnd & Hev & Hrs & _)].
    destruct (monitor_loop_settles db world (d :: ds) [] P0) as [Hsub Hout].
    cbv zeta in Hm, HP, Hrs, Hsub, Hout. cbv zeta.
    set (r1 := monitor_loop db world (d :: ds) [] P0) in *.
    cbn [fst snd]. rewrite emitted_app, Qm, Hm. cbn [app].
    assert (Hsecond : exists o t,
              monitor_loop db world (d :: ds) [] (snd (fst r1))
              = (o, snd (fst r1), t) /\ emitted t = [] /\
              forall rs, o = Ok rs -> rs = []).
    { destruct (fst (fst r1)) as [rs1|e|].
      - destruct (monitor_loop_settled db world (d :: ds) [] _ Hout)
          as [t (Hrun & _ & Ht)].
        exists (Ok []), t. split_and!; [exact Hrun | exact Ht |].
        intros rs H. injection H as <-. reflexivity.
      - destruct Hout as (pre & d' & post & Hds & Hpre & Hd' & He).
        destruct (monitor_loop_settled_raise db world pre d' post e [] _
                    Hpre Hd' He) as [t (Hrun & _ & Ht)].
        exists (Raise e), t. rewrite Hds.
        split_and!; [exact Hrun | exact Ht | discriminate].
      - destruct Hout. }
    destruct Hsecond as (o & t & Hrun & Ht & Ho). rewrite Hrun. cbn [fst snd].
    rewrite emitted_app, Qm, Ht. cbn [app].
    split_and!; try reflexivity; try assumption.
    + intros rcept. rewrite HP, elem_of_union, elem_of_list_to_set.
      rewrite list_elem_of_In. tauto.
    + intros rcept Hin. apply in_map_iff in Hin as [ev [<- Hin]].
      apply (Hev ev Hin).
    + intros rs Hr. rewrite (Hrs rs Hr). reflexivity.
  - rewrite Qm. split_and!.
    + intros rcept. cbn. tauto.
    + intros rcept [].
    + constructor.
    + discriminate.
    + reflexivity.
    + reflexivity.
    + discriminate.
Qed.

(** The same filing listed twice: one event in the first run, none in the
    second. *)
Lemma C2_witness :
  let world := listing_world [samsung_filing; samsung_filing]
                 (Response 200 None) in
  let r1 := monitor_executive_purchases ascii_db world 1 ∅ in
  let r2 := monitor_executive_purchases ascii_db world 1 (snd (fst r1)) in
  (exists rs, fst (fst r1) = Ok rs /\
              List.map event_rcept rs = emitted (snd r1) /\
              emitted (snd r1) = [u "20240115000001"]) /\
  (exists rs, fst (fst r2) = Ok rs /\ rs = []).
Proof.
  intros world r1 r2.
  pose proof (C2_processed_iff_event_produced ascii_db world 1 ∅)
    as (_ & _ & _ & H1 & _ & _ & H2).
  split.
  - eexists. split; [vm_compute; reflexivity|].
    split; [|vm_compute; reflexivity].
    apply H1. vm_compute. reflexivity.
  - eexists. split; [vm_compute; reflexivity|]. reflexivity.
Defined.

(** C7.  The alerts and the insertions into [processed_disclosures] of a
    run come in pairs, for each monitoring event the alert and then the
    insertion of its receipt number; the receipt number of every alert is
    in [processed_disclosures] afterwards, whatever [send_message]
    returned; and no receipt number is alerted twice, nor one that was
    processed before. *)
Theorem C7_notify_then_mark_processed :
  forall (db : UnicodeDb) (world : World) (days_back : Z) (P : gset pystr),
    let r := monitor_executive_purchases db world days_back P in
    exists evs,
      effects (snd r) = flat_map (notify_then_mark world) evs /\
      (forall rs, fst (fst r) = Ok rs -> rs = evs) /\
      (forall rcept ok,
         In (Notified rcept ok) (effects (snd r)) ->
         rcept ∈ snd (fst r) /\ rcept ∉ P) /\
      NoDup (List.map event_rcept evs).
Proof.
  intros db world days_back P. cbv zeta.
  rewrite monitor_executive_purchases_eq.
  pose proof (quiet_search_trace world days_back) as (Qe & Qm & Qf).
  pose proof (run_search_fuel world days_back) as Hfuel.
  destruct (fst (run_search world days_back)) as [[|d ds]|e|];
    [| | |congruence]; cbn [fst snd].
  - exists []. rewrite effects_app, Qe. cbn. split_and!.
    + reflexivity.
    + intros rs H. injection H as <-. reflexivity.
    + intros rcept ok [].
    + constructor.
  - destruct (monitor_loop_inv db world (d :: ds) [] P)
      as [evs (He & _ & HP & Hnd & Hev & Hrs & _)].
    cbv zeta in He, HP, Hrs. cbv zeta.
    set (r := monitor_loop db world (d :: ds) [] P) in *.
    exists evs. cbn [fst snd]. rewrite effects_app, Qe, He. cbn [app].
    split_and!.
    + reflexivity.
    + intros rs Hr. apply (Hrs rs Hr).
    + intros rcept ok Hin. apply in_flat_map in Hin as [ev [Hev' Hin]].
      destruct Hin as [Heq | [Heq | []]]; [|discriminate Heq].
      injection Heq as <- _. split; [|apply (Hev ev Hev')].
      rewrite HP. apply elem_of_union_l, elem_of_list_to_set.
      apply list_elem_of_In, in_map. exact Hev'.
    + exact Hnd.
  - exists []. rewrite Qe. split_and!.
    + reflexivity.
    + discriminate.
    + intros rcept ok [].
    + constructor.
Qed.

(** Telegram answers 502: the alert is not delivered and the receipt
    number is processed all the same, once, although both boards list the
    filing. *)
Lemma C7_witness :
  let r := monitor_executive_purchases ascii_db both_boards_world 1 ∅ in
  effects (snd r)
  = [Notified (u "20240115000001") false; Marked (u "20240115000001")] /\
  u "20240115000001" ∈ snd (fst r).
Proof.
  intros r. split; [vm_compute; reflexivity|].
  destruct (C7_notify_then_mark_processed ascii_db both_boards_world 1 ∅)
    as [evs (_ & _ & H & _)].
  apply (H (u "20240115000001") false).
  vm_compute. left. reflexivity.
Defined.

(** C10.  A listing entry without a receipt number becomes a disclosure
    whose receipt number is the empty string.  Once the empty string is
    in [processed_disclosures], the loop runs as if the disclosures
    without a receipt number were not in the list: no detail request, no
    event.  And when the first of them yields evidence, the empty string
    is inserted, so that all the later ones are skipped in this way.
    Two filings of different companies can thus hide one another. *)
Theorem C10_absent_receipt_numbers_share_a_key :
  forall (db : UnicodeDb) (world : World),
    (forall item : Item,
       item !! u "rcept_no" = None -> rcept_no (to_disclosure item) = []) /\
    (forall (ds : list ExecutiveDisclosure) (rs : list MonitoringEvent)
            (P : gset pystr),
       [] ∈ P ->
       monitor_loop db world ds rs P
       = monitor_loop db world (List.filter has_rcept ds) rs P /\
       ~ In [] (fetched (snd (monitor_loop db world ds rs P)))) /\
    (forall (d : ExecutiveDisclosure) (ds : list ExecutiveDisclosure)
            (rs : list MonitoringEvent) (P : gset pystr) (info : PurchaseInfo),
       rcept_no d = [] -> [] ∉ P ->
       evidence db world [] = Ok (Some info) ->
       let r := monitor_loop db world (List.filter has_rcept ds)
                  (rs ++ [event_of world d info]) ({[ [] ]} ∪ P) in
       monitor_loop db world (d :: ds) rs P
       = (fst (fst r), snd (fst r), emitted_trace db world d info ++ snd r) /\
       [] ∈ snd (fst r)).
Proof.
  intros db world. split_and!.
  - intros item Hnone. unfold to_disclosure, item_get. cbn [rcept_no].
    rewrite Hnone. reflexivity.
  - intros ds rs P HP. split; [apply monitor_loop_skips_empty, HP|].
    intros Hin. exact (monitor_loop_fetched db world ds rs P [] Hin HP).
  - intros d ds rs P info Hd HP Hev. cbv zeta. split.
    + rewrite monitor_loop_cons, Hd.
      rewrite bool_decide_eq_false_2 by exact HP. rewrite Hev. cbv zeta.
      rewrite monitor_loop_skips_empty
        by (apply elem_of_union_l, elem_of_singleton; reflexivity).
      reflexivity.
    + destruct (monitor_loop_settles db world (List.filter has_rcept ds)
                  (rs ++ [event_of world d info]) ({[ [] ]} ∪ P)) as [Hsub _].
      apply Hsub, elem_of_union_l, elem_of_singleton. reflexivity.
Qed.

(** Two filings of two companies, neither with a receipt number: the
    second gets no detail request and no event. *)
Lemma C10_witness :
  let world := listing_world [unnumbered_filing_a; unnumbered_filing_b]
                 (Response 200 None) in
  let r := monitor_executive_purchases ascii_db world 1 ∅ in
  unnumbered_filing_b !! u "rcept_no" = None /\
  rcept_no (to_disclosure unnumbered_filing_b) = [] /\
  to_disclosure unnumbered_filing_a <> to_disclosure unnumbered_filing_b /\
  fetched (snd r) = [ [] ] /\
  (exists info,
     fst (fst r) = Ok [event_of world (to_disclosure unnumbered_filing_a) info]).
Proof.
  intros world r.
  assert (Hnone : unnumbered_filing_b !! u "rcept_no" = None)
    by (vm_compute; reflexivity).
  split; [exact Hnone|].
  split; [exact (proj1 (C10_absent_receipt_numbers_share_a_key ascii_db world)
                   unnumbered_filing_b Hnone)|].
  split; [vm_compute; discriminate|].
  split; [vm_compute; reflexivity|].
  eexists. vm_compute. reflexivity.
Defined.

(** ** main *)

Section Main.

Context (db : UnicodeDb) (world : World).






Lemma send_message_value (m : message) :
  fst (send_message world m) = Ok (delivered world m).
Proof. destruct (send_message_eq world m) as [l [-> _]]. reflexivity. Qed.

(** Without the Telegram settings [main] logs and returns. *)
Lemma main_unset (telegram_token telegram_chat_id : option pystr) :
  unset telegram_token || unset telegram_chat_id = true ->
  main db world telegram_token telegram_chat_id
  = (Ok tt, None, [LogError LogNoTelegram; LogInfo LogDone]).
Proof.
  intros Hu. unfold main, st_finally, st_try, main_try. rewrite Hu.
  reflexivity.
Qed.

(** With them: the test message and the run, then what the outcome of the
    run calls for, then the final log line. *)
Lemma main_set (telegram_token telegram_chat_id : option pystr) :
  unset telegram_token || unset telegram_chat_id = false ->
  let run := monitor_executive_purchases db world 1 ∅ in
  let before :=
    [LogInfo LogStart] ++ snd (send_test_message world) ++
    (if delivered world (TestMessage (now world))
     then [LogInfo LogTestOk] else []) ++
    snd run in
  main db world telegram_token telegram_chat_id
  = match fst (fst run) with
    | Ok [] =>
      (Ok tt, Some (snd (fst run)),
       (before ++ [LogInfo LogNoPurchases] ++
        snd (send_message world (CompletionMessage (now world)))) ++
       [LogInfo LogDone])
    | Ok (ev :: evs) =>
      (Ok tt, Some (snd (fst run)),
       (before ++ [LogInfo (LogPurchases (length (ev :: evs)))] ++
        snd (save_results world (ev :: evs))) ++
       [LogInfo LogDone])
    | Raise e =>
      (Ok tt, Some (snd (fst run)),
       (before ++ [LogError (LogRunError e)] ++
        snd (send_message world (ErrorMessage e (now world)))) ++
       [LogInfo LogDone])
    | OutOfFuel =>
      (OutOfFuel, Some (snd (fst run)), before ++ [LogInfo LogDone])
    end.
Proof.
  intros Hu run before.
  assert (Hsave : forall rs, fst (save_results world rs) = Ok tt).
  { intros [|ev evs]; [reflexivity|]. unfold save_results.
    destruct (output_writable world); reflexivity. }
  assert (Htry : main_try db world telegram_token telegram_chat_id None
            = match fst (fst run) with
              | Ok [] =>
                (Ok tt, Some (snd (fst run)),
                 before ++ [LogInfo LogNoPurchases] ++
                 snd (send_message world (CompletionMessage (now world))))
              | Ok (ev :: evs) =>
                (Ok tt, Some (snd (fst run)),
                 before ++ [LogInfo (LogPurchases (length (ev :: evs)))] ++
                 snd (save_results world (ev :: evs)))
              | Raise e => (Raise e, Some (snd (fst run)), before)
              | OutOfFuel => (OutOfFuel, Some (snd (fst run)), before)
              end).
  { unfold main_try. rewrite Hu. cbn [negb].
    rewrite st_bind_lift_prepend. cbn [log_info w_emit fst snd].
    rewrite st_bind_new_monitor, st_bind_lift_prepend.
    unfold send_test_message. rewrite send_message_value.
    assert (Hrest :
      (on_monitor (monitor_executive_purchases db world 1) ≫=
         (fun results : list MonitoringEvent =>
            match results with
            | [] =>
              lift (log_info LogNoPurchases) ;;
              lift (send_message world (CompletionMessage (now world))) ;;
              mret tt
            | _ :: _ =>
              lift (log_info (LogPurchases (length results))) ;;
              lift (save_results world results)
            end)) (Some ∅)
      = match fst (fst run) with
        | Ok [] =>
          (Ok tt, Some (snd (fst run)),
           snd run ++ [LogInfo LogNoPurchases] ++
           snd (send_message world (CompletionMessage (now world))))
        | Ok (ev :: evs) =>
          (Ok tt, Some (snd (fst run)),
           snd run ++ [LogInfo (LogPurchases (length (ev :: evs)))] ++
           snd (save_results world (ev :: evs)))
        | Raise e => (Raise e, Some (snd (fst run)), snd run)
        | OutOfFuel => (OutOfFuel, Some (snd (fst run)), snd run)
        end).
    { rewrite st_bind_on_monitor. fold run.
      destruct (fst (fst run)) as [[|ev evs]|e|]; try reflexivity.
      - rewrite st_bind_lift_prepend. cbn [log_info w_emit fst snd].
        rewrite st_bind_lift_prepend, send_message_value.
        unfold mret, st_ret. rewrite !prepend_pair, app_nil_r. reflexivity.
      - rewrite st_bind_lift_prepend. cbn [log_info w_emit fst snd].
        unfold lift. rewrite Hsave, !prepend_pair. reflexivity. }
    subst before.
    destruct (delivered world (TestMessage (now world))).
    - rewrite st_bind_lift_prepend. cbn [log_info w_emit fst snd].
      rewrite Hrest.
      destruct (fst (fst run)) as [[|ev evs]|e|];
        rewrite !prepend_pair, <- ?app_assoc; reflexivity.
    - rewrite st_bind_ret, Hrest.
      destruct (fst (fst run)) as [[|ev evs]|e|];
        rewrite !prepend_pair, <- ?app_assoc; reflexivity. }
  unfold main, st_finally, st_try. rewrite Htry.
  destruct (fst (fst run)) as [[|ev evs]|e|]; try reflexivity.
  unfold main_except. rewrite st_bind_lift_prepend.
  cbn [log_error w_emit fst snd].
  rewrite st_bind_in_locals, st_bind_lift_prepend, send_message_value.
  unfold mret, st_ret. rewrite !prepend_pair, app_nil_r. cbn [fst snd].
  reflexivity.
Qed.

End Main.

Section Outcomes.

Context (db : UnicodeDb) (world : World).




End Outcomes.




(** ** The matcher: the first way of a pattern *)

Section FirstWay.

Lemma first_way_lit (c : Z) (cap : option pystr) (s : pystr) :
  first_way (Lit c) cap (c :: s) [c] cap s.
Proof. exists []. simpl. rewrite Z.eqb_refl. reflexivity. Qed.

Lemma first_way_set (p : Z -> bool) (x : Z) (cap : option pystr) (s : pystr) :
  p x = true -> first_way (CharSet p) cap (x :: s) [x] cap s.
Proof. intros Hp. exists []. simpl. rewrite Hp. reflexivity. Qed.

Lemma first_way_seq (r1 r2 : regex) (cap cap1 cap2 : option pystr)
    (s s1 s2 t1 t2 : pystr) :
  first_way r1 cap s t1 cap1 s1 ->
  first_way r2 cap1 s1 t2 cap2 s2 ->
  first_way (Seq r1 r2) cap s (t1 ++ t2) cap2 s2.
Proof.
  intros [ws1 H1] [ws2 H2]. unfold first_way. cbn [rmatch].
  rewrite H1. cbn [flat_map group1 rest consumed]. rewrite H2.
  cbn [List.map app consumed group1 rest]. eauto.
Qed.

Lemma first_way_group (r : regex) (cap cap' : option pystr) (s s' t : pystr) :
  first_way r cap s t cap' s' ->
  first_way (Group r) cap s t (Some t) s'.
Proof.
  intros [ws H]. unfold first_way. cbn [rmatch]. rewrite H.
  cbn [List.map consumed rest]. eauto.
Qed.

Lemma first_way_text (lit : pystr) (k : regex) (cap cap' : option pystr)
    (s s' t : pystr) :
  first_way k cap s t cap' s' ->
  first_way (text lit k) cap (lit ++ s) (lit ++ t) cap' s'.
Proof.
  intros Hk. induction lit as [|c lit IH]; [exact Hk|].
  change (text (c :: lit) k) with (Seq (Lit c) (text lit k)).
  apply (first_way_seq (Lit c) (text lit k) cap cap cap'
           (c :: lit ++ s) (lit ++ s) s' [c] (lit ++ t)).
  - apply first_way_lit.
  - exact IH.
Qed.

(** One more iteration, then the first way of the remaining ones. *)
Lemma first_repeat_more (m : option pystr -> pystr -> list way)
    (fuel lo : nat) (hi : option nat) (cap cap1 cap2 : option pystr)
    (s s1 s2 t1 t2 : pystr) :
  hi_allows hi = true ->
  (exists ws,
     m cap s = {| consumed := t1; group1 := cap1; rest := s1 |} :: ws) ->
  (length s1 < length s)%nat ->
  first_repeat m fuel (Nat.pred lo) (hi_pred hi) cap1 s1 t2 cap2 s2 ->
  first_repeat m (S fuel) lo hi cap s (t1 ++ t2) cap2 s2.
Proof.
  intros Hhi [ws1 H1] Hlt [ws2 H2]. unfold first_repeat.
  cbn [repeat_greedy]. rewrite Hhi, H1.
  cbn [flat_map rest group1 consumed].
  apply Nat.ltb_lt in Hlt. rewrite Hlt, H2.
  cbn [List.map app consumed group1 rest]. eauto.
Qed.

(** No further iteration: the bound is reached or the body does not
    match. *)
Lemma first_repeat_stop (m : option pystr -> pystr -> list way)
    (fuel : nat) (hi : option nat) (cap : option pystr) (s : pystr) :
  hi_allows hi = false \/ m cap s = [] ->
  first_repeat m fuel 0 hi cap s [] cap s.
Proof.
  intros H. exists []. destruct fuel as [|fuel]; [reflexivity|].
  cbn [repeat_greedy]. destruct H as [-> | ->]; [reflexivity|].
  destruct (hi_allows hi); reflexivity.
Qed.

(** A greedy repetition of a character set consumes a run of characters
    of the set that cannot be extended: the upper bound is reached, the
    input ends, or the next character is not in the set. *)
Lemma first_repeat_run (p : Z -> bool) (run : pystr) :
  forall (fuel lo : nat) (hi : option nat) (cap : option pystr) (s' : pystr),
    (length run <= fuel)%nat ->
    forallb p run = true ->
    (lo <= length run)%nat ->
    match hi with Some h => (length run <= h)%nat | None => True end ->
    hi = Some (length run) \/ s' = [] \/
      (exists c s'', s' = c :: s'' /\ p c = false) ->
    first_repeat (rmatch (CharSet p)) fuel lo hi cap (run ++ s') run cap s'.
Proof.
  induction run as [|x run IH]; intros fuel lo hi cap s' Hf Hp Hlo Hhi Hend.
  - cbn [app]. replace lo with 0%nat by (cbn in Hlo; lia).
    apply first_repeat_stop.
    destruct Hend as [-> | [-> | (c & s'' & -> & Hc)]].
    + left. reflexivity.
    + right. reflexivity.
    + right. cbn [rmatch]. rewrite Hc. reflexivity.
  - cbn [forallb] in Hp. apply andb_true_iff in Hp as [Hx Hp].
    destruct fuel as [|fuel]; [cbn in Hf; lia|].
    change ((x :: run) ++ s') with (x :: run ++ s').
    change (x :: run) with ([x] ++ run).
    apply (first_repeat_more _ fuel lo hi cap cap cap
             (x :: run ++ s') (run ++ s') s' [x] run).
    + destruct hi as [[|h]|]; [cbn in Hhi; lia | reflexivity | reflexivity].
    + exists []. cbn [rmatch]. rewrite Hx. reflexivity.
    + cbn [length]. lia.
    + apply IH.
      * cbn in Hf. lia.
      * exact Hp.
      * cbn in Hlo. lia.
      * destruct hi as [h|]; [cbn in *; lia | exact I].
      * destruct Hend as [-> | Hend]; [|right; exact Hend].
        left. reflexivity.
Qed.

Lemma first_way_run (p : Z -> bool) (run : pystr) (lo : nat)
    (hi : option nat) (cap : option pystr) (s' : pystr) :
  forallb p run = true ->
  (lo <= length run)%nat ->
  match hi with Some h => (length run <= h)%nat | None => True end ->
  hi = Some (length run) \/ s' = [] \/
    (exists c s'', s' = c :: s'' /\ p c = false) ->
  first_way (Repeat lo hi (CharSet p)) cap (run ++ s') run cap s'.
Proof.
  intros Hp Hlo Hhi Hend.
  apply (first_repeat_run p run (length (run ++ s')) lo hi cap s');
    try assumption.
  rewrite length_app. lia.
Qed.

(** [re.search] reports the first way at the first position that has
    one. *)
Lemma search_first_way (r : regex) (s t s' : pystr) (cap' : option pystr) :
  first_way r None s t cap' s' -> search r s = Some cap'.
Proof. intros [ws H]. destruct s; simpl; rewrite H; reflexivity. Qed.

Lemma search_skip (r : regex) (pre : pystr) :
  (forall c s, In c pre -> rmatch r None (c :: s) = []) ->
  forall s, search r (pre ++ s) = search r s.
Proof.
  induction pre as [|c pre IH]; intros Hno s; [reflexivity|].
  cbn [app search]. rewrite (Hno c (pre ++ s)) by (left; reflexivity).
  apply IH. intros c' s0 Hc'. apply Hno. right. exact Hc'.
Qed.

(** Where a pattern cannot start. *)
Lemma no_way_text (c x : Z) (lit : pystr) (k : regex) (cap : option pystr)
    (s : pystr) :
  x <> c -> rmatch (text (c :: lit) k) cap (x :: s) = [].
Proof.
  intros Hne. change (text (c :: lit) k) with (Seq (Lit c) (text lit k)).
  cbn [rmatch]. replace (x =? c) with false by lia. reflexivity.
Qed.

Lemma no_way_repeat (p : Z -> bool) (lo : nat) (hi : option nat) (x : Z)
    (cap : option pystr) (s : pystr) :
  p x = false -> rmatch (Repeat (S lo) hi (CharSet p)) cap (x :: s) = [].
Proof.
  intros Hp. cbn [rmatch length repeat_greedy]. rewrite Hp.
  destruct (hi_allows hi); reflexivity.
Qed.

Lemma no_way_seq (r1 r2 : regex) (cap : option pystr) (s : pystr) :
  rmatch r1 cap s = [] -> rmatch (Seq r1 r2) cap s = [].
Proof. intros H. cbn [rmatch]. rewrite H. reflexivity. Qed.

Lemma no_way_group (r : regex) (cap : option pystr) (s : pystr) :
  rmatch r cap s = [] -> rmatch (Group r) cap s = [].
Proof. intros H. cbn [rmatch]. rewrite H. reflexivity. Qed.

End FirstWay.

(** ** Field extraction *)

Section Fields.

Context (db : UnicodeDb).

Lemma first_way_repeat (r : regex) (lo : nat) (hi : option nat)
    (cap cap' : option pystr) (s t s' : pystr) :
  first_repeat (rmatch r) (length s) lo hi cap s t cap' s' ->
  first_way (Repeat lo hi r) cap s t cap' s'.
Proof. intros H. exact H. Qed.

Lemma ascii_digit (c : Z) : 48 <= c <= 57 -> is_decimal db c = true.
Proof. intros Hc. rewrite is_decimal_ascii by lia. lia. Qed.

Lemma ascii_no_digit (c : Z) :
  0 <= c < 48 \/ 57 < c < 128 -> is_decimal db c = false.
Proof. intros Hc. rewrite is_decimal_ascii by lia. lia. Qed.

(** The reporter pattern on a content whose first "보" starts the text
    "보고자: 홍길동", followed by no Hangul syllable. *)
Lemma search_reporter (pre post : pystr) :
  (forall c, In c pre -> c <> ord "보") ->
  match post with [] => True | c :: _ => hangul c = false end ->
  search (pattern_for db Reporter) (pre ++ u "보고자: 홍길동" ++ post)
  = Some (Some (u "홍길동")).
Proof.
  intros Hpre Hpost.
  change (pattern_for db Reporter)
    with (text [48372; 44256; 51088]
            (Seq (star (CharSet colon_or_space))
                 (Group (plus (CharSet hangul))))).
  rewrite search_skip.
  2: { intros c s Hc. apply no_way_text. exact (Hpre c Hc). }
  change (u "보고자: 홍길동" ++ post)
    with ([48372; 44256; 51088] ++ [58; 32] ++ [54861; 44600; 46041] ++ post).
  change (u "홍길동") with [54861; 44600; 46041].
  eapply search_first_way. eapply first_way_text.
  eapply first_way_seq.
  - apply (first_way_run colon_or_space [58; 32]); [reflexivity | cbn; lia
      | exact I |].
    right. right. eexists _, _. split; reflexivity.
  - eapply first_way_group.
    apply (first_way_run hangul [54861; 44600; 46041]);
      [reflexivity | cbn; lia | exact I |].
    right. destruct post as [|c post']; [left; reflexivity|].
    right. eauto.
Qed.

(** The share pattern on a content whose first decimal digit starts the
    text "1,000주". *)
Lemma search_shares (pre post : pystr) :
  (forall c, In c pre -> is_decimal db c = false) ->
  search (pattern_for db Shares) (pre ++ u "1,000주" ++ post)
  = Some (Some (u "1,000")).
Proof.
  intros Hpre.
  change (pattern_for db Shares)
    with (Seq (Group (Seq (Repeat 1 (Some 3%nat) (CharSet (is_decimal db)))
                          (star (Seq (Lit 44)
                                     (Repeat 3 (Some 3%nat)
                                        (CharSet (is_decimal db)))))))
              (Seq (star (CharSet is_space)) (Lit 51452))).
  rewrite search_skip.
  2: { intros c s Hc. apply no_way_seq, no_way_group, no_way_seq.
       apply no_way_repeat. exact (Hpre c Hc). }
  change (u "1,000주" ++ post)
    with ([49] ++ ([44] ++ [48; 48; 48] ++ [] ++ 51452 :: post)).
  change (u "1,000") with ([49] ++ [44] ++ [48; 48; 48] ++ []).
  eapply search_first_way.
  eapply first_way_seq; [|eapply first_way_seq].
  - eapply first_way_group. eapply first_way_seq.
    + apply (first_way_run (is_decimal db) [49]).
      * cbn. rewrite ascii_digit by lia. reflexivity.
      * cbn. lia.
      * cbn. lia.
      * right. right. eexists _, _. split; [reflexivity|].
        apply ascii_no_digit. lia.
    + apply first_way_repeat.
      eapply (first_repeat_more _ _ 0 None _ _ _ _ _ _
                ([44] ++ [48; 48; 48]) []).
      * reflexivity.
      * eapply first_way_seq; [apply first_way_lit|].
        apply (first_way_run (is_decimal db) [48; 48; 48]).
        -- cbn. rewrite !ascii_digit by lia. reflexivity.
        -- cbn. lia.
        -- cbn. lia.
        -- left. reflexivity.
      * cbn. lia.
      * apply first_repeat_stop. right. reflexivity.
  - apply (first_way_run is_space []); [reflexivity | cbn; lia | exact I |].
    right. right. eexists _, _. split; reflexivity.
  - apply first_way_lit.
Qed.

(** The date pattern on a content whose first decimal digit starts the
    text "2024-01-15". *)
Lemma search_transaction_date (pre post : pystr) :
  (forall c, In c pre -> is_decimal db c = false) ->
  search (pattern_for db TransactionDate) (pre ++ u "2024-01-15" ++ post)
  = Some (Some (u "2024-01-15")).
Proof.
  intros Hpre.
  change (pattern_for db TransactionDate)
    with (Group (Seq (Repeat 4 (Some 4%nat) (CharSet (is_decimal db)))
                (Seq date_sep
                (Seq (Repeat 1 (Some 2%nat) (CharSet (is_decimal db)))
                (Seq date_sep
                     (Repeat 1 (Some 2%nat) (CharSet (is_decimal db)))))))).
  rewrite search_skip.
  2: { intros c s Hc. apply no_way_group, no_way_seq.
       apply no_way_repeat. exact (Hpre c Hc). }
  change (u "2024-01-15" ++ post)
    with ([50; 48; 50; 52] ++ [45] ++ [48; 49] ++ [45] ++ [49; 53] ++ post).
  change (u "2024-01-15")
    with ([50; 48; 50; 52] ++ [45] ++ [48; 49] ++ [45] ++ [49; 53]).
  eapply search_first_way. eapply first_way_group.
  eapply first_way_seq; [|eapply first_way_seq; [|eapply first_way_seq;
    [|eapply first_way_seq]]].
  - apply (first_way_run (is_decimal db) [50; 48; 50; 52]).
    + cbn. rewrite !ascii_digit by lia. reflexivity.
    + cbn. lia.
    + cbn. lia.
    + left. reflexivity.
  - apply first_way_set. reflexivity.
  - apply (first_way_run (is_decimal db) [48; 49]).
    + cbn. rewrite !ascii_digit by lia. reflexivity.
    + cbn. lia.
    + cbn. lia.
    + left. reflexivity.
  - apply first_way_set. reflexivity.
  - apply (first_way_run (is_decimal db) [49; 53]).
    + cbn. rewrite !ascii_digit by lia. reflexivity.
    + cbn. lia.
    + cbn. lia.
    + left. reflexivity.
Qed.

End Fields.

Section GoldenCases.

Context (db : UnicodeDb).

(** Each field holds what its own pattern found. *)
Lemma apply_patterns_fields (content : pystr) :
  exists info,
    apply_patterns (patterns db) content (initial_info content) = Ok info /\
    reporter info = field_value (search (pattern_for db Reporter) content) /\
    shares info = field_value (search (pattern_for db Shares) content) /\
    transaction_date info
    = field_value (search (pattern_for db TransactionDate) content).
Proof.
  unfold pattern_for, patterns. cbn [find field_eqb fst snd apply_patterns].
  repeat match goal with
  | |- context [search ?r content] =>
    let H := fresh "H" in
    pose proof (search_captures r content eq_refl) as H;
    destruct (search r content) as [[?g|]|]; [| congruence |]; clear H
  end;
  eexists; repeat split.
Qed.

Lemma extract_fields (content : pystr) (doc : Item) :
  str_in (u "매수") content = true ->
  exists info,
    extract_purchase_details db content doc = (Ok (Some info), []) /\
    reporter info = field_value (search (pattern_for db Reporter) content) /\
    shares info = field_value (search (pattern_for db Shares) content) /\
    transaction_date info
    = field_value (search (pattern_for db TransactionDate) content).
Proof.
  intros Hb.
  destruct (apply_patterns_fields content) as [info (Hinfo & Hr & Hs & Hd)].
  destruct (extract_purchase_details_eq db content doc)
    as [info' [Hinfo' ->]].
  rewrite Hinfo in Hinfo'. injection Hinfo' as <-. rewrite Hb.
  destruct (_ || _); eexists; (split; [reflexivity|]); auto.
Qed.

End GoldenCases.

(** C8 (as amended).  With a purchase word in the content:
    when the text "보고자: 홍길동" begins at the first "보" of the content
    and no Hangul syllable follows it, the reporter is "홍길동"; when the
    text "1,000주" begins at the first decimal digit of the content, the
    share count is "1,000"; when the text "2024-01-15" begins at the first
    decimal digit of the content, the transaction date is "2024-01-15". *)
Theorem C8_golden_field_extraction :
  forall (db : UnicodeDb) (doc : Item) (pre post : pystr),
    ((forall c, In c pre -> c <> ord "보") ->
     match post with [] => True | c :: _ => hangul c = false end ->
     str_in (u "매수") (pre ++ u "보고자: 홍길동" ++ post) = true ->
     exists info,
       extract_purchase_details db (pre ++ u "보고자: 홍길동" ++ post) doc
       = (Ok (Some info), []) /\
       reporter info = u "홍길동") /\
    ((forall c, In c pre -> is_decimal db c = false) ->
     str_in (u "매수") (pre ++ u "1,000주" ++ post) = true ->
     exists info,
       extract_purchase_details db (pre ++ u "1,000주" ++ post) doc
       = (Ok (Some info), []) /\
       shares info = u "1,000") /\
    ((forall c, In c pre -> is_decimal db c = false) ->
     str_in (u "매수") (pre ++ u "2024-01-15" ++ post) = true ->
     exists info,
       extract_purchase_details db (pre ++ u "2024-01-15" ++ post) doc
       = (Ok (Some info), []) /\
       transaction_date info = u "2024-01-15").
Proof.
  intros db doc pre post. split_and!.
  - intros Hpre Hpost Hb.
    destruct (extract_fields db _ doc Hb) as [info (He & Hr & _ & _)].
    exists info. split; [exact He|].
    rewrite Hr, (search_reporter db pre post Hpre Hpost). reflexivity.
  - intros Hpre Hb.
    destruct (extract_fields db _ doc Hb) as [info (He & _ & Hs & _)].
    exists info. split; [exact He|].
    rewrite Hs, (search_shares db pre post Hpre). reflexivity.
  - intros Hpre Hb.
    destruct (extract_fields db _ doc Hb) as [info (He & _ & _ & Hd)].
    exists info. split; [exact He|].
    rewrite Hd, (search_transaction_date db pre post Hpre). reflexivity.
Qed.

(** The golden contents themselves, each followed by the on-market
    phrase. *)
Lemma C8_witness :
  (exists info,
     extract_purchase_details ascii_db (u "보고자: 홍길동 장내매수") ∅
     = (Ok (Some info), []) /\ reporter info = u "홍길동") /\
  (exists info,
     extract_purchase_details ascii_db (u "1,000주 장내매수") ∅
     = (Ok (Some info), []) /\ shares info = u "1,000") /\
  (exists info,
     extract_purchase_details ascii_db (u "2024-01-15 장내매수") ∅
     = (Ok (Some info), []) /\ transaction_date info = u "2024-01-15").
Proof.
  pose proof (C8_golden_field_extraction ascii_db ∅ [] (u " 장내매수"))
    as (Hr & Hs & Hd).
  split_and!.
  - apply Hr; [intros c [] | reflexivity | reflexivity].
  - apply Hs; [intros c [] | reflexivity].
  - apply Hd; [intros c [] | reflexivity].
Defined.

(** C8 as stated fails for contents that merely contain the golden texts:
    a Hangul syllable after the name is taken into the reporter, and
    digits before the golden text change the share count and the date. *)
Lemma C8_counterexample :
  ~ (forall (db : UnicodeDb) (content : pystr) (doc : Item),
       str_in (u "보고자: 홍길동") content = true ->
       str_in (u "매수") content = true ->
       exists info,
         fst (extract_purchase_details db content doc) = Ok (Some info) /\
         reporter info = u "홍길동") /\
  ~ (forall (db : UnicodeDb) (content : pystr) (doc : Item),
       str_in (u "1,000주") content = true ->
       str_in (u "매수") content = true ->
       exists info,
         fst (extract_purchase_details db content doc) = Ok (Some info) /\
         shares info = u "1,000") /\
  ~ (forall (db : UnicodeDb) (content : pystr) (doc : Item),
       str_in (u "2024-01-15") content = true ->
       str_in (u "매수") content = true ->
       exists info,
         fst (extract_purchase_details db content doc) = Ok (Some info) /\
         transaction_date info = u "2024-01-15").
Proof.
  split_and!; intros H.
  - destruct (H ascii_db (u "보고자: 홍길동외 1명 장내매수") ∅ eq_refl eq_refl)
      as [info [He Hr]].
    vm_compute in He. injection He as <-. vm_compute in Hr. discriminate Hr.
  - destruct (H ascii_db (u "21,000주 장내매수") ∅ eq_refl eq_refl)
      as [info [He Hs]].
    vm_compute in He. injection He as <-. vm_compute in Hs. discriminate Hs.
  - destruct (H ascii_db (u "접수 2023.12.31 거래 2024-01-15 장내매수") ∅
                eq_refl eq_refl) as [info [He Hd]].
    vm_compute in He. injection He as <-. vm_compute in Hd. discriminate Hd.
Qed.

(** * Further properties *)

(** ** Keyword sets *)

Lemma str_in_part (a k b s : pystr) :
  str_in (a ++ k ++ b) s = true -> str_in k s = true.
Proof.
  intros H. apply str_in_spec in H as [pre [post ->]]. apply str_in_spec.
  exists (pre ++ a), (b ++ post). rewrite <- !app_assoc. reflexivity.
Qed.

(** X1.  Two of the four report-title variants and two of the four
    purchase keywords decide nothing: a report name qualifies exactly when
    it contains the third or the fourth variant, and a content passes the
    keyword test exactly when it contains "매수" or "취득". *)
Theorem X1_keyword_sets_reduce :
  (forall report_nm : pystr,
     is_executive_report report_nm
     = str_in (u "임원특정증권등소유상황보고서") report_nm
       || str_in (u "주요주주특정증권등소유상황보고서") report_nm) /\
  (forall content : pystr,
     py_any (fun keyword => str_in keyword content) purchase_keywords
     = str_in (u "매수") content || str_in (u "취득") content).
Proof.
  split.
  - intros s. unfold is_executive_report.
    cbn [py_any existsb executive_keywords].
    destruct (str_in (u "주요주주특정증권등소유상황보고서") s) eqn:H4.
    + rewrite !orb_true_r. reflexivity.
    + assert (H1 : str_in (u "임원ㆍ주요주주특정증권등소유상황보고서") s = false).
      { destruct (str_in (u "임원ㆍ주요주주특정증권등소유상황보고서") s) eqn:H;
          [|reflexivity].
        apply (str_in_part (u "임원ㆍ")
                 (u "주요주주특정증권등소유상황보고서") [] s) in H.
        congruence. }
      assert (H2 : str_in (u "임원·주요주주특정증권등소유상황보고서") s = false).
      { destruct (str_in (u "임원·주요주주특정증권등소유상황보고서") s) eqn:H;
          [|reflexivity].
        apply (str_in_part (u "임원·")
                 (u "주요주주특정증권등소유상황보고서") [] s) in H.
        congruence. }
      rewrite H1, H2, !orb_false_r. reflexivity.
  - intros c. cbn [py_any existsb purchase_keywords].
    destruct (str_in (u "매수") c) eqn:Hb.
    + rewrite !orb_true_r. reflexivity.
    + assert (H1 : str_in (u "장내매수") c = false).
      { destruct (str_in (u "장내매수") c) eqn:H; [|reflexivity].
        apply (str_in_part (u "장내") (u "매수") [] c) in H. congruence. }
      assert (H2 : str_in (u "장내 매수") c = false).
      { destruct (str_in (u "장내 매수") c) eqn:H; [|reflexivity].
        apply (str_in_part (u "장내 ") (u "매수") [] c) in H. congruence. }
      rewrite H1, H2, !orb_false_r. reflexivity.
Qed.

(** ** What a search does to the upstream *)

Section SearchEvents.

Context (world : World) (start_date end_date : pystr).

Lemma page_requests_events (p : Z) :
  1 <= p <= 10 ->
  forallb search_event (page_requests world start_date end_date p) = true /\
  Forall (listing_request_ok start_date end_date)
    (page_requests world start_date end_date p) /\
  length (requests (page_requests world start_date end_date p)) = 2%nat.
Proof.
  intros Hp. unfold page_requests, get_disclosure_list.
  destruct (response_json (list_json world start_date end_date (u "Y") p 100));
    destruct (response_json
                (list_json world start_date end_date (u "K") p 100));
    (split; [reflexivity|]); (split; [|reflexivity]);
    repeat (apply Forall_cons; split); try apply Forall_nil; try exact I;
    cbn [listing_request_ok];
    (split_and!;
       first [reflexivity | lia | left; reflexivity | right; reflexivity]).
Qed.

Lemma found_events (ds : list ExecutiveDisclosure) :
  forallb search_event (List.map (fun d => LogInfo (LogFound d)) ds) = true /\
  Forall (listing_request_ok start_date end_date)
    (List.map (fun d => LogInfo (LogFound d)) ds) /\
  requests (List.map (fun d => LogInfo (LogFound d)) ds) = [].
Proof.
  induction ds as [|d ds (IH1 & IH2 & IH3)].
  { split; [reflexivity|]. split; [constructor | reflexivity]. }
  cbn [List.map forallb search_event andb]. split; [exact IH1|].
  split; [apply Forall_cons; split; [exact I | exact IH2] | exact IH3].
Qed.

Lemma search_loop_events (fuel : nat) :
  forall p ds,
    1 <= p <= 10 ->
    let t := snd (search_loop world fuel start_date end_date p ds) in
    forallb search_event t = true /\
    Forall (listing_request_ok start_date end_date) t /\
    (Z.of_nat (length (requests t)) <= 2 * (11 - p)).
Proof.
  induction fuel as [|fuel IH]; intros p ds Hp; cbv zeta.
  { cbn [search_loop snd forallb requests flat_map length].
    split; [reflexivity|]. split; [constructor | lia]. }
  rewrite search_loop_S.
  destruct (page_requests_events p Hp) as (E1 & E2 & E3).
  assert (Hbase : forallb search_event
                    (page_requests world start_date end_date p) = true /\
                  Forall (listing_request_ok start_date end_date)
                    (page_requests world start_date end_date p) /\
                  Z.of_nat (length (requests
                                      (page_requests world start_date
                                         end_date p))) <= 2 * (11 - p)).
  { split; [exact E1|]. split; [exact E2|]. rewrite E3. lia. }
  destruct (merge_data _ []) as [[|item items]|e|]; try exact Hbase.
  cbv zeta.
  destruct (found_events (qualifying (item :: items))) as (F1 & F2 & F3).
  assert (Hpage : forallb search_event
                    (page_requests world start_date end_date p ++
                     List.map (fun d => LogInfo (LogFound d))
                       (qualifying (item :: items))) = true /\
                  Forall (listing_request_ok start_date end_date)
                    (page_requests world start_date end_date p ++
                     List.map (fun d => LogInfo (LogFound d))
                       (qualifying (item :: items))) /\
                  length (requests
                            (page_requests world start_date end_date p ++
                             List.map (fun d => LogInfo (LogFound d))
                               (qualifying (item :: items)))) = 2%nat).
  { rewrite forallb_app, E1, F1, requests_app, F3, app_nil_r, E3.
    split; [reflexivity|]. split; [|reflexivity].
    apply Forall_app. split; [exact E2 | exact F2]. }
  destruct Hpage as (G1 & G2 & G3).
  destruct (length (item :: items) <? 100)%nat;
    [cbn [snd]; rewrite G3; split; [exact G1|]; split; [exact G2 | lia]|].
  destruct (p + 1 >? 10) eqn:Hnext;
    [cbn [snd]; rewrite G3; split; [exact G1|]; split; [exact G2 | lia]|].
  cbn [snd].
  destruct (IH (p + 1) (ds ++ qualifying (item :: items))) as (I1 & I2 & I3);
    [lia|].
  rewrite forallb_app, G1, I1, requests_app, length_app, G3.
  split; [reflexivity|]. split; [|lia].
  apply Forall_app. split; [exact G2 | exact I2].
Qed.

(** A search: log lines and at most twenty listing requests. *)
Lemma search_events :
  let t := snd (search_executive_disclosures world start_date end_date) in
  forallb search_event t = true /\
  Forall (listing_request_ok start_date end_date) t /\
  (length (requests t) <= 20)%nat.
Proof.
  cbv zeta.
  rewrite search_executive_disclosures_eq.
  pose proof (search_loop_events 10 1 [])
    as Hloop.
  cbv zeta in Hloop. revert Hloop.
  generalize (search_loop world 10 start_date end_date 1 []).
  intros [[ds|e|] t] Hloop; cbn [snd] in *;
    (destruct Hloop as (H1 & H2 & H3); [lia|]).
  - rewrite forallb_app, H1, requests_app, length_app. cbn.
    split; [reflexivity|]. split; [|lia].
    apply Forall_app. split; [exact H2|].
    apply Forall_cons. split; [exact I | constructor].
  - split; [exact H1|]. split; [exact H2 | lia].
  - split; [exact H1|]. split; [exact H2 | lia].
Qed.

End SearchEvents.


(** X2.  Whatever the upstream answers, a search performs only log lines
    and listing requests, at most twenty of them, each for the given date
    range, for the main or the secondary board, for a page from 1 to 10
    and with the page size 100. *)
Theorem X2_search_requests_bounded :
  forall (world : World) (start_date end_date : pystr),
    let t := snd (search_executive_disclosures world start_date end_date) in
    forallb search_event t = true /\
    Forall (listing_request_ok start_date end_date) t /\
    (length (requests t) <= 20)%nat.
Proof. exact search_events. Qed.

(** ** What a search returns *)

Section SearchResult.

Context (world : World) (start_date end_date : pystr).

Lemma found_logged_app (t1 t2 : list event) :
  found_logged (t1 ++ t2) = found_logged t1 ++ found_logged t2.
Proof. apply flat_map_app. Qed.

Lemma found_logged_found (ds : list ExecutiveDisclosure) :
  found_logged (List.map (fun d => LogInfo (LogFound d)) ds) = ds.
Proof.
  induction ds as [|d ds IH]; [reflexivity|].
  cbn [List.map]. change (found_logged (?e :: ?t)) with
    (found_logged [e] ++ found_logged t).
  rewrite IH. reflexivity.
Qed.

Lemma found_logged_page_requests (p : Z) :
  found_logged (page_requests world start_date end_date p) = [].
Proof.
  unfold page_requests, get_disclosure_list.
  destruct (response_json (list_json world start_date end_date (u "Y") p 100));
    destruct (response_json
                (list_json world start_date end_date (u "K") p 100));
    reflexivity.
Qed.

Lemma qualifying_reports (all_data : list Item) (d : ExecutiveDisclosure) :
  In d (qualifying all_data) -> is_executive_report (report_nm d) = true.
Proof.
  unfold qualifying. intros Hin.
  apply in_map_iff in Hin as [item [<- Hitem]].
  apply filter_In in Hitem as [_ Hq]. exact Hq.
Qed.

(** The loop appends what it logs as found, and all of it qualifies. *)
Lemma search_loop_found (fuel : nat) :
  forall p ds,
    let r := search_loop world fuel start_date end_date p ds in
    (forall d, In d (found_logged (snd r)) ->
               is_executive_report (report_nm d) = true) /\
    (forall ds', fst r = Ok ds' -> ds' = ds ++ found_logged (snd r)).
Proof.
  induction fuel as [|fuel IH]; intros p ds; cbv zeta.
  { cbn [search_loop fst snd]. split; [intros d []|discriminate]. }
  rewrite search_loop_S.
  pose proof (found_logged_page_requests p) as Hp.
  destruct (merge_data _ []) as [[|item items]|e|]; cbn [fst snd];
    try (rewrite Hp; split; [intros d [] | discriminate]).
  { rewrite Hp. split; [intros d []|].
    intros ds' H. injection H as <-. rewrite app_nil_r. reflexivity. }
  cbv zeta.
  assert (Hpage : found_logged
                    (page_requests world start_date end_date p ++
                     List.map (fun d => LogInfo (LogFound d))
                       (qualifying (item :: items)))
                  = qualifying (item :: items)).
  { rewrite found_logged_app, Hp, found_logged_found. reflexivity. }
  destruct (length (item :: items) <? 100)%nat;
    [|destruct (p + 1 >? 10)]; cbn [fst snd].
  - rewrite Hpage. split; [apply qualifying_reports|].
    intros ds' H. injection H as <-. reflexivity.
  - rewrite Hpage. split; [apply qualifying_reports|].
    intros ds' H. injection H as <-. reflexivity.
  - destruct (IH (p + 1) (ds ++ qualifying (item :: items))) as [I1 I2].
    rewrite found_logged_app, Hpage. split.
    + intros d Hd. apply in_app_or in Hd as [Hd | Hd];
        [exact (qualifying_reports _ _ Hd) | exact (I1 d Hd)].
    + intros ds' H. rewrite (I2 ds' H), <- app_assoc. reflexivity.
Qed.

Lemma search_found :
  let r := search_executive_disclosures world start_date end_date in
  (forall d, In d (found_logged (snd r)) ->
             is_executive_report (report_nm d) = true) /\
  (forall ds, fst r = Ok ds ->
     found_logged (snd r) = ds /\
     exists t, snd r = t ++ [LogInfo (LogTotal (length ds))]).
Proof.
  cbv zeta. rewrite search_executive_disclosures_eq.
  pose proof (search_loop_found 10 1 []) as Hloop.
  cbv zeta in Hloop. revert Hloop.
  generalize (search_loop world 10 start_date end_date 1 []).
  intros [[ds|e|] t] [H1 H2]; cbn [fst snd] in *.
  - split.
    + intros d Hd. apply H1. rewrite found_logged_app in Hd.
      cbn in Hd. rewrite app_nil_r in Hd. exact Hd.
    + intros ds' H. injection H as <-.
      rewrite found_logged_app. cbn. rewrite app_nil_r.
      split; [symmetry; exact (H2 ds eq_refl) | exists t; reflexivity].
  - split; [exact H1 | discriminate].
  - split; [exact H1 | discriminate].
Qed.

(** What the loop returns when the pages are JSON objects: the qualifying
    entries of the pages it goes through. *)
Lemma search_loop_result (remaining : nat) :
  object_pages world start_date end_date ->
  forall fuel p ds,
    (remaining < fuel)%nat -> p + Z.of_nat remaining = 10 ->
    fst (search_loop world fuel start_date end_date p ds)
    = Ok (ds ++
          flat_map
            (fun q => qualifying (page_entries world start_date end_date q))
            (seqZ p (stop_page (combined_count world start_date end_date)
                       remaining p - p + 1))).
Proof.
  intros Hobj. induction remaining as [|n IH]; intros fuel p ds Hf Hp;
    (destruct fuel as [|fuel]; [lia|]); rewrite search_loop_S;
    destruct (Hobj (u "Y") p) as [dY HY]; destruct (Hobj (u "K") p) as [dK HK];
    rewrite HY, HK, merge_data_objects;
    assert (Hall : entries (JObject dY) ++ entries (JObject dK)
                   = page_entries world start_date end_date p)
      by (unfold page_entries; rewrite HY, HK; reflexivity);
    rewrite Hall;
    assert (Hcount : combined_count world start_date end_date p
                     = length (page_entries world start_date end_date p))
      by reflexivity;
    destruct (page_entries world start_date end_date p)
      as [|item items] eqn:Hpe.
  - rewrite stop_page_here by (right; reflexivity).
    replace (p - p + 1) with 1 by lia.
    change (seqZ p 1) with [p]. cbn [flat_map]. rewrite Hpe.
    cbn. rewrite app_nil_r. reflexivity.
  - cbv zeta. rewrite stop_page_here by (right; reflexivity).
    replace (p - p + 1) with 1 by lia.
    change (seqZ p 1) with [p]. cbn [flat_map]. rewrite Hpe, app_nil_r.
    destruct (length (item :: items) <? 100)%nat; [reflexivity|].
    replace (p + 1 >? 10) with true by lia. reflexivity.
  - rewrite stop_page_here by (left; rewrite Hcount; simpl; lia).
    replace (p - p + 1) with 1 by lia.
    change (seqZ p 1) with [p]. cbn [flat_map]. rewrite Hpe.
    cbn. rewrite app_nil_r. reflexivity.
  - cbv zeta.
    destruct (length (item :: items) <? 100)%nat eqn:Hlen.
    + apply Nat.ltb_lt in Hlen.
      rewrite stop_page_here by (left; rewrite Hcount; exact Hlen).
      replace (p - p + 1) with 1 by lia.
      change (seqZ p 1) with [p]. cbn [flat_map]. rewrite Hpe, app_nil_r.
      reflexivity.
    + replace (p + 1 >? 10) with false by lia. cbn [fst].
      rewrite (IH fuel (p + 1) (ds ++ qualifying (item :: items)))
        by lia.
      pose proof (stop_page_range
        (combined_count world start_date end_date) n (p + 1)) as Hrange.
      assert (Hnext : stop_page (combined_count world start_date end_date)
                        (S n) p
                      = stop_page (combined_count world start_date end_date)
                          n (p + 1)).
      { cbn [stop_page]. rewrite Hcount, Hlen. reflexivity. }
      rewrite Hnext.
      rewrite (seqZ_cons p) by lia.
      replace (Z.succ p) with (p + 1) by lia.
      replace (Z.pred (stop_page (combined_count world start_date end_date)
                         n (p + 1) - p + 1))
        with (stop_page (combined_count world start_date end_date)
                n (p + 1) - (p + 1) + 1) by lia.
      cbn [flat_map]. rewrite Hpe, <- app_assoc. reflexivity.
Qed.




End SearchResult.

(** X3.  Whatever the upstream answers, every disclosure a search logs as
    found carries a qualifying report name; when the search returns, it
    returns exactly the disclosures it logged as found, in that order, and
    its last log line gives their number. *)
Theorem X3_search_returns_what_it_found :
  forall (world : World) (start_date end_date : pystr),
    let r := search_executive_disclosures world start_date end_date in
    (forall d, In d (found_logged (snd r)) ->
               is_executive_report (report_nm d) = true) /\
    (forall ds, fst r = Ok ds ->
       found_logged (snd r) = ds /\
       (forall d, In d ds -> is_executive_report (report_nm d) = true) /\
       exists t, snd r = t ++ [LogInfo (LogTotal (length ds))]).
Proof.
  intros world start_date end_date. cbv zeta.
  destruct (search_found world start_date end_date) as [H1 H2].
  split; [exact H1|]. intros ds Hds. destruct (H2 ds Hds) as [Hf Ht].
  split; [exact Hf|]. split; [|exact Ht].
  intros d Hd. apply H1. rewrite Hf. exact Hd.
Qed.

Lemma X3_witness :
  let r := search_executive_disclosures
             (listing_world [samsung_filing; other_report; hyundai_filing]
                (Response 200 None)) (u "20240114") (u "20240115") in
  fst r = Ok [to_disclosure samsung_filing; to_disclosure hyundai_filing] /\
  found_logged (snd r)
  = [to_disclosure samsung_filing; to_disclosure hyundai_filing].
Proof.
  cbv zeta. split; [vm_compute; reflexivity|].
  apply (proj2 (X3_search_returns_what_it_found
                  (listing_world [samsung_filing; other_report; hyundai_filing]
                     (Response 200 None)) (u "20240114") (u "20240115"))).
  vm_compute. reflexivity.
Defined.

(** X4.  When the page responses are JSON objects, the search returns the
    qualifying entries of the pages 1 to [last], page by page, main board
    before secondary board, each entry as often as it is listed. *)
Theorem X4_search_result_by_pages :
  forall (world : World) (start_date end_date : pystr),
    object_pages world start_date end_date ->
    fst (search_executive_disclosures world start_date end_date)
    = Ok (flat_map
            (fun p => qualifying (page_entries world start_date end_date p))
            (seqZ 1 (last_page (combined_count world start_date end_date)))).
Proof.
  intros world start_date end_date Hobj.
  rewrite search_executive_disclosures_eq.
  pose proof (search_loop_result world start_date end_date 9 Hobj 10 1 [])
    as Hloop.
  unfold last_page. revert Hloop.
  generalize (search_loop world 10 start_date end_date 1 []).
  intros [o t] Hloop. cbn [fst] in Hloop. rewrite Hloop by lia.
  cbn [fst app].
  replace (stop_page (combined_count world start_date end_date) 9 1 - 1 + 1)
    with (stop_page (combined_count world start_date end_date) 9 1) by lia.
  reflexivity.
Qed.

Lemma X4_witness :
  object_pages both_boards_world (u "20240114") (u "20240115") /\
  fst (search_executive_disclosures both_boards_world
         (u "20240114") (u "20240115"))
  = Ok [to_disclosure samsung_filing; to_disclosure samsung_filing].
Proof.
  assert (Hobj : object_pages both_boards_world (u "20240114") (u "20240115")).
  { intros corp_cls p. unfold list_value, both_boards_world. cbn [list_json].
    destruct (p =? 1); eexists; reflexivity. }
  split; [exact Hobj|].
  rewrite (X4_search_result_by_pages both_boards_world
             (u "20240114") (u "20240115") Hobj).
  vm_compute. reflexivity.
Defined.

(** ** What the detail check answers *)

Section EvidenceShape.

Context (db : UnicodeDb) (world : World).

(** The detail check raises exactly on a detail that is neither a JSON
    object nor falsy. *)
Lemma evidence_raise (rcept : pystr) (e : exception) :
  evidence db world rcept = Raise e <->
  e = AttributeError /\
  truthy (detail_value world rcept) = true /\
  is_object (detail_value world rcept) = false.
Proof.
  unfold evidence, check_purchase_transaction.
  rewrite (w_bind_pair _ _ _ (get_disclosure_detail_value world rcept)).
  cbn [fst].
  destruct (detail_value world rcept) as [d|l|s|n|b|] eqn:Hd.
  - destruct (truthy (JObject d)); cbn [negb].
    + destruct (bool_decide (d_status d = Some (u "000"))); cbn [negb].
      * destruct (d_list d) as [docs|].
        -- rewrite check_documents_eq. cbn [fst].
           split; [discriminate | intros (_ & _ & H); discriminate].
        -- split; [discriminate | intros (_ & _ & H); discriminate].
      * split; [discriminate | intros (_ & _ & H); discriminate].
    + split; [discriminate | intros (_ & H & _); discriminate].
  - destruct (truthy (JArray l)); cbn [negb fst w_lift mret w_ret].
    + split; [intros H; injection H as <-; auto | intros (-> & _); auto].
    + split; [discriminate | intros (_ & H & _); discriminate].
  - destruct (truthy (JString s)); cbn [negb fst w_lift mret w_ret].
    + split; [intros H; injection H as <-; auto | intros (-> & _); auto].
    + split; [discriminate | intros (_ & H & _); discriminate].
  - destruct (truthy (JNumber n)); cbn [negb fst w_lift mret w_ret].
    + split; [intros H; injection H as <-; auto | intros (-> & _); auto].
    + split; [discriminate | intros (_ & H & _); discriminate].
  - destruct (truthy (JBool b)); cbn [negb fst w_lift mret w_ret].
    + split; [intros H; injection H as <-; auto | intros (-> & _); auto].
    + split; [discriminate | intros (_ & H & _); discriminate].
  - cbn. split; [discriminate | intros (_ & H & _); discriminate].
Qed.

(** Evidence comes from a document of a well-formed detail. *)
Lemma evidence_some (rcept : pystr) (info : PurchaseInfo) :
  evidence db world rcept = Ok (Some info) ->
  exists d docs doc,
    detail_value world rcept = JObject d /\
    d_status d = Some (u "000") /\
    d_list d = Some docs /\
    In doc docs /\
    str_in (u "매수") (item_get doc "content") = true /\
    fst (extract_purchase_details db (item_get doc "content") doc)
    = Ok (Some info).
Proof.
  intros Hev.
  destruct (detail_value world rcept) as [d|l|s|n|b|] eqn:Hd.
  - unfold evidence in Hev.
    rewrite (check_purchase_transaction_object db world rcept d Hd) in Hev.
    case_bool_decide as Hs; [|discriminate].
    destruct (d_list d) as [docs|] eqn:Hl; [|discriminate].
    rewrite check_documents_eq in Hev. cbn [fst] in Hev.
    destruct (find _ docs) as [doc|] eqn:Hfind; [|discriminate].
    apply find_some in Hfind as [Hin Hb].
    exists d, docs, doc. split_and!; try assumption; try reflexivity.
    injection Hev as Hev. unfold extracted in Hev.
    destruct (fst (extract_purchase_details db (item_get doc "content") doc))
      as [[info'|]|e|]; try discriminate.
    injection Hev as ->. reflexivity.
  - exfalso. unfold evidence, check_purchase_transaction in Hev.
    rewrite (w_bind_pair _ _ _ (get_disclosure_detail_value world rcept)),
      Hd in Hev.
    cbn [fst] in Hev. destruct (truthy (JArray l)); discriminate.
  - exfalso. unfold evidence, check_purchase_transaction in Hev.
    rewrite (w_bind_pair _ _ _ (get_disclosure_detail_value world rcept)),
      Hd in Hev.
    cbn [fst] in Hev. destruct (truthy (JString s)); discriminate.
  - exfalso. unfold evidence, check_purchase_transaction in Hev.
    rewrite (w_bind_pair _ _ _ (get_disclosure_detail_value world rcept)),
      Hd in Hev.
    cbn [fst] in Hev. destruct (truthy (JNumber n)); discriminate.
  - exfalso. unfold evidence, check_purchase_transaction in Hev.
    rewrite (w_bind_pair _ _ _ (get_disclosure_detail_value world rcept)),
      Hd in Hev.
    cbn [fst] in Hev. destruct (truthy (JBool b)); discriminate.
  - exfalso. unfold evidence, check_purchase_transaction in Hev.
    rewrite (w_bind_pair _ _ _ (get_disclosure_detail_value world rcept)),
      Hd in Hev.
    cbn [fst] in Hev. discriminate.
Qed.

(** The pattern loop leaves the preview, the type and the reason alone. *)
Lemma apply_patterns_keeps (ps : list (field * regex)) (content : pystr) :
  forall info info',
    apply_patterns ps content info = Ok info' ->
    content_preview info' = content_preview info /\
    transaction_type info' = transaction_type info /\
    reason info' = reason info.
Proof.
  induction ps as [|[key pattern] ps IH]; intros info info' H;
    cbn [apply_patterns] in H.
  - injection H as <-. auto.
  - destruct (search pattern content) as [[g|]|]; [|discriminate|].
    + destruct (IH _ _ H) as (H1 & H2 & H3).
      rewrite H1, H2, H3. auto.
    + exact (IH _ _ H).
Qed.

(** What the extraction of a document's evidence fixes besides the five
    fields. *)
Lemma extracted_shape (content : pystr) (doc : Item) (info : PurchaseInfo) :
  fst (extract_purchase_details db content doc) = Ok (Some info) ->
  exists info0,
    apply_patterns (patterns db) content (initial_info content) = Ok info0 /\
    (info = set_type_reason (u "장내매수") info0 \/
     info = set_type_reason (u "매수") info0).
Proof.
  destruct (extract_purchase_details_eq db content doc) as [info0 [Hp ->]].
  cbn [fst]. intros H. exists info0. split; [exact Hp|].
  destruct (str_in (u "장내매수") content || str_in (u "장내 매수") content).
  - injection H as <-. left. reflexivity.
  - destruct (str_in (u "매수") content); [|discriminate].
    injection H as <-. right. reflexivity.
Qed.

End EvidenceShape.

(** X5.  The detail check raises exactly when the detail is a JSON value
    that is neither an object nor falsy, and then it raises
    [AttributeError]; a detail that is an empty array, an empty string,
    zero, false or null gives no evidence instead. *)
Theorem X5_detail_check_raises_on_truthy_non_object :
  forall (db : UnicodeDb) (world : World) (rcept : pystr),
    (forall e,
       evidence db world rcept = Raise e <->
       e = AttributeError /\
       truthy (detail_value world rcept) = true /\
       is_object (detail_value world rcept) = false) /\
    (truthy (detail_value world rcept) = false ->
     evidence db world rcept = Ok None).
Proof.
  intros db world rcept. split; [apply evidence_raise|].
  intros Hfalsy. unfold evidence, check_purchase_transaction.
  rewrite (w_bind_pair _ _ _ (get_disclosure_detail_value world rcept)).
  rewrite Hfalsy. reflexivity.
Qed.

Lemma X5_witness :
  let world (j : json) : World :=
    {| list_json := fun _ _ _ _ _ => no_data;
       document_json := fun _ => Response 200 (Some j);
       sendMessage := fun _ => Response 200 None;
       date_Ymd := fun _ => u "20240115";
       now := u "2024-01-15 09:00:00 KST";
       output_writable := true |} in
  evidence ascii_db (world (JArray [purchase_document])) (u "20240115000001")
  = Raise AttributeError /\
  evidence ascii_db (world (JArray [])) (u "20240115000001") = Ok None.
Proof.
  intros world. split.
  - apply (proj1 (X5_detail_check_raises_on_truthy_non_object ascii_db
                    (world (JArray [purchase_document]))
                    (u "20240115000001"))).
    split_and!; reflexivity.
  - apply (proj2 (X5_detail_check_raises_on_truthy_non_object ascii_db
                    (world (JArray [])) (u "20240115000001"))).
    reflexivity.
Defined.

(** X6.  Evidence for a receipt number always comes from a document of a
    detail that is a JSON object with status 000: a document whose content
    contains the bare purchase word.  Its transaction type is the on-market
    phrase or the bare word, its reason repeats the type, and its preview
    is the content, cut after 200 characters and marked with three dots
    when it is longer. *)
Theorem X6_evidence_comes_from_a_purchase_document :
  forall (db : UnicodeDb) (world : World) (rcept : pystr)
         (info : PurchaseInfo),
    evidence db world rcept = Ok (Some info) ->
    exists d docs doc,
      detail_value world rcept = JObject d /\
      d_status d = Some (u "000") /\
      d_list d = Some docs /\
      In doc docs /\
      str_in (u "매수") (item_get doc "content") = true /\
      (transaction_type info = u "장내매수" \/
       transaction_type info = u "매수") /\
      reason info = transaction_type info /\
      content_preview info
      = (if (200 <? length (item_get doc "content"))%nat
         then firstn 200 (item_get doc "content") ++ u "..."
         else item_get doc "content") /\
      (length (content_preview info) <= 203)%nat.
Proof.
  intros db world rcept info Hev.
  destruct (evidence_some db world rcept info Hev)
    as (d & docs & doc & Hd & Hs & Hl & Hin & Hb & Hx).
  destruct (extracted_shape db _ _ _ Hx) as (info0 & Hp & Hinfo).
  assert (Hprev : content_preview info
                  = content_preview (initial_info (item_get doc "content"))).
  { destruct (apply_patterns_keeps _ _ _ _ Hp) as (<- & _).
    destruct Hinfo as [-> | ->]; reflexivity. }
  exists d, docs, doc. split_and!; try assumption.
  - destruct Hinfo as [-> | ->]; [left | right]; reflexivity.
  - destruct Hinfo as [-> | ->]; reflexivity.
  - rewrite Hprev. cbn [content_preview initial_info]. unfold slice_to.
    destruct (200 <? length (item_get doc "content"))%nat eqn:Hlen.
    + rewrite length_app, length_firstn. change (length (u "...")) with 3%nat.
      lia.
    + apply Nat.ltb_ge in Hlen. lia.
Qed.

Lemma X6_witness :
  exists info,
    evidence ascii_db (listing_world [samsung_filing] (Response 200 None))
      (u "20240115000001") = Ok (Some info) /\
    reason info = transaction_type info /\
    (length (content_preview info) <= 203)%nat.
Proof.
  assert (Hev : exists info,
            evidence ascii_db
              (listing_world [samsung_filing] (Response 200 None))
              (u "20240115000001") = Ok (Some info))
    by (eexists; vm_compute; reflexivity).
  destruct Hev as [info Hev]. exists info. split; [exact Hev|].
  destruct (X6_evidence_comes_from_a_purchase_document ascii_db
              (listing_world [samsung_filing] (Response 200 None))
              (u "20240115000001") info Hev)
    as (d & docs & doc & _ & _ & _ & _ & _ & _ & Hr & _ & Hlen).
  split; [exact Hr | exact Hlen].
Defined.

(** ** What a run does *)

Section RunShape.

Context (db : UnicodeDb) (world : World).

Lemma alerts_app (t1 t2 : list event) :
  alerts (t1 ++ t2) = alerts t1 ++ alerts t2.
Proof. apply flat_map_app. Qed.

Lemma pauses_app (t1 t2 : list event) :
  pauses (t1 ++ t2) = pauses t1 ++ pauses t2.
Proof. apply flat_map_app. Qed.

Lemma written_app (t1 t2 : list event) :
  written (t1 ++ t2) = written t1 ++ written t2.
Proof. apply flat_map_app. Qed.

(** Log lines and listing requests are no alert, no pause, no detail
    request and no write. *)
Lemma search_events_silent (t : list event) :
  forallb search_event t = true ->
  alerts t = [] /\ pauses t = [] /\ written t = [] /\ posts t = [].
Proof.
  induction t as [|e t IH]; [auto|].
  cbn [forallb]. intros H. apply andb_true_iff in H as [He Ht].
  destruct (IH Ht) as (I1 & I2 & I3 & I4).
  destruct e; try discriminate He;
    cbn [alerts pauses written posts flat_map app];
    fold (alerts t); fold (pauses t); fold (written t); fold (posts t); auto.
Qed.

(** The events of the loop are no listing request and no write. *)
Lemma loop_events_silent (t : list event) :
  forallb loop_event t = true -> requests t = [] /\ written t = [].
Proof.
  induction t as [|e t IH]; [auto|].
  cbn [forallb]. intros H. apply andb_true_iff in H as [He Ht].
  destruct (IH Ht) as (I1 & I2).
  destruct e; try discriminate He;
    cbn [requests written flat_map app];
    fold (requests t); fold (written t); auto.
Qed.

Lemma checked_trace_shape (d : ExecutiveDisclosure) :
  alerts (checked_trace db world d) = [] /\
  pauses (checked_trace db world d) = [] /\
  forallb loop_event (checked_trace db world d) = true.
Proof.
  unfold checked_trace. rewrite check_purchase_transaction_trace.
  destruct (get_disclosure_detail_trace world (rcept_no d)) as [-> | [e ->]];
    split_and!; reflexivity.
Qed.

Lemma emitted_trace_shape (d : ExecutiveDisclosure) (info : PurchaseInfo) :
  alerts (emitted_trace db world d info) = [(d, info)] /\
  pauses (emitted_trace db world d info) = [1] /\
  forallb loop_event (emitted_trace db world d info) = true.
Proof.
  unfold emitted_trace.
  destruct (checked_trace_shape d) as (Ha & Hp & He).
  destruct (send_message_eq world
              (format_executive_purchase_message world d info))
    as [l [-> Hl]].
  rewrite !alerts_app, !pauses_app, !forallb_app, Ha, Hp, He.
  destruct Hl as [-> | [e ->]]; split_and!; reflexivity.
Qed.

(** The loop over the disclosures, in terms of the events [evs] it
    produces: one alert and one pause for each, with the filing, the
    evidence and the time stamp of the event. *)
Lemma monitor_loop_alerts (ds : list ExecutiveDisclosure) :
  forall (rs : list MonitoringEvent) (P : gset pystr),
  exists evs,
    let r := monitor_loop db world ds rs P in
    alerts (snd r)
    = List.map (fun ev => (disclosure ev, purchase_info ev))
        evs /\
    pauses (snd r) = List.map (fun _ => 1) evs /\
    forallb loop_event (snd r) = true /\
    (forall rs', fst (fst r) = Ok rs' -> rs' = rs ++ evs) /\
    (forall ev, In ev evs ->
       In (disclosure ev) ds /\
       evidence db world (event_rcept ev) = Ok (Some (purchase_info ev))).
Proof.
  induction ds as [|d ds IH]; intros rs P.
  - exists []. cbn. split_and!; try reflexivity.
    + intros rs' H. injection H as <-. rewrite app_nil_r. reflexivity.
    + intros ev [].
  - rewrite monitor_loop_cons. case_bool_decide as Hin.
    { destruct (IH rs P) as [evs (Ha & Hp & He & Hrs & Hev)].
      exists evs. split_and!; try assumption.
      intros ev H. destruct (Hev ev H) as (H1 & H2).
      split; [right; exact H1 | exact H2]. }
    destruct (evidence db world (rcept_no d)) as [[info|]|e|] eqn:Hevd.
    + destruct (IH (rs ++ [event_of world d info]) ({[rcept_no d]} ∪ P))
        as [evs (Ha & Hp & He & Hrs & Hev)].
      destruct (emitted_trace_shape d info) as (Ta & Tp & Te).
      exists (event_of world d info :: evs). cbv zeta. cbn [fst snd].
      rewrite alerts_app, pauses_app, forallb_app, Ta, Tp, Te, Ha, Hp, He.
      split_and!; try reflexivity.
      * intros rs' Hrs'. rewrite (Hrs rs' Hrs'), <- app_assoc. reflexivity.
      * intros ev [<- | H].
        { split; [left; reflexivity | exact Hevd]. }
        destruct (Hev ev H) as (H1 & H2).
        split; [right; exact H1 | exact H2].
    + destruct (IH rs P) as [evs (Ha & Hp & He & Hrs & Hev)].
      destruct (checked_trace_shape d) as (Ta & Tp & Te).
      exists evs. cbv zeta. cbn [fst snd].
      rewrite alerts_app, pauses_app, forallb_app, Ta, Tp, Te, Ha, Hp, He.
      split_and!; try assumption; try reflexivity.
      intros ev H. destruct (Hev ev H) as (H1 & H2).
      split; [right; exact H1 | exact H2].
    + destruct (checked_trace_shape d) as (Ta & Tp & Te).
      exists []. cbn [fst snd]. rewrite Ta, Tp, Te.
      split_and!; try reflexivity; [discriminate | intros ev []].
    + destruct (checked_trace_shape d) as (Ta & Tp & Te).
      exists []. cbn [fst snd]. rewrite Ta, Tp, Te.
      split_and!; try reflexivity; [discriminate | intros ev []].
Qed.

Lemma search_trace_events (days_back : Z) :
  forallb search_event (search_trace world days_back) = true /\
  Forall (listing_request_ok (date_Ymd world days_back) (date_Ymd world 0))
    (search_trace world days_back).
Proof.
  unfold search_trace, run_search.
  destruct (search_events world (date_Ymd world days_back)
              (date_Ymd world 0)) as (H1 & H2 & _).
  cbv zeta in H1, H2. cbn [forallb search_event andb].
  split; [exact H1|]. apply Forall_cons. split; [exact I | exact H2].
Qed.

(** A run is a search followed by the loop over what it found. *)
Lemma run_shape (days_back : Z) (P : gset pystr) :
  let r := monitor_executive_purchases db world days_back P in
  exists ds t evs,
    snd r = search_trace world days_back ++ t /\
    forallb loop_event t = true /\
    alerts t
    = List.map (fun ev => (disclosure ev, purchase_info ev))
        evs /\
    pauses t = List.map (fun _ => 1) evs /\
    (forall rs, fst (fst r) = Ok rs ->
                rs = evs /\ fst (run_search world days_back) = Ok ds) /\
    (forall ev, In ev evs ->
       In (disclosure ev) ds /\
       fst (run_search world days_back) = Ok ds /\
       evidence db world (event_rcept ev) = Ok (Some (purchase_info ev))).
Proof.
  cbv zeta. rewrite monitor_executive_purchases_eq.
  destruct (fst (run_search world days_back)) as [[|d ds]|e|] eqn:Hs.
  - exists [], [LogInfo LogNoDisclosures], []. cbn [fst snd].
    split_and!; try reflexivity.
    + intros rs H. injection H as <-. auto.
    + intros ev [].
  - destruct (monitor_loop_alerts (d :: ds) [] P)
      as [evs (Ha & Hp & He & Hrs & Hev)].
    exists (d :: ds), (snd (monitor_loop db world (d :: ds) [] P)), evs.
    cbv zeta. cbn [fst snd]. split_and!; try assumption; try reflexivity.
    + intros rs H. split; [exact (Hrs rs H) | reflexivity].
    + intros ev H. destruct (Hev ev H) as (H1 & H2). auto.
  - exists [], [], []. cbn [fst snd]. rewrite app_nil_r.
    split_and!; try reflexivity; [discriminate | intros ev []].
  - exists [], [], []. cbn [fst snd]. rewrite app_nil_r.
    split_and!; try reflexivity; [discriminate | intros ev []].
Qed.


End RunShape.



(** X8.  Every purchase alert of a run is for a filing the search of that
    run returned, with a qualifying report name, whose detail check gave
    exactly the evidence the alert carries.  A run that returns, returns one
    event for each alert, in the order of the alerts, with the same filing
    and evidence. *)
Theorem X8_alerts_are_backed_by_evidence :
  forall (db : UnicodeDb) (world : World) (days_back : Z) (P : gset pystr),
    let r := monitor_executive_purchases db world days_back P in
    (forall d info,
       In (d, info) (alerts (snd r)) ->
       (exists ds, fst (run_search world days_back) = Ok ds /\ In d ds) /\
       is_executive_report (report_nm d) = true /\
       evidence db world (rcept_no d) = Ok (Some info)) /\
    (forall rs,
       fst (fst r) = Ok rs ->
       alerts (snd r)
       = List.map (fun ev => (disclosure ev, purchase_info ev)) rs).
Proof.
  intros db world days_back P r.
  destruct (run_shape db world days_back P)
    as (ds & t & evs & Ht & _ & Ha & _ & Hrs & Hev).
  fold r in Ht, Hrs.
  destruct (search_trace_events world days_back) as [Hs _].
  apply search_events_silent in Hs as (Hs & _).
  assert (Hal : alerts (snd r)
                = List.map (fun ev => (disclosure ev, purchase_info ev)) evs).
  { rewrite Ht, alerts_app, Hs. exact Ha. }
  split.
  - intros d info Hin. rewrite Hal in Hin.
    apply in_map_iff in Hin as [ev [Heq Hin]]. injection Heq as <- <-.
    destruct (Hev ev Hin) as (H1 & H2 & H3).
    split_and!; [exists ds; auto | | exact H3].
    destruct (search_found world (date_Ymd world days_back)
                (date_Ymd world 0)) as [F1 F2].
    destruct (F2 ds H2) as [Hf _]. apply F1. rewrite Hf. exact H1.
  - intros rs H. destruct (Hrs rs H) as [-> _]. exact Hal.
Qed.

Lemma X8_witness :
  let r := monitor_executive_purchases ascii_db two_purchases_world 1 ∅ in
  (exists rs, fst (fst r) = Ok rs /\ length rs = 2%nat /\
     alerts (snd r)
     = List.map (fun ev => (disclosure ev, purchase_info ev)) rs) /\
  forall d info,
    In (d, info) (alerts (snd r)) ->
    evidence ascii_db two_purchases_world (rcept_no d) = Ok (Some info).
Proof.
  intros r. split.
  - eexists. split; [vm_compute; reflexivity|]. split; [reflexivity|].
    apply (proj2 (X8_alerts_are_backed_by_evidence ascii_db
                    two_purchases_world 1 ∅)).
    vm_compute. reflexivity.
  - intros d info Hin.
    apply (proj1 (X8_alerts_are_backed_by_evidence ascii_db
                    two_purchases_world 1 ∅) d info Hin).
Defined.

(** X9.  A run never removes a receipt number from
    [processed_disclosures], and after a run that returns, every filing the
    search returned is processed or has a detail without evidence: no found
    purchase is left unprocessed. *)
Theorem X9_found_purchases_end_processed :
  forall (db : UnicodeDb) (world : World) (days_back : Z) (P : gset pystr),
    let r := monitor_executive_purchases db world days_back P in
    P ⊆ snd (fst r) /\
    (forall ds rs,
       fst (run_search world days_back) = Ok ds ->
       fst (fst r) = Ok rs ->
       forall d, In d ds ->
         rcept_no d ∈ snd (fst r) \/
         evidence db world (rcept_no d) = Ok None).
Proof.
  intros db world days_back P r. subst r.
  rewrite monitor_executive_purchases_eq.
  destruct (fst (run_search world days_back)) as [[|d0 ds0]|e|] eqn:Hs;
    cbv zeta; cbn [fst snd];
    try (split; [reflexivity | intros ds rs H; discriminate]).
  - split; [reflexivity|]. intros ds rs H _. injection H as <-. intros d [].
  - destruct (monitor_loop_settles db world (d0 :: ds0) [] P) as [Hsub Hout].
    cbv zeta in Hsub, Hout. split; [exact Hsub|].
    intros ds rs H Hrs. injection H as <-. rewrite Hrs in Hout.
    intros d Hd. apply list_elem_of_In in Hd.
    rewrite Forall_forall in Hout. exact (Hout d Hd).
Qed.

Lemma X9_witness :
  let r := monitor_executive_purchases ascii_db two_purchases_world 1 ∅ in
  u "20240115000001" ∈ snd (fst r) \/
  evidence ascii_db two_purchases_world (u "20240115000001") = Ok None.
Proof.
  intros r.
  assert (Hs : fst (run_search two_purchases_world 1)
               = Ok [to_disclosure samsung_filing;
                     to_disclosure hyundai_filing])
    by (vm_compute; reflexivity).
  assert (Hr : exists rs, fst (fst r) = Ok rs)
    by (eexists; vm_compute; reflexivity).
  destruct Hr as [rs Hr].
  apply (proj2 (X9_found_purchases_end_processed ascii_db
                  two_purchases_world 1 ∅) _ rs Hs Hr
           (to_disclosure samsung_filing)).
  left. reflexivity.
Defined.

(** X10.  A run first searches and then checks: its events are those of
    the search, all for the date range from [days_back] days ago to today,
    followed by log lines, detail requests, alerts, insertions and pauses
    only; and it pauses for one second once for each alert. *)
Theorem X10_search_precedes_the_detail_checks :
  forall (db : UnicodeDb) (world : World) (days_back : Z) (P : gset pystr),
    let r := monitor_executive_purchases db world days_back P in
    (exists t1 t2,
       snd r = t1 ++ t2 /\
       forallb search_event t1 = true /\
       Forall (listing_request_ok (date_Ymd world days_back)
                 (date_Ymd world 0)) t1 /\
       forallb loop_event t2 = true) /\
    pauses (snd r) = List.map (fun _ => 1) (alerts (snd r)).
Proof.
  intros db world days_back P r.
  destruct (run_shape db world days_back P)
    as (ds & t & evs & Ht & Hl & Ha & Hp & _).
  fold r in Ht.
  destruct (search_trace_events world days_back) as [Hs Hreq].
  split.
  - exists (search_trace world days_back), t. auto.
  - apply search_events_silent in Hs as (Hs1 & Hs2 & _).
    rewrite Ht, pauses_app, alerts_app, Hs1, Hs2, Ha, Hp.
    cbn [app]. rewrite List.map_map. reflexivity.
Qed.

(** ** The notifier and [main] *)

(** X11.  [send_message] never raises: it posts the message once, logs
    one line and returns whether the post went through.  It went through
    exactly when the exchange ended in a response whose status code is not
    4xx or 5xx, whatever the body of the response says. *)
Theorem X11_send_message_reports_the_status_code :
  forall (world : World) (m : message),
    exists (b : bool) (l : event),
      send_message world m = (Ok b, [PostMessage m b; l]) /\
      (b = true <->
       exists code body,
         sendMessage world m = Response code body /\ ~ (400 <= code < 600)) /\
      (if b then l = LogInfo LogSent
       else exists e, l = LogError (LogSendFailed e)).
Proof.
  intros world m. unfold send_message, response_ok, raise_for_status.
  destruct (sendMessage world m) as [| |code body].
  - exists false. eexists. split; [reflexivity|]. split; [|eauto].
    split; [discriminate | intros (code & body & H & _); discriminate].
  - exists false. eexists. split; [reflexivity|]. split; [|eauto].
    split; [discriminate | intros (code & body & H & _); discriminate].
  - destruct ((400 <=? code) && (code <? 600)) eqn:Hc.
    + exists false. eexists. split; [reflexivity|]. split; [|eauto].
      split; [discriminate|].
      intros (code' & body' & H & Hn). injection H as <- <-. lia.
    + exists true. eexists. split; [reflexivity|]. split; [|reflexivity].
      split; [|reflexivity]. intros _. exists code, body.
      split; [reflexivity | lia].
Qed.

Section MainShape.

Context (db : UnicodeDb) (world : World).

Lemma send_message_shape (m : message) :
  written (snd (send_message world m)) = [] /\
  requests (snd (send_message world m)) = [] /\
  posts (snd (send_message world m)) = [m].
Proof.
  destruct (send_message_eq world m) as [l [-> Hl]].
  destruct Hl as [-> | [e ->]]; split_and!; reflexivity.
Qed.

Lemma run_written (days_back : Z) (P : gset pystr) :
  written (snd (monitor_executive_purchases db world days_back P)) = [].
Proof.
  destruct (run_shape db world days_back P) as (ds & t & evs & -> & Hl & _).
  destruct (search_trace_events world days_back) as [Hs _].
  apply search_events_silent in Hs as (_ & _ & Hs & _).
  apply loop_events_silent in Hl as (_ & Hl).
  rewrite written_app, Hs, Hl. reflexivity.
Qed.


Lemma save_results_written (rs : list MonitoringEvent) :
  written (snd (save_results world rs))
  = match rs with
    | [] => []
    | _ :: _ => if output_writable world then [rs] else []
    end /\
  emitted (snd (save_results world rs)) = [] /\
  requests (snd (save_results world rs)) = [].
Proof.
  destruct rs as [|ev evs]; [split_and!; reflexivity|].
  unfold save_results. destruct (output_writable world);
    split_and!; reflexivity.
Qed.

End MainShape.

(** X12.  [main] writes the result file at most once: exactly when the
    Telegram settings are present, the run returned at least one event and
    the output can be written; it then writes the events the run returned.
    Nothing is written after a run that raised or found nothing. *)
Theorem X12_results_written_at_most_once :
  forall (db : UnicodeDb) (world : World)
         (telegram_token telegram_chat_id : option pystr),
    let r := main db world telegram_token telegram_chat_id in
    let run := monitor_executive_purchases db world 1 ∅ in
    written (snd r)
    = if unset telegram_token || unset telegram_chat_id then []
      else match fst (fst run) with
           | Ok (ev :: evs) =>
             if output_writable world then [ev :: evs] else []
           | _ => []
           end.
Proof.
  intros db world telegram_token telegram_chat_id r run. subst r.
  destruct (unset telegram_token || unset telegram_chat_id) eqn:Hu.
  { rewrite (main_unset db world _ _ Hu). reflexivity. }
  rewrite (main_set db world _ _ Hu). cbv zeta. fold run.
  assert (Hbefore :
    written ([LogInfo LogStart] ++ snd (send_test_message world) ++
             (if delivered world (TestMessage (now world))
              then [LogInfo LogTestOk] else []) ++ snd run) = []).
  { rewrite !written_app. unfold send_test_message.
    destruct (send_message_shape world (TestMessage (now world)))
      as (-> & _).
    subst run. rewrite run_written.
    destruct (delivered world (TestMessage (now world))); reflexivity. }
  rewrite !written_app in Hbefore.
  destruct (fst (fst run)) as [[|ev evs]|e|]; cbn [snd];
    rewrite !written_app, Hbefore.
  - destruct (send_message_shape world (CompletionMessage (now world)))
      as (-> & _). reflexivity.
  - destruct (save_results_written world (ev :: evs)) as (-> & _).
    destruct (output_writable world); reflexivity.
  - destruct (send_message_shape world (ErrorMessage e (now world)))
      as (-> & _). reflexivity.
  - reflexivity.
Qed.



(** ** The extracted fields *)

Section Pieces.

Lemma piece_of_nil (s : pystr) : piece_of [] s.
Proof. exists [], s. reflexivity. Qed.

Lemma piece_of_trans (a b c : pystr) :
  piece_of a b -> piece_of b c -> piece_of a c.
Proof.
  intros (a1 & a2 & ->) (b1 & b2 & ->).
  exists (b1 ++ a1), (a2 ++ b2). rewrite <- !app_assoc. reflexivity.
Qed.

Lemma piece_of_suffix (g a s : pystr) : piece_of g s -> piece_of g (a ++ s).
Proof.
  intros (a1 & a2 & ->). exists (a ++ a1), a2.
  rewrite <- !app_assoc. reflexivity.
Qed.

Lemma piece_of_in (g s : pystr) (c : Z) : piece_of g s -> In c g -> In c s.
Proof.
  intros (a & b & ->) Hc. apply in_or_app. right.
  apply in_or_app. left. exact Hc.
Qed.

Lemma lstrip_suffix (s : pystr) : exists a, s = a ++ lstrip s.
Proof.
  induction s as [|c s [a IH]]; [exists []; reflexivity|].
  cbn [lstrip]. destruct (is_space c).
  - exists (c :: a). cbn [app]. rewrite <- IH. reflexivity.
  - exists []. reflexivity.
Qed.

(** [s.strip()] is a piece of [s]. *)
Lemma strip_piece (s : pystr) : piece_of (strip s) s.
Proof.
  unfold strip, rstrip.
  destruct (lstrip_suffix s) as [a Ha].
  destruct (lstrip_suffix (rev (lstrip s))) as [b Hb].
  exists a, (rev b).
  rewrite <- rev_app_distr, <- Hb, rev_involutive. exact Ha.
Qed.

Lemma forallb_piece (p : Z -> bool) (g s : pystr) :
  piece_of g s -> forallb p s = true -> forallb p g = true.
Proof.
  intros Hg Hs. apply forallb_forall. intros c Hc.
  rewrite forallb_forall in Hs. apply Hs. exact (piece_of_in g s c Hg Hc).
Qed.

Lemma forallb_mono (p q : Z -> bool) (g : pystr) :
  (forall c, p c = true -> q c = true) ->
  forallb p g = true -> forallb q g = true.
Proof.
  intros Hpq Hp. apply forallb_forall. intros c Hc.
  rewrite forallb_forall in Hp. apply Hpq, Hp, Hc.
Qed.

Lemma captured_ok_mono (p q : Z -> bool) (cap : option pystr) (s : pystr)
    (w : way) :
  (forall c, p c = true -> q c = true) ->
  captured_ok p cap s w -> captured_ok q cap s w.
Proof.
  intros Hpq [H | (g & Hg & Hp & Hs)]; [left; exact H|].
  right. exists g. split_and!; [exact Hg | | exact Hs].
  exact (forallb_mono p q g Hpq Hp).
Qed.

(** A way consumes characters of the alphabet only. *)
Lemma repeat_greedy_alphabet (m : option pystr -> pystr -> list way)
    (p : Z -> bool) :
  (forall cap s w, In w (m cap s) -> forallb p (consumed w) = true) ->
  forall fuel lo hi cap s w,
    In w (repeat_greedy m fuel lo hi cap s) ->
    forallb p (consumed w) = true.
Proof.
  intros Hm fuel. induction fuel as [|fuel IH]; intros lo hi cap s w Hin;
    simpl in Hin.
  { destruct lo; [|destruct Hin]. destruct Hin as [<- | []]. reflexivity. }
  apply in_app_or in Hin as [Hin | Hin].
  - destruct (hi_allows hi); [|destruct Hin].
    apply in_flat_map in Hin as [w1 [Hw1 Hin]].
    destruct (length (rest w1) <? length s)%nat; [|destruct Hin].
    apply in_map_iff in Hin as [w2 [<- Hw2]]. cbn [consumed].
    rewrite forallb_app, (Hm _ _ _ Hw1), (IH _ _ _ _ _ Hw2). reflexivity.
  - destruct lo; [|destruct Hin]. destruct Hin as [<- | []]. reflexivity.
Qed.

Lemma rmatch_alphabet (r : regex) :
  forall cap s w,
    In w (rmatch r cap s) -> forallb (alphabet r) (consumed w) = true.
Proof.
  induction r as [|c|p|r1 IH1 r2 IH2|lo hi r1 IH1|r1 IH1];
    intros cap s w Hin; simpl in Hin.
  - destruct Hin as [<- | []]. reflexivity.
  - destruct s as [|x s]; [destruct Hin|].
    destruct (x =? c) eqn:Hx; [|destruct Hin]. destruct Hin as [<- | []].
    cbn. rewrite Hx. reflexivity.
  - destruct s as [|x s]; [destruct Hin|].
    destruct (p x) eqn:Hx; [|destruct Hin]. destruct Hin as [<- | []].
    cbn. rewrite Hx. reflexivity.
  - apply in_flat_map in Hin as [w1 [Hw1 Hin]].
    apply in_map_iff in Hin as [w2 [<- Hw2]]. cbn [consumed].
    rewrite forallb_app. apply andb_true_iff. split.
    + apply (forallb_mono (alphabet r1)); [|exact (IH1 _ _ _ Hw1)].
      intros c Hc. cbn [alphabet]. rewrite Hc. reflexivity.
    + apply (forallb_mono (alphabet r2)); [|exact (IH2 _ _ _ Hw2)].
      intros c Hc. cbn [alphabet]. rewrite Hc. apply orb_true_r.
  - exact (repeat_greedy_alphabet _ _ IH1 _ _ _ _ _ _ Hin).
  - apply in_map_iff in Hin as [w1 [<- Hw1]]. cbn [consumed].
    exact (IH1 _ _ _ Hw1).
Qed.

(** Group 1 of a way is a piece of the input. *)
Lemma repeat_greedy_group (m : option pystr -> pystr -> list way)
    (p : Z -> bool) :
  (forall cap s w, In w (m cap s) -> s = consumed w ++ rest w) ->
  (forall cap s w, In w (m cap s) -> captured_ok p cap s w) ->
  forall fuel lo hi cap s w,
    In w (repeat_greedy m fuel lo hi cap s) -> captured_ok p cap s w.
Proof.
  intros Hsplit Hm fuel.
  induction fuel as [|fuel IH]; intros lo hi cap s w Hin; simpl in Hin.
  { destruct lo; [|destruct Hin]. destruct Hin as [<- | []].
    left. reflexivity. }
  apply in_app_or in Hin as [Hin | Hin].
  - destruct (hi_allows hi); [|destruct Hin].
    apply in_flat_map in Hin as [w1 [Hw1 Hin]].
    destruct (length (rest w1) <? length s)%nat; [|destruct Hin].
    apply in_map_iff in Hin as [w2 [<- Hw2]].
    destruct (IH _ _ _ _ _ Hw2) as [H2 | (g & Hg & Hp & Hs)].
    + destruct (Hm _ _ _ Hw1) as [H1 | (g & Hg & Hp & Hs)].
      * left. cbn [group1]. congruence.
      * right. exists g. cbn [group1]. split_and!; [congruence | exact Hp
                                                    | exact Hs].
    + right. exists g. cbn [group1]. split_and!; [exact Hg | exact Hp|].
      rewrite (Hsplit _ _ _ Hw1). apply piece_of_suffix, Hs.
  - destruct lo; [|destruct Hin]. destruct Hin as [<- | []].
    left. reflexivity.
Qed.

Lemma rmatch_group (r : regex) :
  forall cap s w,
    In w (rmatch r cap s) -> captured_ok (group_alphabet r) cap s w.
Proof.
  induction r as [|c|p|r1 IH1 r2 IH2|lo hi r1 IH1|r1 IH1];
    intros cap s w Hin; simpl in Hin.
  - destruct Hin as [<- | []]. left. reflexivity.
  - destruct s as [|x s]; [destruct Hin|].
    destruct (x =? c); [|destruct Hin]. destruct Hin as [<- | []].
    left. reflexivity.
  - destruct s as [|x s]; [destruct Hin|].
    destruct (p x); [|destruct Hin]. destruct Hin as [<- | []].
    left. reflexivity.
  - apply in_flat_map in Hin as [w1 [Hw1 Hin]].
    apply in_map_iff in Hin as [w2 [<- Hw2]].
    destruct (IH2 _ _ _ Hw2) as [H2 | (g & Hg & Hp & Hs)].
    + destruct (IH1 _ _ _ Hw1) as [H1 | (g & Hg & Hp & Hs)].
      * left. cbn [group1]. congruence.
      * right. exists g. cbn [group1]. split_and!; [congruence | | exact Hs].
        apply (forallb_mono (group_alphabet r1)); [|exact Hp].
        intros c Hc. cbn [group_alphabet]. rewrite Hc. reflexivity.
    + right. exists g. cbn [group1]. split_and!; [exact Hg | |].
      * apply (forallb_mono (group_alphabet r2)); [|exact Hp].
        intros c Hc. cbn [group_alphabet]. rewrite Hc. apply orb_true_r.
      * rewrite (rmatch_split _ _ _ _ Hw1). apply piece_of_suffix, Hs.
  - exact (repeat_greedy_group _ _ (rmatch_split r1) IH1 _ _ _ _ _ _ Hin).
  - apply in_map_iff in Hin as [w1 [<- Hw1]]. right.
    exists (consumed w1). cbn [group1]. split_and!; [reflexivity | |].
    + exact (rmatch_alphabet _ _ _ _ Hw1).
    + exists [], (rest w1). exact (rmatch_split _ _ _ _ Hw1).
Qed.

(** [m.group(1)] of a match found by [re.search] is a piece of the string
    searched, made of characters the group can capture. *)
Lemma search_group (r : regex) (s g : pystr) :
  search r s = Some (Some g) ->
  forallb (group_alphabet r) g = true /\ piece_of g s.
Proof.
  assert (Hhere : forall s w ws,
            rmatch r None s = w :: ws -> group1 w = Some g ->
            forallb (group_alphabet r) g = true /\ piece_of g s).
  { intros s0 w ws Hm Hw.
    destruct (rmatch_group r None s0 w) as [H | (g' & Hg & Hp & Hs)];
      [rewrite Hm; left; reflexivity | congruence |].
    rewrite Hw in Hg. injection Hg as <-. auto. }
  induction s as [|x s IH]; simpl.
  - destruct (rmatch r None []) as [|w ws] eqn:Hm; [discriminate|].
    intros H. injection H as H. exact (Hhere _ _ _ Hm H).
  - destruct (rmatch r None (x :: s)) as [|w ws] eqn:Hm.
    + intros H. destruct (IH H) as [Hp Hs]. split; [exact Hp|].
      exact (piece_of_suffix g [x] s Hs).
    + intros H. injection H as H. exact (Hhere _ _ _ Hm H).
Qed.

(** Without a place where the pattern can start there is no match. *)
Lemma search_none (r : regex) (s : pystr) :
  rmatch r None [] = [] ->
  (forall c s', In c s -> rmatch r None (c :: s') = []) ->
  search r s = None.
Proof.
  intros Hnil. induction s as [|x s IH]; intros Hno; simpl.
  - rewrite Hnil. reflexivity.
  - rewrite (Hno x s) by (left; reflexivity).
    apply IH. intros c s' Hc. apply Hno. right. exact Hc.
Qed.

Lemma get_set_field (k key : field) (v : pystr) (info : PurchaseInfo) :
  get_field k (set_field key v info)
  = if field_eqb k key then v else get_field k info.
Proof. destruct k, key; reflexivity. Qed.

Lemma field_eqb_eq (k key : field) : field_eqb k key = true -> k = key.
Proof. destruct k, key; (reflexivity || discriminate). Qed.

(** An invariant of the pattern loop: a property of the fields that every
    value a pattern can give its field has. *)
Lemma apply_patterns_inv (Q : field -> pystr -> Prop)
    (ps : list (field * regex)) (content : pystr) :
  (forall key pattern g,
     In (key, pattern) ps -> search pattern content = Some (Some g) ->
     Q key (strip g)) ->
  forall info info',
    apply_patterns ps content info = Ok info' ->
    (forall k, Q k (get_field k info)) ->
    forall k, Q k (get_field k info').
Proof.
  induction ps as [|[key pattern] ps IH]; intros Hps info info' H Hinfo;
    cbn [apply_patterns] in H.
  - injection H as <-. exact Hinfo.
  - assert (Hps' : forall key' pattern' g,
              In (key', pattern') ps ->
              search pattern' content = Some (Some g) -> Q key' (strip g)).
    { intros key' pattern' g Hin. apply Hps. right. exact Hin. }
    destruct (search pattern content) as [[g|]|] eqn:Hs; [|discriminate|].
    + apply (IH Hps' _ _ H). intros k. rewrite get_set_field.
      destruct (field_eqb k key) eqn:Hk; [|apply Hinfo].
      apply field_eqb_eq in Hk as ->.
      apply (Hps key pattern g); [left; reflexivity | exact Hs].
    + exact (IH Hps' _ _ H Hinfo).
Qed.

End Pieces.

Section FieldShapes.

Context (db : UnicodeDb).

(** What the group of each pattern can capture. *)
Lemma patterns_alphabet (key : field) (pattern : regex) (c : Z) :
  In (key, pattern) (patterns db) ->
  group_alphabet pattern c = true -> field_alphabet db key c = true.
Proof.
  unfold patterns.
  intros [H | [H | [H | [H | [H | []]]]]]; injection H as <- <-;
    cbn [group_alphabet alphabet text fold_right grouped_number times star
         plus digit date_sep field_alphabet];
    change (u "보고자") with [48372; 44256; 51088];
    change (u "직위") with [51649; 50948];
    cbn [fold_right group_alphabet alphabet];
    rewrite ?orb_false_r, ?orb_false_l; intros Hc.
  - exact Hc.
  - exact Hc.
  - apply orb_true_iff in Hc as [Hc | Hc]; [rewrite Hc; reflexivity|].
    apply orb_true_iff in Hc as [Hc | Hc]; rewrite Hc;
      [apply orb_true_r | reflexivity].
  - apply orb_true_iff in Hc as [Hc | Hc]; [rewrite Hc; reflexivity|].
    apply orb_true_iff in Hc as [Hc | Hc]; rewrite Hc;
      [apply orb_true_r | reflexivity].
  - repeat (apply orb_true_iff in Hc as [Hc | Hc];
            [rewrite Hc; first [reflexivity | apply orb_true_r]|]).
    rewrite Hc. reflexivity.
Qed.

(** The fields after the pattern loop: pieces of the content, each made
    of the characters its pattern captures. *)
Lemma apply_patterns_pieces (content : pystr) (info : PurchaseInfo) :
  apply_patterns (patterns db) content (initial_info content) = Ok info ->
  forall k,
    piece_of (get_field k info) content /\
    forallb (field_alphabet db k) (get_field k info) = true.
Proof.
  intros H.
  apply (apply_patterns_inv
           (fun k v => piece_of v content /\
                       forallb (field_alphabet db k) v = true)
           (patterns db) content) with (info := initial_info content);
    [|exact H|].
  - intros key pattern g Hin Hs.
    destruct (search_group pattern content g Hs) as [Hp Hg].
    split.
    + exact (piece_of_trans _ _ _ (strip_piece g) Hg).
    + apply (forallb_piece _ (strip g) g (strip_piece g)).
      apply (forallb_mono (group_alphabet pattern)); [|exact Hp].
      intros c. exact (patterns_alphabet key pattern c Hin).
  - intros k. destruct k; (split; [apply piece_of_nil | reflexivity]).
Qed.

Lemma get_field_type_reason (k : field) (v : pystr) (info : PurchaseInfo) :
  get_field k (set_type_reason v info) = get_field k info.
Proof. destruct k; reflexivity. Qed.

(** Where the five patterns cannot start. *)
Lemma pattern_start (k : field) (c : Z) (s : pystr) :
  match k with
  | Reporter => c <> ord "보"
  | Position => c <> ord "직"
  | Shares | Price | TransactionDate => is_decimal db c = false
  end ->
  rmatch (pattern_for db k) None (c :: s) = [].
Proof.
  destruct k; intros Hc.
  - change (pattern_for db Reporter)
      with (text (ord "보" :: [44256; 51088])
              (Seq (star (CharSet colon_or_space))
                   (Group (plus (CharSet hangul))))).
    apply no_way_text. exact Hc.
  - change (pattern_for db Position)
      with (text (ord "직" :: [50948])
              (Seq (star (CharSet colon_or_space))
                   (Group (plus (CharSet (fun c => hangul c || is_space c)))))).
    apply no_way_text. exact Hc.
  - apply no_way_seq, no_way_group, no_way_seq.
    apply (no_way_repeat (is_decimal db) 0 (Some 3%nat)). exact Hc.
  - apply no_way_seq, no_way_group, no_way_seq.
    apply (no_way_repeat (is_decimal db) 0 (Some 3%nat)). exact Hc.
  - apply no_way_group, no_way_seq.
    apply (no_way_repeat (is_decimal db) 3 (Some 4%nat)). exact Hc.
Qed.

Lemma pattern_for_in (key : field) (pattern : regex) :
  In (key, pattern) (patterns db) -> pattern = pattern_for db key.
Proof.
  unfold patterns.
  intros [H | [H | [H | [H | [H | []]]]]]; injection H as <- <-; reflexivity.
Qed.

(** A field whose pattern finds no match keeps its initial empty
    string. *)
Lemma apply_patterns_unmatched (content : pystr) (info : PurchaseInfo) :
  apply_patterns (patterns db) content (initial_info content) = Ok info ->
  forall k, search (pattern_for db k) content = None -> get_field k info = [].
Proof.
  intros H.
  apply (apply_patterns_inv
           (fun k v => search (pattern_for db k) content = None -> v = [])
           (patterns db) content) with (info := initial_info content);
    [|exact H|].
  - intros key pattern g Hin Hs Hnone.
    rewrite (pattern_for_in key pattern Hin) in Hs. congruence.
  - intros k _. destruct k; reflexivity.
Qed.

End FieldShapes.

(** X14.  Every field of the evidence extracted from a content (reporter,
    position, shares, price, transaction date) is a contiguous piece of
    that content: the extraction never makes up text. *)
Theorem X14_fields_are_pieces_of_the_content :
  forall (db : UnicodeDb) (content : pystr) (doc : Item)
         (info : PurchaseInfo),
    fst (extract_purchase_details db content doc) = Ok (Some info) ->
    forall k : field, piece_of (get_field k info) content.
Proof.
  intros db content doc info H k.
  destruct (extracted_shape db content doc info H) as (info0 & Hp & Hinfo).
  assert (Hk : get_field k info = get_field k info0)
    by (destruct Hinfo as [-> | ->]; apply get_field_type_reason).
  rewrite Hk. exact (proj1 (apply_patterns_pieces db content info0 Hp k)).
Qed.

Lemma X14_witness :
  exists info,
    fst (extract_purchase_details ascii_db
           (u "보고자: 홍길동 장내매수 1,000주 2024-01-15") purchase_document)
    = Ok (Some info) /\
    piece_of (shares info) (u "보고자: 홍길동 장내매수 1,000주 2024-01-15").
Proof.
  assert (Hx : exists info,
            fst (extract_purchase_details ascii_db
                   (u "보고자: 홍길동 장내매수 1,000주 2024-01-15")
                   purchase_document) = Ok (Some info))
    by (eexists; vm_compute; reflexivity).
  destruct Hx as [info Hx]. exists info. split; [exact Hx|].
  exact (X14_fields_are_pieces_of_the_content ascii_db _ _ info Hx Shares).
Defined.

(** X15.  The extracted fields keep to the character classes of their
    patterns: the reporter is made of Hangul syllables, the position of
    Hangul syllables and whitespace, the shares and the price of decimal
    digits and commas, the transaction date of decimal digits and the
    separators hyphen, dot and slash. *)
Theorem X15_fields_keep_to_their_character_classes :
  forall (db : UnicodeDb) (content : pystr) (doc : Item)
         (info : PurchaseInfo),
    fst (extract_purchase_details db content doc) = Ok (Some info) ->
    forallb hangul (reporter info) = true /\
    forallb (fun c => hangul c || is_space c) (position info) = true /\
    forallb (fun c => is_decimal db c || (c =? ord ",")) (shares info) = true /\
    forallb (fun c => is_decimal db c || (c =? ord ",")) (price info) = true /\
    forallb (fun c => is_decimal db c || one_of "-./" c)
      (transaction_date info) = true.
Proof.
  intros db content doc info H.
  destruct (extracted_shape db content doc info H) as (info0 & Hp & Hinfo).
  assert (Hk : forall k, forallb (field_alphabet db k) (get_field k info)
                         = true).
  { intros k.
    replace (get_field k info) with (get_field k info0)
      by (destruct Hinfo as [-> | ->]; symmetry; apply get_field_type_reason).
    exact (proj2 (apply_patterns_pieces db content info0 Hp k)). }
  split_and!;
    [exact (Hk Reporter) | exact (Hk Position) | exact (Hk Shares)
     | exact (Hk Price) | exact (Hk TransactionDate)].
Qed.

Lemma X15_witness :
  exists info,
    fst (extract_purchase_details ascii_db
           (u "직위: 대표이사 매수 12,500원") purchase_document)
    = Ok (Some info) /\
    forallb (fun c => hangul c || is_space c) (position info) = true /\
    forallb (fun c => is_decimal ascii_db c || (c =? ord ","))
      (price info) = true.
Proof.
  assert (Hx : exists info,
            fst (extract_purchase_details ascii_db
                   (u "직위: 대표이사 매수 12,500원") purchase_document)
            = Ok (Some info))
    by (eexists; vm_compute; reflexivity).
  destruct Hx as [info Hx]. exists info. split; [exact Hx|].
  destruct (X15_fields_keep_to_their_character_classes ascii_db _ _ info Hx)
    as (_ & H2 & _ & H4 & _).
  split; [exact H2 | exact H4].
Defined.

(** X16.  A field whose pattern cannot start anywhere in the content
    stays empty: without a decimal digit in the content the shares, the
    price and the transaction date are empty; without the syllable that
    starts its label, the reporter, respectively the position, is
    empty. *)
Theorem X16_fields_stay_empty_without_a_start :
  forall (db : UnicodeDb) (content : pystr) (doc : Item)
         (info : PurchaseInfo),
    fst (extract_purchase_details db content doc) = Ok (Some info) ->
    (none_of (is_decimal db) content ->
     shares info = [] /\ price info = [] /\ transaction_date info = []) /\
    (~ In (ord "보") content -> reporter info = []) /\
    (~ In (ord "직") content -> position info = []).
Proof.
  intros db content doc info H.
  destruct (extracted_shape db content doc info H) as (info0 & Hp & Hinfo).
  assert (Hk : forall k,
            (forall c, In c content ->
               match k with
               | Reporter => c <> ord "보"
               | Position => c <> ord "직"
               | Shares | Price | TransactionDate => is_decimal db c = false
               end) ->
            get_field k info = []).
  { intros k Hc.
    replace (get_field k info) with (get_field k info0)
      by (destruct Hinfo as [-> | ->]; symmetry; apply get_field_type_reason).
    apply (apply_patterns_unmatched db content info0 Hp k).
    apply search_none; [destruct k; reflexivity|].
    intros c s' Hin. apply pattern_start. exact (Hc c Hin). }
  split_and!.
  - intros Hnone.
    split_and!;
      [exact (Hk Shares Hnone) | exact (Hk Price Hnone)
       | exact (Hk TransactionDate Hnone)].
  - intros Hno. apply (Hk Reporter). intros c Hc ->. exact (Hno Hc).
  - intros Hno. apply (Hk Position). intros c Hc ->. exact (Hno Hc).
Qed.

Lemma X16_witness :
  exists info,
    fst (extract_purchase_details ascii_db (u "보고자: 홍길동 장내매수")
           purchase_document) = Ok (Some info) /\
    shares info = [] /\ price info = [] /\ transaction_date info = [] /\
    position info = [].
Proof.
  assert (Hx : exists info,
            fst (extract_purchase_details ascii_db (u "보고자: 홍길동 장내매수")
                   purchase_document) = Ok (Some info))
    by (eexists; vm_compute; reflexivity).
  destruct Hx as [info Hx]. exists info. split; [exact Hx|].
  destruct (X16_fields_stay_empty_without_a_start ascii_db _ _ info Hx)
    as (Hd & _ & Hp).
  assert (Hnone : none_of (is_decimal ascii_db) (u "보고자: 홍길동 장내매수")).
  { intros c Hc. vm_compute in Hc.
    repeat (destruct Hc as [<- | Hc]; [reflexivity|]). destruct Hc. }
  assert (Hno : ~ In (ord "직") (u "보고자: 홍길동 장내매수")).
  { intros Hc. vm_compute in Hc.
    repeat (destruct Hc as [Hc | Hc]; [discriminate Hc|]). destruct Hc. }
  destruct (Hd Hnone) as (H1 & H2 & H3).
  split_and!; [exact H1 | exact H2 | exact H3 | exact (Hp Hno)].
Defined.

(** ** The requests of a run *)

Section RunRequests.

Context (db : UnicodeDb) (world : World).

(** The loop requests the detail of listed filings only, at most once for
    each entry of the list. *)
Lemma monitor_loop_fetched_in (ds : list ExecutiveDisclosure) :
  forall (rs : list MonitoringEvent) (P : gset pystr),
    let t := snd (monitor_loop db world ds rs P) in
    (forall rcept, In rcept (fetched t) ->
                   exists d, In d ds /\ rcept_no d = rcept) /\
    (length (fetched t) <= length ds)%nat.
Proof.
  induction ds as [|d ds IH]; intros rs P; cbv zeta.
  { cbn. split; [intros rcept []|lia]. }
  rewrite monitor_loop_cons. case_bool_decide as HP.
  { destruct (IH rs P) as [I1 I2]. split.
    - intros rcept Hin. destruct (I1 rcept Hin) as (d' & Hd' & Hr).
      exists d'. split; [right; exact Hd' | exact Hr].
    - cbn [length]. lia. }
  destruct (checked_trace_effects db world d) as (_ & _ & Hc).
  destruct (evidence db world (rcept_no d)) as [[info|]|e|];
    cbv zeta; cbn [snd].
  - destruct (emitted_trace_effects db world d info) as (_ & _ & He).
    destruct (IH (rs ++ [event_of world d info]) ({[rcept_no d]} ∪ P))
      as [I1 I2].
    rewrite fetched_app, He. split.
    + intros rcept [<- | Hin]; [exists d; split; [left|]; reflexivity|].
      destruct (I1 rcept Hin) as (d' & Hd' & Hr).
      exists d'. split; [right; exact Hd' | exact Hr].
    + cbn [app length]. lia.
  - destruct (IH rs P) as [I1 I2]. rewrite fetched_app, Hc. split.
    + intros rcept [<- | Hin]; [exists d; split; [left|]; reflexivity|].
      destruct (I1 rcept Hin) as (d' & Hd' & Hr).
      exists d'. split; [right; exact Hd' | exact Hr].
    + cbn [app length]. lia.
  - rewrite Hc. split.
    + intros rcept [<- | []]. exists d. split; [left|]; reflexivity.
    + cbn [length]. lia.
  - rewrite Hc. split.
    + intros rcept [<- | []]. exists d. split; [left|]; reflexivity.
    + cbn [length]. lia.
Qed.

End RunRequests.

(** X17.  The requests of a run are bounded: at most twenty listing
    requests, and detail requests only when the search returned, only for
    receipt numbers of filings it returned that were not processed before
    the run, and at most one for each filing returned. *)
Theorem X17_requests_of_a_run_are_bounded :
  forall (db : UnicodeDb) (world : World) (days_back : Z) (P : gset pystr),
    let r := monitor_executive_purchases db world days_back P in
    (length (requests (snd r)) <= 20)%nat /\
    (forall rcept,
       In rcept (fetched (snd r)) ->
       (rcept ∉ P) /\
       exists ds d,
         fst (run_search world days_back) = Ok ds /\
         In d ds /\ rcept_no d = rcept) /\
    (forall ds,
       fst (run_search world days_back) = Ok ds ->
       (length (fetched (snd r)) <= length ds)%nat).
Proof.
  intros db world days_back P r.
  split_and!.
  - destruct (run_shape db world days_back P) as (ds & t & evs & Ht & Hl & _).
    fold r in Ht. rewrite Ht, requests_app.
    apply loop_events_silent in Hl as [-> _]. rewrite app_nil_r.
    unfold search_trace, run_search.
    change (requests (LogInfo ?l :: ?x)) with (requests x).
    exact (proj2 (proj2 (search_events world (date_Ymd world days_back)
                           (date_Ymd world 0)))).
  - subst r. rewrite monitor_executive_purchases_eq.
    pose proof (quiet_search_trace world days_back) as (_ & _ & Qf & _).
    destruct (fst (run_search world days_back)) as [[|d0 ds0]|e|];
      cbv zeta; cbn [snd]; rewrite ?fetched_app, ?Qf; cbn [app fetched flat_map];
      try (intros rcept []).
    intros rcept Hin. split.
    + exact (monitor_loop_fetched db world (d0 :: ds0) [] P rcept Hin).
    + destruct (proj1 (monitor_loop_fetched_in db world (d0 :: ds0) [] P)
                  rcept Hin) as (d & Hd & Hr).
      exists (d0 :: ds0), d. auto.
  - subst r. rewrite monitor_executive_purchases_eq.
    pose proof (quiet_search_trace world days_back) as (_ & _ & Qf & _).
    destruct (fst (run_search world days_back)) as [[|d0 ds0]|e|];
      cbv zeta; cbn [snd]; rewrite ?fetched_app, ?Qf; cbn [app fetched flat_map];
      intros ds H; try discriminate H; injection H as <-.
    + cbn [length]. lia.
    + exact (proj2 (monitor_loop_fetched_in db world (d0 :: ds0) [] P)).
Qed.

Lemma X17_witness :
  let r := monitor_executive_purchases ascii_db both_boards_world 1 ∅ in
  fst (run_search both_boards_world 1)
  = Ok [to_disclosure samsung_filing; to_disclosure samsung_filing] /\
  (length (fetched (snd r)) <= 2)%nat /\
  fetched (snd r) = [u "20240115000001"].
Proof.
  intros r.
  assert (Hs : fst (run_search both_boards_world 1)
               = Ok [to_disclosure samsung_filing;
                     to_disclosure samsung_filing])
    by (vm_compute; reflexivity).
  split; [exact Hs|]. split.
  - exact (proj2 (proj2 (X17_requests_of_a_run_are_bounded ascii_db
                           both_boards_world 1 ∅)) _ Hs).
  - vm_compute. reflexivity.
Defined.

(** ** Amounts *)

Section Amounts.

Context (db : UnicodeDb).

(** A bounded repetition of a one-character body consumes no more than
    its bound. *)
Lemma repeat_greedy_length (m : option pystr -> pystr -> list way) :
  (forall cap s w, In w (m cap s) -> (length (consumed w) <= 1)%nat) ->
  forall fuel lo h cap s w,
    In w (repeat_greedy m fuel lo (Some h) cap s) ->
    (length (consumed w) <= h)%nat.
Proof.
  intros Hm fuel. induction fuel as [|fuel IH]; intros lo h cap s w Hin;
    simpl in Hin.
  { destruct lo; [|destruct Hin]. destruct Hin as [<- | []]. cbn. lia. }
  apply in_app_or in Hin as [Hin | Hin].
  - destruct h as [|h]; [destruct Hin|]. cbn [hi_allows hi_pred] in Hin.
    apply in_flat_map in Hin as [w1 [Hw1 Hin]].
    destruct (length (rest w1) <? length s)%nat; [|destruct Hin].
    apply in_map_iff in Hin as [w2 [<- Hw2]]. cbn [consumed].
    rewrite length_app. specialize (Hm _ _ _ Hw1).
    specialize (IH _ _ _ _ _ Hw2). cbn [Nat.pred] in IH. lia.
  - destruct lo; [|destruct Hin]. destruct Hin as [<- | []]. cbn. lia.
Qed.

(** A repetition whose body starts with the character [c] consumes
    nothing, or something that contains [c]. *)
Lemma repeat_greedy_head (m : option pystr -> pystr -> list way) (c : Z) :
  (forall cap s w, In w (m cap s) -> In c (consumed w)) ->
  forall fuel lo hi cap s w,
    In w (repeat_greedy m fuel lo hi cap s) ->
    consumed w = [] \/ In c (consumed w).
Proof.
  intros Hm fuel. destruct fuel as [|fuel]; intros lo hi cap s w Hin;
    simpl in Hin.
  { destruct lo; [|destruct Hin]. destruct Hin as [<- | []]. left.
    reflexivity. }
  apply in_app_or in Hin as [Hin | Hin].
  - destruct (hi_allows hi); [|destruct Hin].
    apply in_flat_map in Hin as [w1 [Hw1 Hin]].
    destruct (length (rest w1) <? length s)%nat; [|destruct Hin].
    apply in_map_iff in Hin as [w2 [<- Hw2]]. cbn [consumed]. right.
    apply in_or_app. left. exact (Hm _ _ _ Hw1).
  - destruct lo; [|destruct Hin]. destruct Hin as [<- | []]. left.
    reflexivity.
Qed.

(** What [\d{1,3}(?:,\d{3})*] consumes: at most three characters, or
    something with a comma. *)
Lemma grouped_number_shape (cap : option pystr) (s : pystr) (w : way) :
  In w (rmatch (grouped_number db) cap s) ->
  (length (consumed w) <= 3)%nat \/ In (ord ",") (consumed w).
Proof.
  unfold grouped_number. cbn [rmatch]. intros Hin.
  apply in_flat_map in Hin as [w1 [Hw1 Hin]].
  apply in_map_iff in Hin as [w2 [<- Hw2]]. cbn [consumed].
  assert (H1 : (length (consumed w1) <= 3)%nat).
  { apply (repeat_greedy_length (rmatch (digit db))) in Hw1; [exact Hw1|].
    intros cap0 s0 w0 H0. cbn [rmatch digit] in H0.
    destruct s0 as [|x s0]; [destruct H0|].
    destruct (is_decimal db x); [|destruct H0].
    destruct H0 as [<- | []]. cbn. lia. }
  apply (repeat_greedy_head _ (ord ",")) in Hw2.
  - destruct Hw2 as [-> | Hc].
    + left. rewrite app_nil_r. exact H1.
    + right. apply in_or_app. right. exact Hc.
  - intros cap0 s0 w0 H0. cbn [rmatch] in H0.
    destruct s0 as [|x s0]; [destruct H0|].
    destruct (x =? ord ",") eqn:Hx; [|destruct H0].
    cbn [flat_map app] in H0. rewrite app_nil_r in H0.
    apply in_map_iff in H0 as [w3 [<- _]]. cbn [consumed app].
    left. lia.
Qed.

(** The first match of a search is a way of the pattern at some place. *)
Lemma search_way (r : regex) (s : pystr) (c : option pystr) :
  search r s = Some c ->
  exists s' w, In w (rmatch r None s') /\ group1 w = c.
Proof.
  induction s as [|x s IH]; simpl.
  - destruct (rmatch r None []) as [|w ws] eqn:Hm; [discriminate|].
    intros H. injection H as H. exists [], w.
    rewrite Hm. split; [left; reflexivity | exact H].
  - destruct (rmatch r None (x :: s)) as [|w ws] eqn:Hm; [exact IH|].
    intros H. injection H as H. exists (x :: s), w.
    rewrite Hm. split; [left; reflexivity | exact H].
Qed.

Lemma rmatch_seq_in (r1 r2 : regex) (cap : option pystr) (s : pystr)
    (w : way) :
  In w (rmatch (Seq r1 r2) cap s) ->
  exists w1 w2,
    In w1 (rmatch r1 cap s) /\
    In w2 (rmatch r2 (group1 w1) (rest w1)) /\
    group1 w = group1 w2.
Proof.
  cbn [rmatch]. intros Hin. apply in_flat_map in Hin as [w1 [Hw1 Hin]].
  apply in_map_iff in Hin as [w2 [<- Hw2]]. exists w1, w2. auto.
Qed.

Lemma rmatch_group_in (r : regex) (cap : option pystr) (s : pystr) (w : way) :
  In w (rmatch (Group r) cap s) ->
  exists w1, In w1 (rmatch r cap s) /\ group1 w = Some (consumed w1).
Proof.
  cbn [rmatch]. intros Hin. apply in_map_iff in Hin as [w1 [<- Hw1]].
  exists w1. auto.
Qed.

(** Group 1 of an amount followed by its unit. *)
Lemma amount_shape (unit : Z) (content g : pystr) :
  search (Seq (Group (grouped_number db))
              (Seq (star (CharSet is_space)) (Lit unit))) content
  = Some (Some g) ->
  (length g <= 3)%nat \/ In (ord ",") g.
Proof.
  intros Hs. apply search_way in Hs as (s' & w & Hin & Hg).
  apply rmatch_seq_in in Hin as (w1 & w2 & Hw1 & Hw2 & Hw).
  apply rmatch_group_in in Hw1 as (w0 & Hw0 & Hw1).
  rewrite Hw in Hg.
  destruct (rmatch_group _ _ _ _ Hw2) as [H2 | (g' & Hg' & Hp & _)].
  - rewrite H2, Hw1 in Hg. injection Hg as <-.
    exact (grouped_number_shape _ _ _ Hw0).
  - rewrite Hg' in Hg. injection Hg as ->.
    destruct g as [|x g]; [left; cbn; lia|]. discriminate Hp.
Qed.

Lemma lstrip_in (c : Z) (s : pystr) :
  is_space c = false -> In c s -> In c (lstrip s).
Proof.
  intros Hc. induction s as [|x s IH]; [intros []|].
  cbn [lstrip]. destruct (is_space x) eqn:Hx; [|intros H; exact H].
  intros [-> | H]; [congruence | exact (IH H)].
Qed.

Lemma strip_in (c : Z) (s : pystr) :
  is_space c = false -> In c s -> In c (strip s).
Proof.
  intros Hc H. unfold strip, rstrip.
  apply in_rev. rewrite rev_involutive. apply lstrip_in; [exact Hc|].
  apply in_rev. rewrite rev_involutive. apply lstrip_in; [exact Hc | exact H].
Qed.

Lemma strip_length (s : pystr) : (length (strip s) <= length s)%nat.
Proof.
  destruct (strip_piece s) as (a & b & H).
  apply (f_equal (@length Z)) in H. rewrite !length_app in H. lia.
Qed.

Lemma apply_patterns_amounts (content : pystr) (info : PurchaseInfo) :
  apply_patterns (patterns db) content (initial_info content) = Ok info ->
  forall k,
    match k with
    | Shares | Price =>
      (length (get_field k info) <= 3)%nat \/ In (ord ",") (get_field k info)
    | _ => True
    end.
Proof.
  intros H.
  apply (apply_patterns_inv
           (fun k v => match k with
                       | Shares | Price =>
                         (length v <= 3)%nat \/ In (ord ",") v
                       | _ => True
                       end)
           (patterns db) content) with (info := initial_info content);
    [|exact H|].
  - unfold patterns.
    intros key pattern g [Hk | [Hk | [Hk | [Hk | [Hk | []]]]]] Hs;
      injection Hk as <- <-; try exact I.
    + destruct (amount_shape _ _ _ Hs) as [Hl | Hc].
      * left. pose proof (strip_length g). lia.
      * right. apply strip_in; [reflexivity | exact Hc].
    + destruct (amount_shape _ _ _ Hs) as [Hl | Hc].
      * left. pose proof (strip_length g). lia.
      * right. apply strip_in; [reflexivity | exact Hc].
  - intros k. destruct k; try exact I; left; cbn; lia.
Qed.

End Amounts.

(** X18.  An amount is extracted with more than three characters only
    when it is written with thousands separators: the shares and the price
    each have at most three characters or contain a comma.  Of a number
    written as 12345 before its unit only the last three digits are
    extracted. *)
Theorem X18_amounts_without_separators_keep_three_digits :
  forall (db : UnicodeDb) (content : pystr) (doc : Item)
         (info : PurchaseInfo),
    fst (extract_purchase_details db content doc) = Ok (Some info) ->
    ((length (shares info) <= 3)%nat \/ In (ord ",") (shares info)) /\
    ((length (price info) <= 3)%nat \/ In (ord ",") (price info)).
Proof.
  intros db content doc info H.
  destruct (extracted_shape db content doc info H) as (info0 & Hp & Hinfo).
  pose proof (apply_patterns_amounts db content info0 Hp Shares) as H1.
  pose proof (apply_patterns_amounts db content info0 Hp Price) as H2.
  cbn [get_field] in H1, H2.
  destruct Hinfo as [-> | ->]; split; assumption.
Qed.

Lemma X18_witness :
  exists info,
    fst (extract_purchase_details ascii_db (u "매수 12345주 67890원")
           purchase_document) = Ok (Some info) /\
    shares info = u "345" /\ price info = u "890" /\
    ((length (shares info) <= 3)%nat \/ In (ord ",") (shares info)).
Proof.
  assert (Hx : exists info,
            fst (extract_purchase_details ascii_db (u "매수 12345주 67890원")
                   purchase_document) = Ok (Some info) /\
            shares info = u "345" /\ price info = u "890")
    by (eexists; split_and!; vm_compute; reflexivity).
  destruct Hx as (info & Hx & Hs & Hp). exists info.
  split_and!; [exact Hx | exact Hs | exact Hp|].
  exact (proj1 (X18_amounts_without_separators_keep_three_digits ascii_db
                  _ _ info Hx)).
Defined.
